(** * Hyperparameter-search scripts of snnfw: a shallow embedding

    The development follows [scripts/hyperparameter_optimization.py] and its
    sibling scripts [optimize_k.py], [optimize_edge_fine.py],
    [optimize_edge_threshold.py], [optimize_saccades.py] and
    [optimize_saccades_focused.py].

    Modelling conventions.
    - A Python [float] is modelled by the rational it denotes.  The scripts
      only build floats with [float(text)], compare them with [>] and store
      them; rounding to a double and the infinite value of an overlong
      numeral are not modelled.
    - The captured output of the child process is a [string] of ASCII
      characters; [\d] and [\s] of the regular expressions are read on
      ASCII.
    - Dictionaries whose order matters ([param_grid], JSON objects) are
      association lists in insertion order; the file system is a finite map
      from paths to documents, kept structured rather than rendered as text.
    - [BASE_CONFIG] and its copies are mutable objects: they live in a heap
      of Python objects and [create_config] updates them in place.
    - The child process, the disk, the clock, Python's [random] module and
      Optuna's sampler and pruner are oracles of an environment; a script is
      a function of the world (heap, disk, console, generator state) that
      returns or raises.
    - Banner lines of the console are abbreviated; creating the results
      directory ([mkdir]) is not modelled. *)

From Stdlib Require Import ZArith QArith String Ascii List Lia Bool DecimalString
  DecimalNat Sorted.
From stdpp Require Import gmap strings list fin_maps sorting.

Local Open Scope string_scope.
Local Open Scope list_scope.
Set Warnings "-register-all,-abstract-large-number".

(* ===================================================================== *)
(** * Part I: definitions                                                 *)
(* ===================================================================== *)

(** ** Floats *)

(** [a > b] on floats. *)
Definition float_gt (a b : Q) : bool := negb (Qle_bool a b).

(** The sentinel objective [0.0]. *)
Definition sentinel : Q := 0%Q.

(** ** Scanning the captured output *)

Module Text.

Definition is_digit (c : ascii) : bool :=
  let n := nat_of_ascii c in (48 <=? n)%nat && (n <=? 57)%nat.

Definition is_dot (c : ascii) : bool := Ascii.eqb c ".".

(** The character class [[\d.]]. *)
Definition is_num_char (c : ascii) : bool := is_digit c || is_dot c.

(** The character class [\s] on ASCII: space, \t, \n, \v, \f, \r and the
    four separators 28 to 31, which Python counts as whitespace. *)
Definition is_space (c : ascii) : bool :=
  let n := nat_of_ascii c in
  (n =? 32)%nat || ((9 <=? n)%nat && (n <=? 13)%nat)
  || ((28 <=? n)%nat && (n <=? 31)%nat).

(** The longest prefix of [s] whose characters satisfy [p], and the rest. *)
Fixpoint span (p : ascii -> bool) (s : string) : string * string :=
  match s with
  | EmptyString => (EmptyString, EmptyString)
  | String c s' =>
      if p c then let '(a, b) := span p s' in (String c a, b)
      else (EmptyString, s)
  end.

(** [strip_prefix lit s] is what follows the literal [lit] at the start of
    [s], if [s] starts with it. *)
Fixpoint strip_prefix (lit s : string) : option string :=
  match lit with
  | EmptyString => Some s
  | String c lit' =>
      match s with
      | EmptyString => None
      | String d s' => if Ascii.eqb c d then strip_prefix lit' s' else None
      end
  end.

(** [([\d.]+)%] anchored at the start of [s]: the greedy class takes the
    whole run, and giving characters back cannot help since the next
    character would be of the class, not a percent sign. *)
Definition number_percent (s : string) : option string :=
  match span is_num_char s with
  | (EmptyString, _) => None
  | (num, String "%" _) => Some num
  | (_, _) => None
  end.

(** [lit([\d.]+)%] anchored at the start of [s]; the result is group 1. *)
Definition match_here (lit s : string) : option string :=
  match strip_prefix lit s with
  | Some rest => number_percent rest
  | None => None
  end.

(** [lit\s+([\d.]+)%] anchored at the start of [s]. *)
Definition match_here_ws (lit s : string) : option string :=
  match strip_prefix lit s with
  | Some rest =>
      match span is_space rest with
      | (EmptyString, _) => None
      | (_, rest') => number_percent rest'
      end
  | None => None
  end.

(** [re.search]: the leftmost position at which the anchored pattern
    matches. *)
Fixpoint search (here : string -> option string) (s : string) : option string :=
  match here s with
  | Some g => Some g
  | None =>
      match s with
      | EmptyString => None
      | String _ s' => search here s'
      end
  end.

(** [re.search(r'Overall Accuracy: ([\d.]+)%', output)] *)
Definition search_overall (output : string) : option string :=
  search (match_here "Overall Accuracy: ") output.

(** [re.search(r'Overall accuracy:\s+([\d.]+)%', output)] *)
Definition search_overall_ws (output : string) : option string :=
  search (match_here_ws "Overall accuracy:") output.

Definition digit_char (d : nat) : ascii := ascii_of_nat (48 + d).

(** [re.search(rf'Digit {digit}: ([\d.]+)%', output)] for [digit < 10]. *)
Definition search_digit (digit : nat) (output : string) : option string :=
  search (match_here ("Digit " +:+ String (digit_char digit) ": ")) output.

(** Value of a run of decimal digits read after [acc]; [None] when a
    character is not a digit. *)
Fixpoint digits_value (acc : Z) (s : string) : option Z :=
  match s with
  | EmptyString => Some acc
  | String c s' =>
      if is_digit c
      then digits_value (10 * acc + Z.of_nat (nat_of_ascii c - 48)) s'
      else None
  end.

(** [float(text)] on a text made of digits and dots, as group 1 always is:
    at most one dot and at least one digit, otherwise [ValueError]
    ([None]). *)
Definition py_float (s : string) : option Q :=
  let '(ip, rest) := span is_digit s in
  match rest with
  | EmptyString =>
      match ip with
      | EmptyString => None
      | _ => match digits_value 0 ip with
             | Some n => Some (inject_Z n)
             | None => None
             end
      end
  | String c fp =>
      if is_dot c then
        match ip, fp with
        | EmptyString, EmptyString => None
        | _, _ =>
            match digits_value 0 ip, digits_value 0 fp with
            | Some n, Some m =>
                let scale := (10 ^ Z.of_nat (String.length fp))%Z in
                Some (Qmake (n * scale + m) (Z.to_pos scale))
            | _, _ => None
            end
        end
      else None
  end.

End Text.

(** ** JSON documents and Python objects *)

(** A JSON document, as [json.dumps] writes it and [json.loads] reads it.
    Objects keep the order of their keys. *)
Inductive json : Type :=
| JNull
| JBool (b : bool)
| JInt (z : Z)
| JFloat (q : Q)
| JStr (s : string)
| JArr (items : list json)
| JObj (fields : list (string * json)).

(** A location of the heap. *)
Abbreviation loc := nat (only parsing).

(** A Python value: an immutable scalar or a reference to a mutable object. *)
Inductive pyval : Type :=
| VNone
| VBool (b : bool)
| VInt (z : Z)
| VFloat (q : Q)
| VStr (s : string)
| VRef (l : loc).

(** A mutable object of the heap. *)
Inductive pyobj : Type :=
| ODict (d : list (string * pyval))
| OList (l : list pyval).

(** A dictionary in insertion order. *)
Definition dict (V : Type) := list (string * V).

(** The value of a hyperparameter: a number, a string, a boolean or [None];
    it is immutable and serializes as itself. *)
Inductive scalar : Type :=
| SNone
| SBool (b : bool)
| SInt (z : Z)
| SFloat (q : Q)
| SStr (s : string).

Definition to_val (x : scalar) : pyval :=
  match x with
  | SNone => VNone
  | SBool b => VBool b
  | SInt z => VInt z
  | SFloat q => VFloat q
  | SStr s => VStr s
  end.

Definition scalar_json (x : scalar) : json :=
  match x with
  | SNone => JNull
  | SBool b => JBool b
  | SInt z => JInt z
  | SFloat q => JFloat q
  | SStr s => JStr s
  end.

Module Dict.
Section ops.
Context {V : Type}.

(** [d.get(k)] *)
Fixpoint get (d : dict V) (k : string) : option V :=
  match d with
  | [] => None
  | (k', v) :: d' => if String.eqb k k' then Some v else get d' k
  end.

(** [d[k] = v]: an existing key keeps its position. *)
Fixpoint set (d : dict V) (k : string) (v : V) : dict V :=
  match d with
  | [] => [(k, v)]
  | (k', v') :: d' =>
      if String.eqb k k' then (k, v) :: d' else (k', v') :: set d' k v
  end.

(** [d.get(k, default)] *)
Definition get_default (d : dict V) (k : string) (default : V) : V :=
  match get d k with Some v => v | None => default end.

(** [dict(pairs)]: a repeated key keeps its first position and takes
    its last value. *)
Definition of_pairs (pairs : list (string * V)) : dict V :=
  fold_left (fun d kv => set d (fst kv) (snd kv)) pairs [].

(** [dict(zip(names, values))] *)
Definition of_zip (names : list string) (values : list V) : dict V :=
  of_pairs (combine names values).
End ops.
End Dict.

Module Heap.

(** The scalar or container a heap value serializes to.  The fuel bounds
    the nesting depth; an acyclic heap never nests deeper than its number
    of objects. *)
Fixpoint dumps_fuel (fuel : nat) (h : list pyobj) (v : pyval) : option json :=
  match fuel with
  | O => None
  | S fuel' =>
      match v with
      | VNone => Some JNull
      | VBool b => Some (JBool b)
      | VInt z => Some (JInt z)
      | VFloat q => Some (JFloat q)
      | VStr s => Some (JStr s)
      | VRef l =>
          match h !! l with
          | Some (ODict d) =>
              JObj <$> mapM (fun kv : string * pyval =>
                               pair (fst kv) <$> dumps_fuel fuel' h (snd kv)) d
          | Some (OList xs) => JArr <$> mapM (dumps_fuel fuel' h) xs
          | None => None
          end
      end
  end.

(** [json.dumps(v)]; [None] stands for the [ValueError] of a circular
    structure. *)
Definition dumps (h : list pyobj) (v : pyval) : option json :=
  dumps_fuel (S (length h)) h v.

(** [json.loads(text)]: every array and object of the document becomes a
    fresh object, allocated at the end of the heap. *)
Fixpoint loads (j : json) (h : list pyobj) : pyval * list pyobj :=
  match j with
  | JNull => (VNone, h)
  | JBool b => (VBool b, h)
  | JInt z => (VInt z, h)
  | JFloat q => (VFloat q, h)
  | JStr s => (VStr s, h)
  | JArr items =>
      let fix go (items : list json) (h : list pyobj) : list pyval * list pyobj :=
        match items with
        | [] => ([], h)
        | x :: items' =>
            let '(v, h1) := loads x h in
            let '(vs, h2) := go items' h1 in
            (v :: vs, h2)
        end in
      let '(vs, h') := go items h in
      (VRef (length h'), h' ++ [OList vs])
  | JObj fields =>
      let fix go (fields : list (string * json)) (h : list pyobj)
        : list (string * pyval) * list pyobj :=
        match fields with
        | [] => ([], h)
        | (k, x) :: fields' =>
            let '(v, h1) := loads x h in
            let '(d, h2) := go fields' h1 in
            ((k, v) :: d, h2)
        end in
      let '(pairs, h') := go fields h in
      (VRef (length h'), h' ++ [ODict (Dict.of_pairs pairs)])
  end.

End Heap.

(** ** Exceptions, the world and the monad of the scripts *)

(** The exceptions the scripts can meet.  All of them derive from
    [Exception]. *)
Inductive exn : Type :=
| KeyError (key : string)
| TypeError
| ValueError (msg : string)
| OSError (path : string)
| TimeoutExpired
| TrialPruned
| OtherError (msg : string).

Definition is_timeout (e : exn) : bool :=
  match e with TimeoutExpired => true | _ => false end.

(** What [subprocess.run] does: it returns a completed process, whatever its
    exit code (the scripts do not pass [check=True]), or raises. *)
Inductive proc_outcome : Type :=
| Completed (returncode : Z) (stdout stderr : string)
| Raised (e : exn).

(** One line of the console, kept structured. *)
Inductive line : Type :=
| PText (s : string)
| PGridHeader (param_grid : dict (list scalar)) (max_experiments : Z)
| PRunning (n : nat)
| PTesting (i n : nat) (params : dict scalar)
| PAccuracy (a : Q)
| PNewBest (a : Q)
| PWarnParse
| PTimedOut (run_id : nat)
| PErrorRunning (run_id : nat) (e : exn)
| PPhaseBest (a : Q) (best : option (dict scalar))
| PFinal (search_acc final_acc : Q) (best : option (dict scalar))
| PSaved (path : string)
| PTestingValue (x : scalar)
| PErrorValue (x : scalar) (e : exn)
| PBestValue (x : scalar) (a : Q)
| PResultLine (x : scalar) (a : Q) (is_best : bool)
| PTrial (number total : nat) (params : dict scalar)
| PTrialResult (a : Q)
| PTail (output : string)
| PTimeout
| PError (e : exn).

(** One line of [summary.txt]. *)
Inductive summary_line : Type :=
| STitle
| STotal (n : nat)
| SBestAccuracy (a : Q)
| SBestParam (key : string) (value : scalar)
| STop (rank : nat) (a : Q) (params : dict scalar)
| SBestValue (x : scalar) (a : Q)
| SResult (x : scalar) (a : Q) (is_best : bool).

(** A file of the results directory. *)
Inductive file : Type :=
| FJson (j : json)
| FText (s : string)
| FSummary (lines : list summary_line).

(** A call made on an Optuna [trial] object. *)
Inductive call : Type :=
| CSuggest (number : nat) (name : string) (value : scalar)
| CReport (number : nat) (value : Q) (step : nat)
| CShouldPrune (number : nat) (answer : bool).

(** The state outside the optimizer object. *)
Record world : Type := World {
  heap : list pyobj;          (* Python objects *)
  fs : gmap string file;      (* durable storage *)
  console : list line;        (* printed lines, oldest first *)
  rng : list Z;               (* state of the global [random] generator *)
  ticks : nat;                (* number of interactions with the outside *)
  calls : list call           (* calls made on trial objects, oldest first *)
}.

(** The outside of the scripts: the child process, the disk, the clock and
    Python's [random] module. *)
Record env : Type := Env {
  (* [subprocess.run(cmd, ...)] at a given tick, on a given disk *)
  spawn : nat -> list string -> gmap string file -> proc_outcome;
  (* whether [open(path, 'w')] succeeds at a given tick *)
  can_write : nat -> string -> bool;
  (* [time.time()] *)
  now : nat -> Q;
  (* [random.seed(a)]: the state depends on [a] only *)
  seed_state : Z -> list Z;
  (* [random.sample(population, k)] for [0 <= k <= n]: the positions drawn
     from a population of [n] elements, and the next state *)
  sample_positions : list Z -> nat -> nat -> list nat * list Z;
  (* [f"{x:.<digits>f}"] *)
  fmt_float : nat -> Q -> string
}.

Inductive res (A : Type) : Type :=
| Ret (a : A) (w : world)
| Exc (e : exn) (w : world).
Arguments Ret {A} a w.
Arguments Exc {A} e w.

Definition M (A : Type) : Type := world -> res A.

Definition ret {A} (a : A) : M A := fun w => Ret a w.

Definition raise {A} (e : exn) : M A := fun w => Exc e w.

Definition bind {A B} (m : M A) (k : A -> M B) : M B :=
  fun w => match m w with
           | Ret a w' => k a w'
           | Exc e w' => Exc e w'
           end.

(** [try: body  except <sel>: handler]: the handler runs on the world the
    body left behind. *)
Definition try_except {A} (body : M A) (sel : exn -> bool) (handler : exn -> M A) : M A :=
  fun w => match body w with
           | Ret a w' => Ret a w'
           | Exc e w' => if sel e then handler e w' else Exc e w'
           end.

Notation "x <- m ;; k" := (bind m (fun x => k))
  (at level 62, m at next level, right associativity).
Notation "m ;;; k" := (bind m (fun _ => k))
  (at level 62, right associativity).

Definition get_world : M world := fun w => Ret w w.
Definition set_heap (h : list pyobj) : M unit :=
  fun w => Ret tt (World h (fs w) (console w) (rng w) (ticks w) (calls w)).
Definition set_fs (f : gmap string file) : M unit :=
  fun w => Ret tt (World (heap w) f (console w) (rng w) (ticks w) (calls w)).
Definition set_rng (g : list Z) : M unit :=
  fun w => Ret tt (World (heap w) (fs w) (console w) g (ticks w) (calls w)).

(** One interaction with the outside: the tick it happens at. *)
Definition tick : M nat :=
  fun w => Ret (ticks w) (World (heap w) (fs w) (console w) (rng w) (S (ticks w)) (calls w)).

(** [print(...)] *)
Definition print (l : line) : M unit :=
  fun w => Ret tt (World (heap w) (fs w) (console w ++ [l]) (rng w) (ticks w) (calls w)).

(** A call on a trial object is recorded. *)
Definition record_call (c : call) : M unit :=
  fun w => Ret tt (World (heap w) (fs w) (console w) (rng w) (ticks w) (calls w ++ [c])).

(** Fold of a loop body over a list, threading the loop state. *)
Fixpoint for_each {A S} (xs : list A) (body : A -> S -> M S) (s : S) : M S :=
  match xs with
  | [] => ret s
  | x :: xs' => s' <- body x s ;; for_each xs' body s'
  end.

(** ** Operations on the outside and on heap objects *)

Section outside.
Variable E : env.

(** [open(path, 'w')]: the file is created or truncated, or [OSError]. *)
Definition open_w (path : string) : M unit :=
  t <- tick ;;
  if can_write E t path
  then w <- get_world ;; set_fs (<[path := FText ""]> (fs w))
  else raise (OSError path).

(** [with open(path, 'w') as f: json.dump(v, f)] *)
Definition json_dump_to (path : string) (v : pyval) : M unit :=
  open_w path ;;;
  w <- get_world ;;
  match Heap.dumps (heap w) v with
  | Some j => set_fs (<[path := FJson j]> (fs w))
  | None => raise (ValueError "Circular reference detected")
  end.

(** [with open(path, 'w') as f: f.write(...)] for a document built
    without touching the heap. *)
Definition write_file (path : string) (content : file) : M unit :=
  open_w path ;;;
  w <- get_world ;; set_fs (<[path := content]> (fs w)).

(** [subprocess.run(cmd, capture_output=True, text=True, timeout=...)] *)
Definition subprocess_run (cmd : list string) : M (Z * string * string) :=
  t <- tick ;;
  w <- get_world ;;
  match spawn E t cmd (fs w) with
  | Completed rc out err => ret (rc, out, err)
  | Raised e => raise e
  end.

(** [time.time()] *)
Definition time_time : M Q := t <- tick ;; ret (now E t).

(** [random.seed(a)] *)
Definition random_seed (a : Z) : M unit := set_rng (seed_state E a).

(** [random.sample(population, k)] *)
Definition random_sample {A} (population : list A) (k : Z) : M (list A) :=
  if ((k <? 0) || (Z.of_nat (length population) <? k))%Z
  then raise (ValueError "Sample larger than population or is negative")
  else
    w <- get_world ;;
    let '(positions, g) :=
      sample_positions E (rng w) (length population) (Z.to_nat k) in
    set_rng g ;;;
    ret (omap (fun i => population !! i) positions).
End outside.

(** [d[k]] on a dictionary value. *)
Definition getitem {V} (d : dict V) (k : string) : M V :=
  match Dict.get d k with
  | Some v => ret v
  | None => raise (KeyError k)
  end.

(** [float(match.group(1))] *)
Definition to_float (group : string) : M Q :=
  match Text.py_float group with
  | Some a => ret a
  | None => raise (ValueError "could not convert string to float")
  end.

(** [obj[k]] on a value of the heap. *)
Definition subscript (obj : pyval) (k : string) : M pyval :=
  w <- get_world ;;
  match obj with
  | VRef l =>
      match heap w !! l with
      | Some (ODict d) => getitem d k
      | _ => raise TypeError
      end
  | _ => raise TypeError
  end.

(** [obj[k] = x] on a value of the heap: the object is updated in place. *)
Definition store_subscript (obj : pyval) (k : string) (x : pyval) : M unit :=
  w <- get_world ;;
  match obj with
  | VRef l =>
      match heap w !! l with
      | Some (ODict d) => set_heap (<[l := ODict (Dict.set d k x)]> (heap w))
      | _ => raise TypeError
      end
  | _ => raise TypeError
  end.

(** [obj[k1][k2]...] *)
Fixpoint walk (obj : pyval) (path : list string) : M pyval :=
  match path with
  | [] => ret obj
  | k :: path' => o <- subscript obj k ;; walk o path'
  end.

(** [obj[k1]...[kn][key] = rhs]: the right-hand side is evaluated first. *)
Definition assign (obj : pyval) (path : list string) (key : string) (rhs : M pyval) : M unit :=
  x <- rhs ;;
  target <- walk obj path ;;
  store_subscript target key x.

(** [with open(path, 'r') as f: json.load(f)] *)
Definition json_load (path : string) : M pyval :=
  tick ;;;
  w <- get_world ;;
  match fs w !! path with
  | Some (FJson j) =>
      let '(v, h') := Heap.loads j (heap w) in
      set_heap h' ;;; ret v
  | Some _ => raise (ValueError "JSONDecodeError")
  | None => raise (OSError path)
  end.

(** [json.loads(json.dumps(v))] *)
Definition deep_copy (v : pyval) : M pyval :=
  w <- get_world ;;
  match Heap.dumps (heap w) v with
  | Some j =>
      let '(v', h') := Heap.loads j (heap w) in
      set_heap h' ;;; ret v'
  | None => raise (ValueError "Circular reference detected")
  end.

(** [itertools.product] of the axes: the leftmost axis varies slowest. *)
Fixpoint product {A} (axes : list (list A)) : list (list A) :=
  match axes with
  | [] => [[]]
  | xs :: rest => flat_map (fun x => map (cons x) (product rest)) xs
  end.

(** [str(n)] *)
Definition str_nat (n : nat) : string :=
  DecimalString.NilEmpty.string_of_uint (Nat.to_uint n).

(** [str(z)] *)
Definition str_Z (z : Z) : string :=
  DecimalString.NilZero.string_of_int (Z.to_int z).

(** [f"{n:04d}"] *)
Definition fmt04d (n : nat) : string :=
  let s := str_nat n in
  Nat.iter (4 - String.length s) (String "0") s.

(** ** [hyperparameter_optimization.py] *)

Module HyperOpt.

(** The literal [BASE_CONFIG]. *)
Definition BASE_CONFIG_doc : json :=
  JObj [
    ("experiment", JObj [
       ("name", JStr "mnist_hyperparam_search");
       ("description", JStr "Hyperparameter optimization");
       ("version", JStr "5.0.0")]);
    ("network", JObj [
       ("grid_size", JInt 8);
       ("region_size", JInt 3);
       ("num_orientations", JInt 8);
       ("neurons_per_feature", JInt 1);
       ("temporal_window_ms", JFloat 200.0);
       ("edge_threshold", JFloat 0.15);
       ("orientations_degrees",
         JArr [JInt 0; JFloat 22.5; JInt 45; JFloat 67.5;
               JInt 90; JFloat 112.5; JInt 135; JFloat 157.5])]);
    ("neuron", JObj [
       ("window_size_ms", JFloat 200.0);
       ("similarity_threshold", JFloat 0.7);
       ("max_patterns", JInt 100)]);
    ("adapters", JObj [
       ("retina", JObj [
          ("type", JStr "retina");
          ("enabled", JBool true);
          ("temporal_window_ms", JFloat 200.0);
          ("parameters", JObj [
             ("grid_size", JInt 8);
             ("num_orientations", JInt 8);
             ("edge_threshold", JFloat 0.15);
             ("neuron_window_size", JFloat 200.0);
             ("neuron_threshold", JFloat 0.7);
             ("neuron_max_patterns", JInt 100);
             ("edge_operator", JStr "sobel");
             ("encoding_strategy", JStr "rate")])])]);
    ("training", JObj [
       ("examples_per_digit", JInt 1000);
       ("test_images", JInt 2000);
       ("num_digits", JInt 10)]);
    ("classification", JObj [
       ("strategy", JStr "majority");
       ("k_neighbors", JInt 5);
       ("distance_exponent", JFloat 1.0);
       ("similarity_metric", JStr "cosine")]);
    ("data", JObj [
       ("train_images", JStr "/home/dean/repos/ctm/data/MNIST/raw/train-images-idx3-ubyte");
       ("train_labels", JStr "/home/dean/repos/ctm/data/MNIST/raw/train-labels-idx1-ubyte");
       ("test_images", JStr "/home/dean/repos/ctm/data/MNIST/raw/t10k-images-idx3-ubyte");
       ("test_labels", JStr "/home/dean/repos/ctm/data/MNIST/raw/t10k-labels-idx1-ubyte")]);
    ("output", JObj [
       ("show_progress", JBool true);
       ("show_confusion_matrix", JBool false);
       ("save_results", JBool true);
       ("results_file", JStr "results/hyperparam_results.json")])].

(** The heap once the module is imported: the objects of [BASE_CONFIG]. *)
Definition initial_heap : list pyobj := snd (Heap.loads BASE_CONFIG_doc []).

(** The global [BASE_CONFIG]. *)
Definition BASE_CONFIG : pyval := fst (Heap.loads BASE_CONFIG_doc []).

(** The literal [SEARCH_SPACE]; no function of the script reads it. *)
Definition SEARCH_SPACE : dict (list scalar) :=
  [("edge_threshold",
     [SFloat 0.10; SFloat 0.12; SFloat 0.15; SFloat 0.18; SFloat 0.20;
      SFloat 0.22; SFloat 0.25]);
   ("k_neighbors", [SInt 3; SInt 5; SInt 7; SInt 9; SInt 11]);
   ("similarity_threshold",
     [SFloat 0.5; SFloat 0.6; SFloat 0.7; SFloat 0.75; SFloat 0.8; SFloat 0.85]);
   ("temporal_window_ms", [SFloat 150.0; SFloat 200.0; SFloat 250.0]);
   ("max_patterns", [SInt 50; SInt 75; SInt 100; SInt 150; SInt 200])].

(** One entry of [self.results]. *)
Record trial : Type := Trial {
  run_id : nat;
  params : dict scalar;
  accuracy : Q;
  per_digit : dict Q;
  timestamp : Q
}.

(** The fields of a [HyperparameterOptimizer]. *)
Record optimizer : Type := Optimizer {
  build_dir : string;
  results_dir : string;
  results : list trial;
  best_accuracy : Q;
  best_config : option (dict scalar)
}.

(** [HyperparameterOptimizer()] with the default directories. *)
Definition init : optimizer :=
  Optimizer "build" "results/hyperparam" [] 0%Q None.

(** [config[k1]...[key] = params[name]] *)
Definition set_from (config : pyval) (params : dict scalar)
    (path : list string) (key name : string) : M unit :=
  assign config path key (x <- getitem params name ;; ret (to_val x)).

Definition create_config (params : dict scalar) : M pyval :=
  config <- deep_copy BASE_CONFIG ;;
  set_from config params ["network"] "edge_threshold" "edge_threshold" ;;;
  set_from config params ["network"] "temporal_window_ms" "temporal_window_ms" ;;;
  set_from config params ["neuron"] "window_size_ms" "temporal_window_ms" ;;;
  set_from config params ["neuron"] "similarity_threshold" "similarity_threshold" ;;;
  set_from config params ["neuron"] "max_patterns" "max_patterns" ;;;
  set_from config params ["adapters"; "retina"] "temporal_window_ms" "temporal_window_ms" ;;;
  set_from config params ["adapters"; "retina"; "parameters"] "edge_threshold" "edge_threshold" ;;;
  set_from config params ["adapters"; "retina"; "parameters"] "neuron_window_size" "temporal_window_ms" ;;;
  set_from config params ["adapters"; "retina"; "parameters"] "neuron_threshold" "similarity_threshold" ;;;
  set_from config params ["adapters"; "retina"; "parameters"] "neuron_max_patterns" "max_patterns" ;;;
  set_from config params ["classification"] "k_neighbors" "k_neighbors" ;;;
  ret config.

Section with_env.
Variable E : env.

Definition config_path (self : optimizer) (run_id : nat) : string :=
  results_dir self +:+ "/config_" +:+ fmt04d run_id +:+ ".json".

Definition output_path (self : optimizer) (run_id : nat) : string :=
  results_dir self +:+ "/output_" +:+ fmt04d run_id +:+ ".txt".

Definition command (self : optimizer) (run_id : nat) : list string :=
  ["bash"; "-c";
   "cd " +:+ build_dir self +:+ " && "
   +:+ "LD_LIBRARY_PATH=/usr/lib/x86_64-linux-gnu:$LD_LIBRARY_PATH "
   +:+ "SPDLOG_LEVEL=error "
   +:+ "./mnist_classification_strategies ../" +:+ config_path self run_id
   +:+ " 2>&1"].

(** "Parse accuracy from output" *)
Definition parse_accuracy (output : string) : M Q :=
  match Text.search_overall output with
  | Some group => to_float group
  | None => print PWarnParse ;;; ret 0%Q
  end.

(** "Parse per-digit accuracy" *)
Definition parse_digit (output : string) (digit : nat) (per_digit : dict Q)
  : M (dict Q) :=
  match Text.search_digit digit output with
  | Some group =>
      a <- to_float group ;;
      ret (Dict.set per_digit (str_nat digit) a)
  | None => ret per_digit
  end.

Definition parse_per_digit (output : string) : M (dict Q) :=
  for_each (seq 0 10) (parse_digit output) [].

(** The body of the [try] block of [run_experiment]. *)
Definition run_and_parse (self : optimizer) (run_id : nat) : M (Q * dict Q) :=
  result <- subprocess_run E (command self run_id) ;;
  let output := snd (fst result) in
  accuracy <- parse_accuracy output ;;
  per_digit <- parse_per_digit output ;;
  write_file E (output_path self run_id) (FText output) ;;;
  ret (accuracy, per_digit).

(** The [try] statement of [run_experiment]. *)
Definition attempt (self : optimizer) (run_id : nat) : M (Q * dict Q) :=
  try_except
    (try_except (run_and_parse self run_id)
       is_timeout
       (fun _ => print (PTimedOut run_id) ;;; ret (0%Q, [])))
    (fun _ => true)
    (fun e => print (PErrorRunning run_id e) ;;; ret (0%Q, [])).

Definition run_experiment (self : optimizer) (config : pyval) (run_id : nat)
  : M (Q * dict Q) :=
  json_dump_to E (config_path self run_id) config ;;;
  attempt self run_id.

(** The document written to [all_results.json]. *)
Definition trial_json (r : trial) : json :=
  JObj [("run_id", JInt (Z.of_nat (run_id r)));
        ("params", JObj (map (fun kv => (fst kv, scalar_json (snd kv))) (params r)));
        ("accuracy", JFloat (accuracy r));
        ("per_digit", JObj (map (fun kv => (fst kv, JFloat (snd kv))) (per_digit r)));
        ("timestamp", JFloat (timestamp r))].

Definition results_json (self : optimizer) : json :=
  JObj [("results", JArr (map trial_json (results self)));
        ("best_accuracy", JFloat (best_accuracy self));
        ("best_config",
          match best_config self with
          | Some c => JObj (map (fun kv => (fst kv, scalar_json (snd kv))) c)
          | None => JNull
          end)].

(** [sorted(rs, key=lambda x: x["accuracy"], reverse=True)]: a stable
    sort, so trials of equal accuracy keep their order. *)
Fixpoint insert_desc (r : trial) (sorted : list trial) : list trial :=
  match sorted with
  | [] => [r]
  | r' :: sorted' =>
      if float_gt (accuracy r') (accuracy r)
      then r' :: insert_desc r sorted'
      else r :: sorted
  end.

Definition sorted_desc (rs : list trial) : list trial :=
  foldr insert_desc [] rs.

(** The lines written to [summary.txt]. *)
Definition summary (self : optimizer) : list summary_line :=
  [STitle; STotal (length (results self)); SBestAccuracy (best_accuracy self)]
  ++ map (fun kv => SBestParam (fst kv) (snd kv))
         (match best_config self with Some c => c | None => [] end)
  ++ imap (fun i r => STop (i + 1) (accuracy r) (params r))
          (take 10 (sorted_desc (results self))).

Definition save_results (self : optimizer) : M unit :=
  write_file E (results_dir self +:+ "/all_results.json") (FJson (results_json self)) ;;;
  write_file E (results_dir self +:+ "/summary.txt") (FSummary (summary self)).

(** [full_params] of [grid_search]: the swept values, the hard-coded
    defaults elsewhere. *)
Definition fill_defaults (params : dict scalar) : dict scalar :=
  [("edge_threshold", Dict.get_default params "edge_threshold" (SFloat 0.15));
   ("k_neighbors", Dict.get_default params "k_neighbors" (SInt 5));
   ("similarity_threshold", Dict.get_default params "similarity_threshold" (SFloat 0.7));
   ("temporal_window_ms", Dict.get_default params "temporal_window_ms" (SFloat 200.0));
   ("max_patterns", Dict.get_default params "max_patterns" (SInt 100))].

(** The [if accuracy > self.best_accuracy] of the loop. *)
Definition update_best (accuracy : Q) (full_params : dict scalar) (self : optimizer)
  : M optimizer :=
  if float_gt accuracy (best_accuracy self)
  then
    print (PNewBest accuracy) ;;;
    ret (Optimizer (build_dir self) (results_dir self) (results self)
                   accuracy (Some full_params))
  else ret self.

(** One iteration of the loop of [grid_search]. *)
Definition grid_step (param_names : list string) (n : nat)
    (ic : nat * list scalar) (self : optimizer) : M optimizer :=
  let '(i, combo) := ic in
  let params := Dict.of_zip param_names combo in
  let full_params := fill_defaults params in
  print (PTesting (i + 1) n params) ;;;
  config <- create_config full_params ;;
  r <- run_experiment self config (length (results self)) ;;
  let '(accuracy, per_digit) := r in
  t <- time_time E ;;
  let result := Trial (length (results self)) full_params accuracy per_digit t in
  let self1 := Optimizer (build_dir self) (results_dir self)
                         (results self ++ [result])
                         (best_accuracy self) (best_config self) in
  print (PAccuracy accuracy) ;;;
  self2 <- update_best accuracy full_params self1 ;;
  save_results self2 ;;;
  ret self2.

(** The combinations [grid_search] goes through. *)
Definition select_combinations (param_grid : dict (list scalar)) (max_experiments : Z)
  : M (list (list scalar)) :=
  let combinations := product (map snd param_grid) in
  if (max_experiments <? Z.of_nat (length combinations))%Z
  then random_seed E 42 ;;; random_sample E combinations max_experiments
  else ret combinations.

Definition grid_search (param_grid : dict (list scalar)) (max_experiments : Z)
    (self : optimizer) : M optimizer :=
  print (PGridHeader param_grid max_experiments) ;;;
  let param_names := map fst param_grid in
  combinations <- select_combinations param_grid max_experiments ;;
  print (PRunning (length combinations)) ;;;
  for_each (imap pair combinations)
           (grid_step param_names (length combinations)) self.

(** Phase 3 of [main]. *)
Definition final_validation (self : optimizer) (best : dict scalar) : M unit :=
  print (PText "PHASE 3: Final Validation with Full Dataset") ;;;
  full_config <- create_config best ;;
  assign full_config ["training"] "examples_per_digit" (ret (VInt 5000)) ;;;
  assign full_config ["training"] "test_images" (ret (VInt 10000)) ;;;
  r <- run_experiment self full_config 9999 ;;
  print (PFinal (best_accuracy self) (fst r) (best_config self)) ;;;
  json_dump_to E (results_dir self +:+ "/best_config_full.json") full_config ;;;
  print (PSaved (results_dir self +:+ "/best_config_full.json")).

(** The two grids of [main]. *)
Definition phase1_grid : dict (list scalar) :=
  [("edge_threshold", [SFloat 0.10; SFloat 0.15; SFloat 0.20; SFloat 0.25]);
   ("k_neighbors", [SInt 3; SInt 5; SInt 7; SInt 9])].

Definition phase2_grid : dict (list scalar) :=
  [("similarity_threshold", [SFloat 0.6; SFloat 0.7; SFloat 0.75; SFloat 0.8]);
   ("max_patterns", [SInt 75; SInt 100; SInt 150])].

(** [if optimizer.best_config:] holds for a non-empty dictionary. *)
Definition truthy (c : option (dict scalar)) : bool :=
  match c with
  | Some (_ :: _) => true
  | _ => false
  end.

(** [main], up to the end of phase 2. *)
Definition search_phases : M optimizer :=
  print (PText "PHASE 1: Coarse Grid Search (edge_threshold, k_neighbors)") ;;;
  self <- grid_search phase1_grid 16 init ;;
  print (PPhaseBest (best_accuracy self) (best_config self)) ;;;
  if truthy (best_config self)
  then
    print (PText "PHASE 2: Fine-tuning (similarity_threshold, max_patterns)") ;;;
    grid_search phase2_grid 12 self
  else ret self.

Definition main : M optimizer :=
  self <- search_phases ;;
  (if truthy (best_config self)
   then final_validation self (match best_config self with Some c => c | None => [] end)
   else ret tt) ;;;
  print (PText "OPTIMIZATION COMPLETE") ;;;
  ret self.

End with_env.

(** The world when the script starts: the module globals, an empty
    results directory, a silent console. *)
Definition initial_world (files : gmap string file) (g : list Z) : world :=
  World initial_heap files [] g 0 [].

End HyperOpt.

(** ** The single-axis sweeps: [optimize_k.py] and [optimize_edge_fine.py]

    The two scripts are the same program up to the constants gathered in a
    [sweep]: their [BASE_CONFIG], the results directory, the locations the
    candidate is written to and the way it is rendered in file names. *)

(** [BASE_CONFIG] of the sweeps; it differs from the literal of
    [hyperparameter_optimization.py] in the fields that are arguments here. *)
Definition sweep_base_doc (name description version : string) (edge : Q)
    (results_file : string) : json :=
  JObj [
    ("experiment", JObj [
       ("name", JStr name);
       ("description", JStr description);
       ("version", JStr version)]);
    ("network", JObj [
       ("grid_size", JInt 8);
       ("region_size", JInt 3);
       ("num_orientations", JInt 8);
       ("neurons_per_feature", JInt 1);
       ("temporal_window_ms", JFloat 200.0);
       ("edge_threshold", JFloat edge);
       ("orientations_degrees",
         JArr [JInt 0; JFloat 22.5; JInt 45; JFloat 67.5;
               JInt 90; JFloat 112.5; JInt 135; JFloat 157.5])]);
    ("neuron", JObj [
       ("window_size_ms", JFloat 200.0);
       ("similarity_threshold", JFloat 0.7);
       ("max_patterns", JInt 100)]);
    ("adapters", JObj [
       ("retina", JObj [
          ("type", JStr "retina");
          ("enabled", JBool true);
          ("temporal_window_ms", JFloat 200.0);
          ("parameters", JObj [
             ("grid_size", JInt 8);
             ("num_orientations", JInt 8);
             ("edge_threshold", JFloat edge);
             ("neuron_window_size", JFloat 200.0);
             ("neuron_threshold", JFloat 0.7);
             ("neuron_max_patterns", JInt 100);
             ("edge_operator", JStr "sobel");
             ("encoding_strategy", JStr "rate")])])]);
    ("training", JObj [
       ("examples_per_digit", JInt 5000);
       ("test_images", JInt 10000);
       ("num_digits", JInt 10)]);
    ("classification", JObj [
       ("strategy", JStr "majority");
       ("k_neighbors", JInt 5);
       ("distance_exponent", JFloat 1.0);
       ("similarity_metric", JStr "cosine")]);
    ("data", JObj [
       ("train_images", JStr "/home/dean/repos/ctm/data/MNIST/raw/train-images-idx3-ubyte");
       ("train_labels", JStr "/home/dean/repos/ctm/data/MNIST/raw/train-labels-idx1-ubyte");
       ("test_images", JStr "/home/dean/repos/ctm/data/MNIST/raw/t10k-images-idx3-ubyte");
       ("test_labels", JStr "/home/dean/repos/ctm/data/MNIST/raw/t10k-labels-idx1-ubyte")]);
    ("output", JObj [
       ("show_progress", JBool true);
       ("show_confusion_matrix", JBool false);
       ("save_results", JBool true);
       ("results_file", JStr results_file)])].

Record sweep : Type := Sweep {
  sweep_doc : json;                                (* BASE_CONFIG *)
  sweep_dir : string;                              (* results_dir *)
  sweep_targets : list (list string * string);     (* where the candidate goes *)
  sweep_label : env -> scalar -> string;           (* the candidate in file names *)
  sweep_candidates : list scalar;                  (* the literal list of main *)
  sweep_formats_best : bool;                       (* best printed with a float format *)
  sweep_saves_best : bool                          (* best_config.json is written *)
}.

Module SweepScript.
Section with_env.
Variable E : env.
Variable S : sweep.

Definition initial_heap : list pyobj := snd (Heap.loads (sweep_doc S) []).
Definition BASE_CONFIG : pyval := fst (Heap.loads (sweep_doc S) []).

(** [config = json.loads(json.dumps(BASE_CONFIG))] followed by the
    assignments of the candidate. *)
Definition candidate_config (x : scalar) : M pyval :=
  config <- deep_copy BASE_CONFIG ;;
  for_each (sweep_targets S)
    (fun target (_ : unit) =>
       assign config (fst target) (snd target) (ret (to_val x))) tt ;;;
  ret config.

Definition config_path (x : scalar) : string :=
  sweep_dir S +:+ "/config_" +:+ sweep_label S E x +:+ ".json".

Definition output_path (x : scalar) : string :=
  sweep_dir S +:+ "/output_" +:+ sweep_label S E x +:+ ".txt".

Definition command (x : scalar) : list string :=
  ["bash"; "-c";
   "cd build && "
   +:+ "LD_LIBRARY_PATH=/usr/lib/x86_64-linux-gnu:$LD_LIBRARY_PATH "
   +:+ "SPDLOG_LEVEL=error "
   +:+ "./mnist_classification_strategies ../" +:+ config_path x
   +:+ " 2>&1"].

(** The body of the [try] block. *)
Definition run_and_parse (x : scalar) : M Q :=
  result <- subprocess_run E (command x) ;;
  let output := snd (fst result) in
  accuracy <-
    match Text.search_overall output with
    | Some group => to_float group
    | None => ret 0%Q
    end ;;
  write_file E (output_path x) (FText output) ;;;
  ret accuracy.

(** The [try] statement of [run_experiment]. *)
Definition attempt (x : scalar) : M Q :=
  try_except (run_and_parse x)
    (fun _ => true)
    (fun e => print (PErrorValue x e) ;;; ret 0%Q).

Definition run_experiment (x : scalar) : M Q :=
  config <- candidate_config x ;;
  json_dump_to E (config_path x) config ;;;
  attempt x.

(** The local variables of [main]. *)
Record locals : Type := Locals {
  results : list (scalar * Q);
  best : option scalar;          (* best_k, best_threshold *)
  best_accuracy : Q
}.

Definition start : locals := Locals [] None 0%Q.

(** One iteration of the loop of [main]. *)
Definition step (x : scalar) (l : locals) : M locals :=
  print (PTestingValue x) ;;;
  accuracy <- run_experiment x ;;
  let results' := results l ++ [(x, accuracy)] in
  print (PAccuracy accuracy) ;;;
  if float_gt accuracy (best_accuracy l)
  then print (PText "NEW BEST!") ;;; ret (Locals results' (Some x) accuracy)
  else ret (Locals results' (best l) (best_accuracy l)).

Definition sweep_loop : M locals := for_each (sweep_candidates S) step start.

(** [x == best] of the result lines; [None] equals no candidate. *)
Definition is_best (l : locals) (x : scalar) : bool :=
  match best l with
  | Some b =>
      match x, b with
      | SInt a, SInt c => (a =? c)%Z
      | SFloat a, SFloat c => Qeq_bool a c
      | _, _ => false
      end
  | None => false
  end.

(** What is printed and written once the loop is over.  With a float
    format, [f"{best:.3f}"] raises [TypeError] on [None]. *)
Definition report (l : locals) : M unit :=
  b <- match best l with
       | Some b => ret b
       | None => if sweep_formats_best S then raise TypeError else ret SNone
       end ;;
  print (PBestValue b (best_accuracy l)) ;;;
  for_each (results l)
    (fun r (_ : unit) => print (PResultLine (fst r) (snd r) (is_best l (fst r)))) tt ;;;
  write_file E (sweep_dir S +:+ "/summary.txt")
    (FSummary (SBestValue b (best_accuracy l)
               :: map (fun r => SResult (fst r) (snd r) (is_best l (fst r))) (results l))) ;;;
  match best l with
  | Some b =>
      if sweep_saves_best S
      then
        best_config <- candidate_config b ;;
        json_dump_to E (sweep_dir S +:+ "/best_config.json") best_config ;;;
        print (PSaved (sweep_dir S +:+ "/best_config.json"))
      else ret tt
  | None => ret tt
  end.

Definition main : M locals :=
  l <- sweep_loop ;;
  report l ;;;
  ret l.

Definition initial_world (files : gmap string file) (g : list Z) : world :=
  World initial_heap files [] g 0 [].
End with_env.
End SweepScript.

Module OptimizeK.
Definition script : sweep :=
  Sweep (sweep_base_doc "mnist_k_optimization" "Optimize k_neighbors parameter"
           "5.1.0" 0.15 "results/k_optimization_results.json")
        "results/k_optimization"
        [(["classification"], "k_neighbors")]
        (fun _ x => "k" +:+ match x with SInt k => str_Z k | _ => "" end)
        [SInt 1; SInt 3; SInt 5; SInt 7; SInt 9; SInt 11]
        false false.

Definition run_experiment (E : env) := SweepScript.run_experiment E script.
Definition sweep_loop (E : env) := SweepScript.sweep_loop E script.
Definition main (E : env) := SweepScript.main E script.
End OptimizeK.

Module OptimizeEdgeFine.
Definition script : sweep :=
  Sweep (sweep_base_doc "mnist_edge_fine" "Fine-tune edge_threshold around 0.16"
           "5.3.0" 0.16 "results/edge_fine_results.json")
        "results/edge_fine"
        [(["network"], "edge_threshold");
         (["adapters"; "retina"; "parameters"], "edge_threshold")]
        (fun E x => "edge" +:+ match x with SFloat t => fmt_float E 3 t | _ => "" end)
        [SFloat 0.155; SFloat 0.158; SFloat 0.160; SFloat 0.162; SFloat 0.165]
        true true.

Definition run_experiment (E : env) := SweepScript.run_experiment E script.
Definition sweep_loop (E : env) := SweepScript.sweep_loop E script.
Definition main (E : env) := SweepScript.main E script.
End OptimizeEdgeFine.

(** ** [optimize_saccades.py] *)

(** The sampler and the pruner a study is created with.  Optuna proposes the
    value of a parameter from the trials seen so far and the calls already
    made; its pruner answers [trial.should_prune()] from the same data. *)
Record optuna : Type := Optuna {
  sampler_int : list call -> nat -> string -> Z -> Z -> Z -> Z;
  sampler_float : list call -> nat -> string -> Q -> Q -> Q -> Q;
  pruner : list call -> nat -> bool
}.

(** How Optuna closes a trial. *)
Inductive trial_state : Type := COMPLETE | PRUNED.

Record frozen_trial : Type := Frozen {
  number : nat;
  value : option Q;
  state : trial_state
}.

Module Trial.
Section methods.
Variable Opt : optuna.
Variable number : nat.

(** [trial.suggest_int(name, low, high, step=step)] *)
Definition suggest_int (name : string) (low high step : Z) : M pyval :=
  w <- get_world ;;
  let v := sampler_int Opt (calls w) number name low high step in
  record_call (CSuggest number name (SInt v)) ;;;
  ret (VInt v).

(** [trial.suggest_float(name, low, high, step=step)] *)
Definition suggest_float (name : string) (low high step : Q) : M pyval :=
  w <- get_world ;;
  let v := sampler_float Opt (calls w) number name low high step in
  record_call (CSuggest number name (SFloat v)) ;;;
  ret (VFloat v).

(** [trial.report(value, step)] *)
Definition report (value : Q) (step : nat) : M unit :=
  record_call (CReport number value step).

(** [trial.should_prune()] *)
Definition should_prune : M bool :=
  w <- get_world ;;
  let answer := pruner Opt (calls w) number in
  record_call (CShouldPrune number answer) ;;;
  ret answer.

(** [trial.params] *)
Definition params (log : list call) : dict scalar :=
  Dict.of_pairs
    (omap (fun c => match c with
                    | CSuggest n name v =>
                        if (n =? number)%nat then Some (name, v) else None
                    | _ => None
                    end) log).
End methods.
End Trial.

(** [study.optimize(objective, n_trials=n)]: the trials run one after the
    other; a trial whose objective returns is closed as [COMPLETE] with the
    value returned, one whose objective raises [TrialPruned] is closed as
    [PRUNED], and any other exception ends the study. *)
Fixpoint optimize (objective : nat -> M Q) (n : nat) (study : list frozen_trial)
  : M (list frozen_trial) :=
  match n with
  | O => ret study
  | S n' =>
      let number := length study in
      closed <-
        try_except
          (v <- objective number ;; ret (Frozen number (Some v) COMPLETE))
          (fun e => match e with TrialPruned => true | _ => false end)
          (fun _ => ret (Frozen number None PRUNED)) ;;
      optimize objective n' (study ++ [closed])
  end.

Module Saccades.

Definition BASE_CONFIG : string := "configs/emnist_letters_saccades_position.json".
Definition TEMP_CONFIG : string := "configs/emnist_letters_saccades_opt.json".
Definition EXECUTABLE : string := "build/emnist_letters_v1".
Definition BASELINE_ACCURACY : Q := 69.26.
Definition NUM_TRIALS : nat := 50.

Section with_env.
Variable E : env.
Variable Opt : optuna.

(** The body of the [try] block of [run_experiment]. *)
Definition run_and_parse (config_path : string) : M Q :=
  result <- subprocess_run E [EXECUTABLE; config_path] ;;
  let output := snd (fst result) +:+ snd result in
  match Text.search_overall_ws output with
  | Some group =>
      accuracy <- to_float group ;;
      print (PAccuracy accuracy) ;;;
      ret accuracy
  | None =>
      print (PText "ERROR: Could not parse accuracy from output") ;;;
      print (PTail output) ;;;
      ret 0%Q
  end.

Definition run_experiment (config_path : string) : M Q :=
  try_except
    (try_except (run_and_parse config_path)
       is_timeout
       (fun _ => print PTimeout ;;; ret 0%Q))
    (fun _ => true)
    (fun e => print (PError e) ;;; ret 0%Q).

Definition objective (number : nat) : M Q :=
  config <- json_load BASE_CONFIG ;;
  assign config ["position_encoding"] "enabled" (ret (VBool false)) ;;;
  assign config ["neuron"] "window_size_ms"
    (Trial.suggest_int Opt number "window_size_ms" 400 600 50) ;;;
  assign config ["neuron"] "similarity_threshold"
    (Trial.suggest_float Opt number "similarity_threshold" 0.85 0.95 0.01) ;;;
  assign config ["neuron"] "max_patterns"
    (Trial.suggest_int Opt number "max_patterns" 300 700 100) ;;;
  assign config ["architecture"; "layers"] "layer23_neurons"
    (Trial.suggest_int Opt number "layer23_neurons" 256 512 64) ;;;
  assign config ["architecture"; "layers"] "layer5_neurons"
    (Trial.suggest_int Opt number "layer5_neurons" 64 128 16) ;;;
  assign config ["architecture"; "output"] "neurons_per_class"
    (Trial.suggest_int Opt number "neurons_per_class" 15 30 5) ;;;
  assign config ["architecture"; "connectivity"] "lateral_connectivity"
    (Trial.suggest_float Opt number "lateral_connectivity" 0.1 0.3 0.05) ;;;
  assign config ["architecture"; "connectivity"] "recurrent_connectivity"
    (Trial.suggest_float Opt number "recurrent_connectivity" 0.1 0.25 0.05) ;;;
  assign config ["architecture"; "connectivity"] "recurrent_weight"
    (Trial.suggest_float Opt number "recurrent_weight" 0.3 0.6 0.1) ;;;
  assign config ["architecture"; "gabor"] "threshold"
    (Trial.suggest_float Opt number "gabor_threshold" 0.05 0.2 0.05) ;;;
  assign config ["saccades"] "fixation_duration_ms"
    (Trial.suggest_int Opt number "fixation_duration_ms" 80 120 10) ;;;
  json_dump_to E TEMP_CONFIG config ;;;
  w <- get_world ;;
  print (PTrial (number + 1) NUM_TRIALS (Trial.params number (calls w))) ;;;
  accuracy <- run_experiment TEMP_CONFIG ;;
  print (PTrialResult accuracy) ;;;
  ret accuracy.

(** The study of [main]. *)
Definition run_study : M (list frozen_trial) := optimize objective NUM_TRIALS [].

End with_env.
End Saccades.

(** ** [optimize_saccades_focused.py] *)

Module SaccadesFocused.

Definition BASE_CONFIG : string := "configs/emnist_letters_saccades_best.json".
Definition TEMP_CONFIG : string := "configs/emnist_letters_saccades_opt2.json".
Definition EXECUTABLE : string := "build/emnist_letters_v1".
Definition BASELINE_ACCURACY : Q := 71.91.
Definition NUM_TRIALS : nat := 30.

Section with_env.
Variable E : env.
Variable Opt : optuna.

(** The body of the [try] block of [run_experiment]. *)
Definition run_and_parse (config_path : string) : M Q :=
  result <- subprocess_run E [EXECUTABLE; config_path] ;;
  let output := snd (fst result) +:+ snd result in
  match Text.search_overall_ws output with
  | Some group =>
      accuracy <- to_float group ;;
      print (PAccuracy accuracy) ;;;
      ret accuracy
  | None =>
      print (PText "ERROR: Could not parse accuracy from output") ;;;
      ret 0%Q
  end.

Definition run_experiment (config_path : string) : M Q :=
  try_except
    (try_except (run_and_parse config_path)
       is_timeout
       (fun _ => print PTimeout ;;; ret 0%Q))
    (fun _ => true)
    (fun e => print (PError e) ;;; ret 0%Q).

Definition objective (number : nat) : M Q :=
  config <- json_load BASE_CONFIG ;;
  assign config ["architecture"; "output"] "neurons_per_class" (ret (VInt 15)) ;;;
  assign config ["neuron"] "max_patterns" (ret (VInt 500)) ;;;
  assign config ["neuron"] "window_size_ms" (ret (VInt 500)) ;;;
  assign config ["architecture"; "gabor"] "threshold"
    (Trial.suggest_float Opt number "gabor_threshold" 0.15 0.25 0.01) ;;;
  assign config ["architecture"; "connectivity"] "recurrent_weight"
    (Trial.suggest_float Opt number "recurrent_weight" 0.3 0.5 0.05) ;;;
  assign config ["neuron"] "similarity_threshold"
    (Trial.suggest_float Opt number "similarity_threshold" 0.90 0.95 0.01) ;;;
  assign config ["architecture"; "layers"] "layer23_neurons"
    (Trial.suggest_int Opt number "layer23_neurons" 384 512 64) ;;;
  assign config ["architecture"; "layers"] "layer5_neurons"
    (Trial.suggest_int Opt number "layer5_neurons" 80 128 16) ;;;
  assign config ["saccades"] "fixation_duration_ms"
    (Trial.suggest_int Opt number "fixation_duration_ms" 100 120 5) ;;;
  assign config ["architecture"; "connectivity"] "recurrent_connectivity"
    (Trial.suggest_float Opt number "recurrent_connectivity" 0.15 0.25 0.05) ;;;
  assign config ["architecture"; "connectivity"] "lateral_connectivity"
    (Trial.suggest_float Opt number "lateral_connectivity" 0.15 0.25 0.05) ;;;
  json_dump_to E TEMP_CONFIG config ;;;
  w <- get_world ;;
  print (PTrial (number + 1) NUM_TRIALS (Trial.params number (calls w))) ;;;
  accuracy <- run_experiment TEMP_CONFIG ;;
  print (PTrialResult accuracy) ;;;
  ret accuracy.

(** The study of [main]. *)
Definition run_study : M (list frozen_trial) := optimize objective NUM_TRIALS [].

End with_env.
End SaccadesFocused.

(** ** Notions used to state the properties *)

Module Json.
(** The value found at a path of keys. *)
Fixpoint get (path : list string) (doc : json) : option json :=
  match path with
  | [] => Some doc
  | k :: path' =>
      match doc with
      | JObj fields =>
          match Dict.get fields k with
          | Some d => get path' d
          | None => None
          end
      | _ => None
      end
  end.

(** The document with the value at a path of keys replaced. *)
Fixpoint set (path : list string) (v : json) (doc : json) : json :=
  match path with
  | [] => v
  | k :: path' =>
      match doc with
      | JObj fields =>
          JObj (map (fun kv => if String.eqb k (fst kv)
                               then (fst kv, set path' v (snd kv))
                               else kv) fields)
      | _ => doc
      end
  end.
End Json.

(** A block of objects allocated at offset [n]: references inside the block
    are relative to its start. *)
Definition relocate (n : nat) (v : pyval) : pyval :=
  match v with
  | VRef l => VRef (n + l)
  | _ => v
  end.

Definition relocate_obj (n : nat) (o : pyobj) : pyobj :=
  match o with
  | ODict d => ODict (map (fun kv => (fst kv, relocate n (snd kv))) d)
  | OList l => OList (map (relocate n) l)
  end.

(** [obj[k1]...[kn]] inside a block. *)
Fixpoint walk_rel (objs : list pyobj) (root : nat) (path : list string) : option nat :=
  match path with
  | [] => Some root
  | k :: path' =>
      match objs !! root with
      | Some (ODict d) =>
          match Dict.get d k with
          | Some (VRef j) => walk_rel objs j path'
          | _ => None
          end
      | _ => None
      end
  end.

(** [obj[k1]...[kn][key] = v] inside a block. *)
Definition store_rel (objs : list pyobj) (root : nat) (path : list string)
    (key : string) (v : pyval) : option (list pyobj) :=
  match walk_rel objs root path with
  | Some j =>
      match objs !! j with
      | Some (ODict d) => Some (<[j := ODict (Dict.set d key v)]> objs)
      | _ => None
      end
  | None => None
  end.

(** The world whose heap is [h] followed by a block of objects. *)
Definition with_block (h : list pyobj) (files : gmap string file) (out : list line)
    (g : list Z) (t : nat) (cs : list call) (objs : list pyobj) : world :=
  World (h ++ map (relocate_obj (length h)) objs) files out g t cs.

(** The heap still holds [BASE_CONFIG] as the script wrote it. *)
Definition base_intact (h : list pyobj) : Prop :=
  Heap.dumps h HyperOpt.BASE_CONFIG = Some HyperOpt.BASE_CONFIG_doc.

(** [BASE_CONFIG] with the eleven leaves of [create_config] replaced. *)
Definition configured_doc (et kn st tw mp : scalar) : json :=
  Json.set ["classification"; "k_neighbors"] (scalar_json kn)
  (Json.set ["adapters"; "retina"; "parameters"; "neuron_max_patterns"] (scalar_json mp)
  (Json.set ["adapters"; "retina"; "parameters"; "neuron_threshold"] (scalar_json st)
  (Json.set ["adapters"; "retina"; "parameters"; "neuron_window_size"] (scalar_json tw)
  (Json.set ["adapters"; "retina"; "parameters"; "edge_threshold"] (scalar_json et)
  (Json.set ["adapters"; "retina"; "temporal_window_ms"] (scalar_json tw)
  (Json.set ["neuron"; "max_patterns"] (scalar_json mp)
  (Json.set ["neuron"; "similarity_threshold"] (scalar_json st)
  (Json.set ["neuron"; "window_size_ms"] (scalar_json tw)
  (Json.set ["network"; "temporal_window_ms"] (scalar_json tw)
  (Json.set ["network"; "edge_threshold"] (scalar_json et)
     HyperOpt.BASE_CONFIG_doc)))))))))).

(** The world with some lines printed. *)
Definition printed (w : world) (ls : list line) : world :=
  World (heap w) (fs w) (console w ++ ls) (rng w) (ticks w) (calls w).

(** Every number the output announces can be read by [float]. *)
Definition numbers_convert (output : string) : Prop :=
  (forall group, Text.search_overall output = Some group ->
                 is_Some (Text.py_float group))
  /\ (forall digit group, Text.search_digit digit output = Some group ->
                          is_Some (Text.py_float group)).

(** The locations of a configuration that mirror each search parameter, as
    [create_config] spells them out. *)
Definition mirrors : list (list string * string) :=
  [(["network"; "edge_threshold"], "edge_threshold");
   (["adapters"; "retina"; "parameters"; "edge_threshold"], "edge_threshold");
   (["network"; "temporal_window_ms"], "temporal_window_ms");
   (["neuron"; "window_size_ms"], "temporal_window_ms");
   (["adapters"; "retina"; "temporal_window_ms"], "temporal_window_ms");
   (["adapters"; "retina"; "parameters"; "neuron_window_size"], "temporal_window_ms");
   (["neuron"; "similarity_threshold"], "similarity_threshold");
   (["adapters"; "retina"; "parameters"; "neuron_threshold"], "similarity_threshold");
   (["neuron"; "max_patterns"], "max_patterns");
   (["adapters"; "retina"; "parameters"; "neuron_max_patterns"], "max_patterns");
   (["classification"; "k_neighbors"], "k_neighbors")].

(** Every [open(path, 'w')] succeeds. *)
Definition writable (E : env) : Prop := forall t path, can_write E t path = true.

(** The contract of [random.sample]: for [k <= n] it draws [k] positions of
    the population, all different. *)
Definition sampler_ok (E : env) : Prop :=
  forall g n k,
    k <= n ->
    length (fst (sample_positions E g n k)) = k
    /\ NoDup (fst (sample_positions E g n k))
    /\ Forall (fun i => i < n) (fst (sample_positions E g n k)).


(** The combinations announced on the console ("Testing: ..."), in order. *)
Definition visited (out : list line) : list (dict scalar) :=
  omap (fun l => match l with PTesting _ _ p => Some p | _ => None end) out.

(** The running best after a sequence of trials. *)
Definition track (b : Q * option (dict scalar)) (rs : list HyperOpt.trial)
  : Q * option (dict scalar) :=
  fold_left (fun b r => if float_gt (HyperOpt.accuracy r) (fst b)
                        then (HyperOpt.accuracy r, Some (HyperOpt.params r))
                        else b) rs b.

(** The optimizer once a trial is appended and the best updated. *)
Definition record_trial (self : HyperOpt.optimizer) (r : HyperOpt.trial)
  : HyperOpt.optimizer :=
  let b := track (HyperOpt.best_accuracy self, HyperOpt.best_config self) [r] in
  HyperOpt.Optimizer (HyperOpt.build_dir self) (HyperOpt.results_dir self)
                     (HyperOpt.results self ++ [r]) (fst b) (snd b).

(** The ledger of an optimizer: its best is the running best of its
    history, and the trials are numbered by position. *)
Definition ledger_ok (self : HyperOpt.optimizer) : Prop :=
  (HyperOpt.best_accuracy self, HyperOpt.best_config self)
  = track (0%Q, None) (HyperOpt.results self)
  /\ map HyperOpt.run_id (HyperOpt.results self) = seq 0 (length (HyperOpt.results self)).

(** The ledger files hold the history and the summary of [self]. *)
Definition persisted (self : HyperOpt.optimizer) (files : gmap string file) : Prop :=
  files !! (HyperOpt.results_dir self +:+ "/all_results.json")
  = Some (FJson (HyperOpt.results_json self))
  /\ files !! (HyperOpt.results_dir self +:+ "/summary.txt")
     = Some (FSummary (HyperOpt.summary self)).

(** ** Concrete environments

    They serve as examples: the disk accepts every write, the clock counts
    the interactions, and the generator draws the last positions of the
    population, last first. *)

Definition env_of (child : nat -> list string -> gmap string file -> proc_outcome) : env :=
  Env child
      (fun _ _ => true)
      (fun t => inject_Z (Z.of_nat t))
      (fun a => [a])
      (fun g n k => (reverse (seq (n - k) k), g))
      (fun _ q => str_Z (Qnum q) +:+ "#" +:+ str_Z (Zpos (Qden q))).

(** The child prints nothing and exits normally. *)
Definition silent_env : env := env_of (fun _ _ _ => Completed 0 "" "").

(** The child never answers in time. *)
Definition timeout_env : env := env_of (fun _ _ _ => Raised TimeoutExpired).

(** The child cannot be started. *)
Definition missing_env : env :=
  env_of (fun _ _ _ => Raised (OSError "mnist_classification_strategies")).

(** The child prints an accuracy and then dies of a segmentation fault. *)
Definition crashing_env : env :=
  env_of (fun _ _ _ => Completed 139 "Overall Accuracy: 95.0%" "").

(** The grid of the scenario: axes [a] and [b]. *)
Definition ab_grid : dict (list scalar) :=
  [("a", [SInt 1; SInt 2]); ("b", [SInt 10; SInt 20])].

(** The five names [create_config] reads from an assignment. *)
Definition parameter_names : list string :=
  ["edge_threshold"; "k_neighbors"; "similarity_threshold";
   "temporal_window_ms"; "max_patterns"].

(** An assignment of the five parameters, none at its default. *)
Definition sample_assignment : dict scalar :=
  [("edge_threshold", SFloat 0.20); ("k_neighbors", SInt 7);
   ("similarity_threshold", SFloat 0.8); ("temporal_window_ms", SFloat 250.0);
   ("max_patterns", SInt 150)].

(** An assignment with a name no search space knows and values outside
    every domain. *)
Definition wild_assignment : dict scalar :=
  [("edge_threshold", SFloat 9.9); ("k_neighbors", SInt (-3));
   ("similarity_threshold", SStr "high"); ("temporal_window_ms", SFloat 200.0);
   ("max_patterns", SInt 100); ("bogus", SInt 1)].

(** The child reports 96.0 for the sixteenth configuration of the campaign
    (edge threshold 0.25 with nine neighbours) and 50.0 for every other. *)
Definition favourite_env : env :=
  env_of (fun _ cmd _ =>
            if decide (cmd = HyperOpt.command HyperOpt.init 15)
            then Completed 0 "Overall Accuracy: 96.0%" ""
            else Completed 0 "Overall Accuracy: 50.0%" "").

(** What a trial ran with: the edge threshold and the number of neighbours
    in its record, and in the configuration file written for it. *)
Definition ran_with (w : world) (self : HyperOpt.optimizer) (r : HyperOpt.trial)
  : option scalar * option scalar * option json * option json :=
  let leaf path :=
    match fs w !! HyperOpt.config_path self (HyperOpt.run_id r) with
    | Some (FJson doc) => Json.get path doc
    | _ => None
    end in
  (Dict.get (HyperOpt.params r) "edge_threshold",
   Dict.get (HyperOpt.params r) "k_neighbors",
   leaf ["network"; "edge_threshold"],
   leaf ["classification"; "k_neighbors"]).

(** The best configuration a campaign ends with, and what its trials from
    the [n]-th on ran with. *)
Definition campaign_report (n : nat) (r : res HyperOpt.optimizer)
  : option (option (dict scalar)
            * list (option scalar * option scalar * option json * option json)) :=
  match r with
  | Ret self w =>
      Some (HyperOpt.best_config self,
            map (ran_with w self) (drop n (HyperOpt.results self)))
  | Exc _ _ => None
  end.

(** The heap of a sweep script still holds its [BASE_CONFIG]. *)
Definition sweep_intact (S : sweep) (h : list pyobj) : Prop :=
  Heap.dumps h (SweepScript.BASE_CONFIG S) = Some (sweep_doc S).

(** The running best of a sweep after a sequence of results. *)
Definition sweep_track (b : option scalar * Q) (rs : list (scalar * Q))
  : option scalar * Q :=
  fold_left (fun b r => if float_gt (snd r) (snd b) then (Some (fst r), snd r) else b)
            rs b.

(** ** Notions for the Optuna study *)

Definition is_suggest (c : call) : bool :=
  match c with CSuggest _ _ _ => true | _ => false end.

(** The world a computation leaves, whether it returns or raises. *)
Definition final_world {A} (r : res A) : world :=
  match r with Ret _ w => w | Exc _ w => w end.

(** The computation ended by raising [TrialPruned]. *)
Definition pruned {A} (r : res A) : bool :=
  match r with Exc TrialPruned _ => true | _ => false end.

(** A computation that calls the trial object only to ask for parameter
    values, and that never raises [TrialPruned]. *)
Definition tame {A} (m : M A) : Prop :=
  forall w,
    (exists new, calls (final_world (m w)) = calls w ++ new
                 /\ Forall (fun c => is_suggest c = true) new)
    /\ pruned (m w) = false.

(** A base configuration with the sections [objective] writes to. *)
Definition saccades_doc : json :=
  JObj [
    ("position_encoding", JObj [("enabled", JBool true)]);
    ("neuron", JObj [
       ("window_size_ms", JInt 500);
       ("similarity_threshold", JFloat 0.9);
       ("max_patterns", JInt 500)]);
    ("architecture", JObj [
       ("layers", JObj [("layer23_neurons", JInt 448); ("layer5_neurons", JInt 96)]);
       ("output", JObj [("neurons_per_class", JInt 15)]);
       ("connectivity", JObj [
          ("lateral_connectivity", JFloat 0.2);
          ("recurrent_connectivity", JFloat 0.15);
          ("recurrent_weight", JFloat 0.4)]);
       ("gabor", JObj [("threshold", JFloat 0.1)])]);
    ("saccades", JObj [("fixation_duration_ms", JInt 100)])].

(** A study whose sampler proposes the lower bound and whose pruner gives
    one and the same answer to every question. *)
Definition constant_study (answer : bool) : optuna :=
  Optuna (fun _ _ _ low _ _ => low) (fun _ _ _ low _ _ => low) (fun _ _ => answer).

(** The child prints the marker of [optimize_saccades.py]. *)
Definition letters_env : env :=
  env_of (fun _ _ _ => Completed 0 "Overall accuracy:  70.5%" "").

(** The world of [optimize_saccades.py] with its base configuration on
    disk. *)
Definition saccades_world : world :=
  World [] {[Saccades.BASE_CONFIG := FJson saccades_doc]} [] [] 0 [].

(** ** Further environments

    They differ from the ones above in the disk or in what the child
    prints. *)

(** An environment with a disk that refuses some writes. *)
Definition disk_env (child : nat -> list string -> gmap string file -> proc_outcome)
    (disk : nat -> string -> bool) : env :=
  Env child disk
      (fun t => inject_Z (Z.of_nat t))
      (fun a => [a])
      (fun g n k => (reverse (seq (n - k) k), g))
      (fun _ q => str_Z (Qnum q) +:+ "#" +:+ str_Z (Zpos (Qden q))).

(** The results directory is read-only. *)
Definition readonly_env : env :=
  disk_env (fun _ _ _ => Completed 0 "Overall Accuracy: 95.0%" "") (fun _ _ => false).

(** The disk is full once the first file is written. *)
Definition full_disk_env : env :=
  disk_env (fun _ _ _ => Completed 0 "Overall Accuracy: 95.0%" "")
           (fun t _ => (t =? 0)%nat).

(** The child prints a sound overall accuracy and a per-digit figure with
    two dots. *)
Definition garbled_env : env :=
  env_of (fun _ _ _ => Completed 0 "Overall Accuracy: 97.5% Digit 3: 9..1%" "").

(** The child prints the overall accuracy and the figures of two digits. *)
Definition digits_env : env :=
  env_of (fun _ _ _ =>
            Completed 0 "Digit 7: 88.5% Overall Accuracy: 97.5% Digit 0: 99%" "").

(** ** Further notions *)

(** The objects of a configuration [create_config] returns: the copy of
    [BASE_CONFIG] after the eleven assignments, as a block. *)
Definition configured_block (et kn st tw mp : scalar) : list pyobj :=
  let store path key x objs :=
    match store_rel objs 11 path key (to_val x) with
    | Some objs' => objs'
    | None => objs
    end in
  store ["classification"] "k_neighbors" kn
  (store ["adapters"; "retina"; "parameters"] "neuron_max_patterns" mp
  (store ["adapters"; "retina"; "parameters"] "neuron_threshold" st
  (store ["adapters"; "retina"; "parameters"] "neuron_window_size" tw
  (store ["adapters"; "retina"; "parameters"] "edge_threshold" et
  (store ["adapters"; "retina"] "temporal_window_ms" tw
  (store ["neuron"] "max_patterns" mp
  (store ["neuron"] "similarity_threshold" st
  (store ["neuron"] "window_size_ms" tw
  (store ["network"] "temporal_window_ms" tw
  (store ["network"] "edge_threshold" et HyperOpt.initial_heap)))))))))).

(** The configuration of the final validation: the whole training and test
    sets. *)
Definition full_scale_doc (et kn st tw mp : scalar) : json :=
  Json.set ["training"; "test_images"] (JInt 10000)
  (Json.set ["training"; "examples_per_digit"] (JInt 5000)
     (configured_doc et kn st tw mp)).

(** The objects of the configuration of the final validation. *)
Definition full_scale_block (et kn st tw mp : scalar) : list pyobj :=
  let store path key v objs :=
    match store_rel objs 11 path key v with
    | Some objs' => objs'
    | None => objs
    end in
  store ["training"] "test_images" (VInt 10000)
  (store ["training"] "examples_per_digit" (VInt 5000)
     (configured_block et kn st tw mp)).

(** A list of trials in non-increasing order of accuracy. *)
Definition descending : list HyperOpt.trial -> Prop :=
  StronglySorted (fun a b => (HyperOpt.accuracy b <= HyperOpt.accuracy a)%Q).

(** The trials of a given accuracy, in the order of the list. *)
Definition with_accuracy (a : Q) (rs : list HyperOpt.trial) : list HyperOpt.trial :=
  List.filter (fun r => Qeq_bool (HyperOpt.accuracy r) a) rs.

(** The "Top 10" lines of a summary: rank, accuracy and parameters. *)
Definition top_lines (ls : list summary_line) : list (nat * Q * dict scalar) :=
  omap (fun l => match l with STop rank a p => Some (rank, a, p) | _ => None end) ls.

(** ** Notions for what a script writes and returns *)

(** A computation that leaves every file outside [P] as it found it,
    whether it returns or raises. *)
Definition confined {A} (P : string -> Prop) (m : M A) : Prop :=
  forall w path, ~ P path -> fs (final_world (m w)) !! path = fs w !! path.

(** A computation whose results all satisfy [Q]. *)
Definition yields {A} (Q : A -> Prop) (m : M A) : Prop :=
  forall w a w', m w = Ret a w' -> Q a.

(** A file of a directory. *)
Definition inside (dir path : string) : Prop :=
  exists name, path = dir +:+ "/" +:+ name.

(** ** [optimize_edge_threshold.py]

    The script is [optimize_edge_fine.py] with other constants: nine
    thresholds around 0.15, printed with two decimals. *)

Module OptimizeEdgeThreshold.
Definition script : sweep :=
  Sweep (sweep_base_doc "mnist_edge_optimization" "Optimize edge_threshold parameter"
           "5.2.0" 0.15 "results/edge_optimization_results.json")
        "results/edge_optimization"
        [(["network"], "edge_threshold");
         (["adapters"; "retina"; "parameters"], "edge_threshold")]
        (fun E x => "edge" +:+ match x with SFloat t => fmt_float E 2 t | _ => "" end)
        [SFloat 0.10; SFloat 0.12; SFloat 0.13; SFloat 0.14; SFloat 0.15;
         SFloat 0.16; SFloat 0.17; SFloat 0.18; SFloat 0.20]
        true true.

Definition run_experiment (E : env) := SweepScript.run_experiment E script.
Definition sweep_loop (E : env) := SweepScript.sweep_loop E script.
Definition main (E : env) := SweepScript.main E script.
End OptimizeEdgeThreshold.

(** The three single-axis sweeps. *)
Definition scripts : list sweep :=
  [OptimizeK.script; OptimizeEdgeFine.script; OptimizeEdgeThreshold.script].

(** [BASE_CONFIG] of a sweep with the candidate at each of its targets. *)
Definition candidate_doc (S : sweep) (x : scalar) : json :=
  fold_left (fun doc target => Json.set (fst target ++ [snd target]) (scalar_json x) doc)
            (sweep_targets S) (sweep_doc S).

(** The parameters [objective] of [optimize_saccades.py] asks a trial for,
    in the order it asks. *)
Definition saccades_parameters : list string :=
  ["window_size_ms"; "similarity_threshold"; "max_patterns"; "layer23_neurons";
   "layer5_neurons"; "neurons_per_class"; "lateral_connectivity";
   "recurrent_connectivity"; "recurrent_weight"; "gabor_threshold";
   "fixation_duration_ms"].

(** The parameters [objective] of [optimize_saccades_focused.py] asks for. *)
Definition focused_parameters : list string :=
  ["gabor_threshold"; "recurrent_weight"; "similarity_threshold"; "layer23_neurons";
   "layer5_neurons"; "fixation_duration_ms"; "recurrent_connectivity";
   "lateral_connectivity"].

(** No call of the log was made on trial [number]. *)
Definition fresh_trial (number : nat) (log : list call) : Prop :=
  Forall (fun c => match c with
                   | CSuggest n _ _ | CReport n _ _ | CShouldPrune n _ => n <> number
                   end) log.

(** ** Notions for the evaluation of a trial *)

(** The figure of digit [d], if the output has one, can be read by
    [float]. *)
Definition digit_readable (output : string) (d : nat) : bool :=
  match Text.search_digit d output with
  | Some group =>
      match Text.py_float group with
      | Some _ => true
      | None => false
      end
  | None => true
  end.

(** The accuracy read off an output that can be saved: the overall figure
    when it and the figures of the ten digits can be read, and 0.0 when the
    marker is absent or a figure cannot be read. *)
Definition parsed_accuracy (output : string) : Q :=
  match Text.search_overall output with
  | Some group =>
      match Text.py_float group with
      | Some a => if forallb (digit_readable output) (seq 0 10) then a else 0%Q
      | None => 0%Q
      end
  | None => 0%Q
  end.


(** Some figure of the output cannot be read by [float]. *)
Definition unreadable (output : string) : Prop :=
  (exists group, Text.search_overall output = Some group /\ Text.py_float group = None)
  \/ (exists d group, d < 10 /\ Text.search_digit d output = Some group
                      /\ Text.py_float group = None).





(* ===================================================================== *)
(** * Part II: properties                                                 *)
(* ===================================================================== *)

(** ** Floats and the scanned text *)

Lemma float_gt_spec (a b : Q) : float_gt a b = true <-> (b < a)%Q.
Proof.
  unfold float_gt. rewrite negb_true_iff.
  split.
  - intros H. apply Qnot_le_lt. intros Hle.
    apply Qle_bool_iff in Hle. congruence.
  - intros H. destruct (Qle_bool a b) eqn:Hb; [|reflexivity].
    apply Qle_bool_iff in Hb. exfalso. exact (Qlt_not_le _ _ H Hb).
Qed.

Lemma float_gt_false (a b : Q) : float_gt a b = false <-> (a <= b)%Q.
Proof.
  unfold float_gt. rewrite negb_false_iff. apply Qle_bool_iff.
Qed.

Lemma float_gt_irrefl (a : Q) : float_gt a a = false.
Proof. apply float_gt_false. apply Qle_refl. Qed.

Lemma digits_value_nonneg (s : string) :
  forall acc n, Text.digits_value acc s = Some n -> (0 <= acc)%Z -> (0 <= n)%Z.
Proof.
  induction s as [|c s IH]; intros acc n H Hacc; simpl in H.
  - congruence.
  - destruct (Text.is_digit c); [|discriminate].
    apply IH in H; [exact H|]. lia.
Qed.

(** Whatever [float] reads from a run of digits and dots is not negative. *)
Lemma py_float_nonneg (s : string) (a : Q) :
  Text.py_float s = Some a -> (0 <= a)%Q.
Proof.
  unfold Text.py_float.
  destruct (Text.span Text.is_digit s) as [ip rest].
  destruct rest as [|c fp].
  - destruct ip; [discriminate|].
    destruct (Text.digits_value 0 _) as [n|] eqn:Hn; [|discriminate].
    intros [= <-]. apply digits_value_nonneg in Hn; [|lia].
    unfold Qle. simpl. lia.
  - destruct (Text.is_dot c); [|discriminate].
    assert (Hgen : forall ip', match Text.digits_value 0 ip', Text.digits_value 0 fp with
             | Some n, Some m =>
                 Some (Qmake (n * 10 ^ Z.of_nat (String.length fp) + m)
                             (Z.to_pos (10 ^ Z.of_nat (String.length fp))))
             | _, _ => None
             end = Some a -> (0 <= a)%Q).
    { intros ip'.
      destruct (Text.digits_value 0 ip') as [n|] eqn:Hn; [|discriminate].
      destruct (Text.digits_value 0 fp) as [m|] eqn:Hm; [|discriminate].
      intros [= <-].
      apply digits_value_nonneg in Hn; [|lia].
      apply digits_value_nonneg in Hm; [|lia].
      unfold Qle. simpl.
      assert (0 <= 10 ^ Z.of_nat (String.length fp))%Z by (apply Z.pow_nonneg; lia).
      nia. }
    destruct ip; destruct fp; try discriminate; apply Hgen.
Qed.

(** ** [itertools.product] *)

Section product_facts.
Context {A : Type}.

Lemma product_cons (xs : list A) (rest : list (list A)) :
  product (xs :: rest) = flat_map (fun x => map (cons x) (product rest)) xs.
Proof. reflexivity. Qed.



(** A combination takes one value from each axis, in the order of the
    axes. *)
Lemma elem_of_product (axes : list (list A)) (c : list A) :
  c ∈ product axes <-> Forall2 (fun v xs => v ∈ xs) c axes.
Proof.
  revert c. induction axes as [|xs rest IH]; intros c.
  - simpl. rewrite list_elem_of_singleton. split.
    + intros ->. constructor.
    + intros H. inversion H. reflexivity.
  - rewrite product_cons, list_elem_of_In, in_flat_map. split.
    + intros (x & Hx & Hc). apply in_map_iff in Hc as (c' & <- & Hc').
      constructor; [apply list_elem_of_In; exact Hx|].
      apply IH. apply list_elem_of_In. exact Hc'.
    + intros H. inversion H as [|v xs' c' rest' Hv Hc']; subst.
      exists v. split; [apply list_elem_of_In; exact Hv|].
      apply in_map. apply list_elem_of_In. apply IH. exact Hc'.
Qed.

End product_facts.

(** ** The heap: copies and in-place updates *)

Lemma lookup_app_plus {A} (h l : list A) (i : nat) :
  (h ++ l) !! (length h + i) = l !! i.
Proof.
  rewrite lookup_app_r by lia. f_equal. lia.
Qed.

Lemma dict_get_map {V W} (f : V -> W) (d : dict V) (k : string) :
  Dict.get (map (fun kv => (fst kv, f (snd kv))) d) k = f <$> Dict.get d k.
Proof.
  induction d as [|[k' v] d IH]; [reflexivity|].
  simpl. destruct (String.eqb k k'); [reflexivity|exact IH].
Qed.

Lemma dict_set_map {V W} (f : V -> W) (d : dict V) (k : string) (v : V) :
  Dict.set (map (fun kv => (fst kv, f (snd kv))) d) k (f v)
  = map (fun kv => (fst kv, f (snd kv))) (Dict.set d k v).
Proof.
  induction d as [|[k' v'] d IH]; [reflexivity|].
  simpl. destruct (String.eqb k k'); [reflexivity|].
  simpl. rewrite IH. reflexivity.
Qed.

Section block.
Variables (h : list pyobj) (files : gmap string file) (out : list line)
          (g : list Z) (t : nat) (cs : list call).

Lemma walk_rel_sound (objs : list pyobj) (path : list string) :
  forall root j,
    walk_rel objs root path = Some j ->
    walk (VRef (length h + root)) path (with_block h files out g t cs objs)
    = Ret (VRef (length h + j)) (with_block h files out g t cs objs).
Proof.
  induction path as [|k path IH]; intros root j H; simpl in H.
  - injection H as ->. reflexivity.
  - destruct (objs !! root) as [[d|]|] eqn:Hroot; try discriminate.
    destruct (Dict.get d k) as [[| | | | |l]|] eqn:Hk; try discriminate.
    simpl walk. unfold with_block at 1. unfold bind at 1, subscript at 1, bind at 1, get_world at 1.
    cbn [heap]. rewrite lookup_app_plus, list_lookup_fmap, Hroot. simpl.
    unfold getitem. rewrite dict_get_map, Hk. simpl.
    apply IH. exact H.
Qed.

Lemma assign_rel (objs objs' : list pyobj) (root : nat) (path : list string)
    (key : string) (rhs : M pyval) (v : pyval) :
  rhs (with_block h files out g t cs objs) = Ret v (with_block h files out g t cs objs) ->
  relocate (length h) v = v ->
  store_rel objs root path key v = Some objs' ->
  assign (VRef (length h + root)) path key rhs (with_block h files out g t cs objs)
  = Ret tt (with_block h files out g t cs objs').
Proof.
  intros Hrhs Hv Hstore. unfold store_rel in Hstore.
  destruct (walk_rel objs root path) as [j|] eqn:Hwalk; [|discriminate].
  destruct (objs !! j) as [[d|]|] eqn:Hj; try discriminate.
  injection Hstore as <-.
  unfold assign, bind. rewrite Hrhs.
  rewrite (walk_rel_sound _ _ _ _ Hwalk).
  unfold store_subscript, bind, get_world. unfold with_block at 1 2. cbn [heap].
  rewrite lookup_app_plus, list_lookup_fmap, Hj. simpl.
  unfold set_heap, with_block. simpl. f_equal. f_equal.
  rewrite insert_app_r. f_equal.
  rewrite list_fmap_insert. f_equal. simpl. f_equal.
  rewrite <- Hv at 1. apply dict_set_map.
Qed.
End block.

Lemma relocate_scalar (n : nat) (x : scalar) : relocate n (to_val x) = to_val x.
Proof. destruct x; reflexivity. Qed.

(** A document read from a block is read again, unchanged, once the block
    sits anywhere in a larger heap. *)
Lemma dumps_fuel_reloc (pre objs post : list pyobj) :
  forall f f' v j,
    Heap.dumps_fuel f objs v = Some j ->
    f <= f' ->
    Heap.dumps_fuel f' (pre ++ map (relocate_obj (length pre)) objs ++ post)
                    (relocate (length pre) v) = Some j.
Proof.
  induction f as [|f IH]; intros f' v j H Hle; [discriminate|].
  destruct f' as [|f']; [lia|]. assert (Hle' : f <= f') by lia.
  destruct v as [| | | | |l]; try exact H.
  cbn [Heap.dumps_fuel] in H. cbn [Heap.dumps_fuel relocate].
  destruct (objs !! l) as [o|] eqn:Hl; [|discriminate].
  rewrite lookup_app_plus.
  rewrite (lookup_app_l_Some _ _ _ (relocate_obj (length pre) o))
    by (rewrite list_lookup_fmap, Hl; reflexivity).
  destruct o as [d|xs]; simpl.
  - apply fmap_Some in H as (r & Hr & ->).
    apply fmap_Some. exists r. split; [|reflexivity].
    apply mapM_Some. apply mapM_Some in Hr.
    apply Forall2_fmap_l.
    eapply Forall2_impl; [exact Hr|].
    intros [k x] y Hy. simpl in *.
    apply fmap_Some in Hy as (jx & Hjx & ->).
    rewrite (IH _ _ _ Hjx Hle'). reflexivity.
  - apply fmap_Some in H as (r & Hr & ->).
    apply fmap_Some. exists r. split; [|reflexivity].
    apply mapM_Some. apply mapM_Some in Hr.
    apply Forall2_fmap_l.
    eapply Forall2_impl; [exact Hr|].
    intros x y Hy. simpl. eapply IH; eauto.
Qed.

Lemma relocate_obj_0 (o : pyobj) : relocate_obj 0 o = o.
Proof.
  destruct o as [d|l]; simpl; f_equal.
  - induction d as [|[k v] d IH]; [reflexivity|].
    simpl. rewrite IH. destruct v; reflexivity.
  - induction l as [|v l IH]; [reflexivity|].
    simpl. rewrite IH. destruct v; reflexivity.
Qed.

(** Growing the heap at its end does not change what a value serializes
    to. *)
Lemma dumps_app (h new : list pyobj) (v : pyval) (j : json) :
  Heap.dumps h v = Some j -> Heap.dumps (h ++ new) v = Some j.
Proof.
  unfold Heap.dumps. intros H.
  pose proof (dumps_fuel_reloc [] h new _ (S (length (h ++ new))) v j H) as R.
  simpl in R.
  replace (map (relocate_obj 0) h) with h in R.
  - destruct v; apply R; rewrite length_app; lia.
  - clear. induction h as [|o h IH]; [reflexivity|].
    simpl. rewrite relocate_obj_0, <- IH. reflexivity.
Qed.

(** A document read from a block is read from the heap the block ends. *)
Lemma dumps_block (h objs : list pyobj) (f : nat) (v : pyval) (j : json) :
  Heap.dumps_fuel f objs v = Some j ->
  f <= S (length objs) ->
  Heap.dumps (h ++ map (relocate_obj (length h)) objs) (relocate (length h) v) = Some j.
Proof.
  intros H Hf. unfold Heap.dumps.
  pose proof (dumps_fuel_reloc h objs [] f
                (S (length (h ++ map (relocate_obj (length h)) objs))) v j H) as R.
  rewrite app_nil_r in R. apply R.
  rewrite length_app, length_map. lia.
Qed.

Lemma loads_base (h : list pyobj) :
  Heap.loads HyperOpt.BASE_CONFIG_doc h
  = (VRef (length h + 11), h ++ map (relocate_obj (length h)) HyperOpt.initial_heap).
Proof.
  unfold HyperOpt.BASE_CONFIG_doc. cbn.
  repeat (rewrite ?length_app, <- ?app_assoc; cbn [length app]).
  rewrite <- ?Nat.add_assoc. cbn [Nat.add].
  rewrite Nat.add_0_r.
  reflexivity.
Qed.

Lemma initial_heap_intact : base_intact HyperOpt.initial_heap.
Proof. vm_compute. reflexivity. Qed.

Lemma dumps_fuel_scalar (f : nat) (h : list pyobj) (x : scalar) :
  Heap.dumps_fuel (S f) h (to_val x) = Some (scalar_json x).
Proof. destruct x; reflexivity. Qed.

Arguments Heap.dumps_fuel !fuel h !v.

Lemma set_from_rel (h : list pyobj) files out g t cs
    (objs objs' : list pyobj) (params : dict scalar)
    (root : nat) (path : list string) (key name : string) (x : scalar) :
  Dict.get params name = Some x ->
  store_rel objs root path key (to_val x) = Some objs' ->
  HyperOpt.set_from (VRef (length h + root)) params path key name
    (with_block h files out g t cs objs)
  = Ret tt (with_block h files out g t cs objs').
Proof.
  intros Hx Hstore. unfold HyperOpt.set_from.
  eapply assign_rel; [|apply relocate_scalar|exact Hstore].
  unfold bind, getitem. rewrite Hx. reflexivity.
Qed.

Lemma create_config_spec (params : dict scalar) (et kn st tw mp : scalar) (w : world) :
  base_intact (heap w) ->
  Dict.get params "edge_threshold" = Some et ->
  Dict.get params "k_neighbors" = Some kn ->
  Dict.get params "similarity_threshold" = Some st ->
  Dict.get params "temporal_window_ms" = Some tw ->
  Dict.get params "max_patterns" = Some mp ->
  exists objs,
    HyperOpt.create_config params w
    = Ret (VRef (length (heap w) + 11))
          (World (heap w ++ map (relocate_obj (length (heap w))) objs)
                 (fs w) (console w) (rng w) (ticks w) (calls w))
    /\ length objs = 12
    /\ Heap.dumps_fuel 13 objs (VRef 11) = Some (configured_doc et kn st tw mp).
Proof.
  intros Hbase Het Hkn Hst Htw Hmp.
  destruct w as [h files out g t cs]. simpl in *.
  eexists. split; [|split].
  - unfold HyperOpt.create_config.
    unfold bind at 1, deep_copy at 1, bind at 1, get_world at 1. cbn [heap].
    unfold base_intact in Hbase. rewrite Hbase, loads_base.
    unfold bind at 1, set_heap at 1. cbn [heap fs console rng ticks calls].
    change (World (h ++ map (relocate_obj (length h)) HyperOpt.initial_heap) files out g t cs)
      with (with_block h files out g t cs HyperOpt.initial_heap).
    unfold ret at 1.
    do 11 (unfold bind at 1;
           erewrite set_from_rel; [|eassumption|lazy -[to_val]; reflexivity]).
    reflexivity.
  - reflexivity.
  - cbn -[to_val]. rewrite !dumps_fuel_scalar. reflexivity.
Qed.

(** ** Running one experiment *)

Ltac splits := repeat match goal with |- _ /\ _ => split end.

Ltac munfold :=
  unfold bind, ret, raise, get_world, set_fs, set_heap, set_rng, tick, print,
         try_except.

Lemma to_float_cases (group : string) (w : world) :
  (exists a, Text.py_float group = Some a /\ (0 <= a)%Q /\ to_float group w = Ret a w)
  \/ (exists m, to_float group w = Exc (ValueError m) w).
Proof.
  unfold to_float. destruct (Text.py_float group) as [a|] eqn:H.
  - left. exists a. split; [reflexivity|]. split; [|reflexivity].
    eapply py_float_nonneg; eauto.
  - right. eexists. reflexivity.
Qed.

Lemma bind_unfold {A B} (m : M A) (k : A -> M B) (w : world) :
  bind m k w = match m w with
               | Ret a w' => k a w'
               | Exc e w' => Exc e w'
               end.
Proof. reflexivity. Qed.

Lemma parse_digit_cases (output : string) (d : nat) (pd0 : dict Q) (w : world) :
  (exists pd, HyperOpt.parse_digit output d pd0 w = Ret pd w)
  \/ (exists m, HyperOpt.parse_digit output d pd0 w = Exc (ValueError m) w).
Proof.
  unfold HyperOpt.parse_digit.
  destruct (Text.search_digit d output) as [group|].
  - rewrite bind_unfold.
    destruct (to_float_cases group w) as [(a & _ & _ & ->)|(m & ->)].
    + left. eexists. reflexivity.
    + right. eexists. reflexivity.
  - left. eexists. reflexivity.
Qed.

Lemma parse_per_digit_cases (output : string) (w : world) :
  (exists pd, HyperOpt.parse_per_digit output w = Ret pd w)
  \/ (exists m, HyperOpt.parse_per_digit output w = Exc (ValueError m) w).
Proof.
  unfold HyperOpt.parse_per_digit.
  generalize (@nil (string * Q)) as pd0. generalize (seq 0 10) as digits.
  induction digits as [|d digits IH]; intros pd0.
  - left. eexists. reflexivity.
  - simpl for_each. rewrite bind_unfold.
    destruct (parse_digit_cases output d pd0 w) as [(pd & ->)|(m & ->)].
    + apply IH.
    + right. eexists. reflexivity.
Qed.

Lemma parse_accuracy_cases (output : string) (w : world) :
  (exists group a, Text.search_overall output = Some group
                   /\ Text.py_float group = Some a /\ (0 <= a)%Q
                   /\ HyperOpt.parse_accuracy output w = Ret a w)
  \/ (Text.search_overall output = None
      /\ HyperOpt.parse_accuracy output w = Ret 0%Q (printed w [PWarnParse]))
  \/ (exists group m, Text.search_overall output = Some group
                      /\ Text.py_float group = None
                      /\ HyperOpt.parse_accuracy output w = Exc (ValueError m) w).
Proof.
  unfold HyperOpt.parse_accuracy.
  destruct (Text.search_overall output) as [group|].
  - unfold to_float. destruct (Text.py_float group) as [a|] eqn:Ha.
    + left. exists group, a. splits; try reflexivity; try assumption.
      eapply py_float_nonneg; eauto.
    + right. right. exists group. eexists. splits; try reflexivity; assumption.
  - right. left. split; reflexivity.
Qed.

Lemma write_file_ok (E : env) (path : string) (content : file) (w : world) :
  can_write E (ticks w) path = true ->
  write_file E path content w
  = Ret tt (World (heap w) (<[path := content]> (fs w)) (console w) (rng w)
                  (S (ticks w)) (calls w)).
Proof.
  intros H. unfold write_file, open_w. munfold. rewrite H.
  cbn [heap fs console rng ticks calls].
  rewrite insert_insert_eq. reflexivity.
Qed.

Lemma write_file_denied (E : env) (path : string) (content : file) (w : world) :
  can_write E (ticks w) path = false ->
  write_file E path content w
  = Exc (OSError path)
        (World (heap w) (fs w) (console w) (rng w) (S (ticks w)) (calls w)).
Proof.
  intros H. unfold write_file, open_w. munfold. rewrite H. reflexivity.
Qed.

Lemma json_dump_to_ok (E : env) (path : string) (v : pyval) (j : json) (w : world) :
  can_write E (ticks w) path = true ->
  Heap.dumps (heap w) v = Some j ->
  json_dump_to E path v w
  = Ret tt (World (heap w) (<[path := FJson j]> (fs w)) (console w) (rng w)
                  (S (ticks w)) (calls w)).
Proof.
  intros H Hj. unfold json_dump_to, open_w. munfold. rewrite H.
  cbn [heap fs console rng ticks calls]. rewrite Hj.
  rewrite insert_insert_eq. reflexivity.
Qed.

Lemma visited_app (a b : list line) : visited (a ++ b) = visited a ++ visited b.
Proof. apply omap_app. Qed.

(** Whatever the child process does, the [try] statement returns; failures
    give the sentinel. *)
Ltac close_attempt :=
  cbn; eexists _, _, _; split; [reflexivity|]; cbn; splits;
  try reflexivity; try assumption; try apply Qle_refl;
  rewrite ?visited_app; simpl; rewrite ?app_nil_r; reflexivity.

Lemma attempt_returns (E : env) (self : HyperOpt.optimizer) (run_id : nat) (w : world) :
  exists acc pd w',
    HyperOpt.attempt E self run_id w = Ret (acc, pd) w'
    /\ (0 <= acc)%Q
    /\ heap w' = heap w /\ rng w' = rng w /\ calls w' = calls w
    /\ visited (console w') = visited (console w).
Proof.
  destruct w as [h files out g t cs].
  unfold HyperOpt.attempt, HyperOpt.run_and_parse, subprocess_run.
  munfold. cbn [heap fs console rng ticks calls].
  destruct (spawn E t (HyperOpt.command self run_id) files) as [rc o err|e].
  - cbn [fst snd].
    set (w1 := World h files out g (S t) cs).
    destruct (parse_accuracy_cases o w1) as
      [(group & a & _ & _ & Ha & ->)|[(_ & ->)|(group & m & _ & _ & ->)]].
    + destruct (parse_per_digit_cases o w1) as [(pd & ->)|(m & ->)].
      * destruct (can_write E (ticks w1) (HyperOpt.output_path self run_id)) eqn:Hc.
        -- rewrite (write_file_ok _ _ _ _ Hc). close_attempt.
        -- rewrite (write_file_denied _ _ _ _ Hc). close_attempt.
      * close_attempt.
    + destruct (parse_per_digit_cases o (printed w1 [PWarnParse])) as [(pd & ->)|(m & ->)].
      * destruct (can_write E (ticks (printed w1 [PWarnParse]))
                    (HyperOpt.output_path self run_id)) eqn:Hc.
        -- rewrite (write_file_ok _ _ _ _ Hc). close_attempt.
        -- rewrite (write_file_denied _ _ _ _ Hc). close_attempt.
      * close_attempt.
    + close_attempt.
  - destruct (is_timeout e); close_attempt.
Qed.

Lemma parse_per_digit_bad (output : string) (w : world) (d : nat) (g : string) :
  d < 10 ->
  Text.search_digit d output = Some g ->
  Text.py_float g = None ->
  exists m, HyperOpt.parse_per_digit output w = Exc (ValueError m) w.
Proof.
  intros Hd Hs Hf. unfold HyperOpt.parse_per_digit.
  assert (Hin : d ∈ seq 0 10) by (apply elem_of_seq; lia).
  revert Hin. generalize (@nil (string * Q)) as pd0. generalize (seq 0 10) as digits.
  induction digits as [|a digits IH]; intros pd0 Hin.
  - inversion Hin.
  - simpl for_each. rewrite bind_unfold.
    destruct (decide (a = d)) as [->|Hne].
    + unfold HyperOpt.parse_digit. rewrite Hs, bind_unfold.
      unfold to_float. rewrite Hf. eexists. reflexivity.
    + destruct (parse_digit_cases output a pd0 w) as [(pd & ->)|(m & ->)].
      * apply IH. apply elem_of_cons in Hin as [Heq|Hin]; [congruence|exact Hin].
      * eexists. reflexivity.
Qed.

(** ** The accuracy of one evaluation *)

Lemma parse_per_digit_readable (output : string) (w : world) :
  forallb (digit_readable output) (seq 0 10) = true ->
  exists pd, HyperOpt.parse_per_digit output w = Ret pd w.
Proof.
  unfold HyperOpt.parse_per_digit.
  generalize (@nil (string * Q)) as pd0. generalize (seq 0 10) as digits.
  induction digits as [|d digits IH]; intros pd0 H.
  - eexists. reflexivity.
  - cbn [forallb] in H. apply andb_true_iff in H as [Hd H].
    cbn [for_each]. rewrite bind_unfold. unfold HyperOpt.parse_digit at 1.
    unfold digit_readable in Hd.
    destruct (Text.search_digit d output) as [group|].
    + rewrite bind_unfold. unfold to_float.
      destruct (Text.py_float group) as [a|]; [|discriminate].
      apply IH. exact H.
    + apply IH. exact H.
Qed.

Lemma parse_per_digit_unreadable (output : string) (w : world) :
  forallb (digit_readable output) (seq 0 10) = false ->
  exists m, HyperOpt.parse_per_digit output w = Exc (ValueError m) w.
Proof.
  intros H.
  assert (Hex : exists d, d ∈ seq 0 10 /\ digit_readable output d = false).
  { revert H. generalize (seq 0 10) as l.
    induction l as [|d l IH]; intros H; [discriminate|].
    cbn [forallb] in H. apply andb_false_iff in H as [H|H].
    - exists d. split; [left|exact H].
    - destruct (IH H) as (d' & Hin & Hd'). exists d'. split; [right; exact Hin|exact Hd']. }
  destruct Hex as (d & Hin & Hd). apply elem_of_seq in Hin.
  unfold digit_readable in Hd.
  destruct (Text.search_digit d output) as [group|] eqn:Hs; [|discriminate].
  destruct (Text.py_float group) as [a|] eqn:Hf; [discriminate|].
  apply (parse_per_digit_bad output w d group); [lia|exact Hs|exact Hf].
Qed.

Lemma unreadable_accuracy (output : string) : unreadable output -> parsed_accuracy output = 0%Q.
Proof.
  intros [(group & Hs & Hf)|(d & group & Hd & Hs & Hf)]; unfold parsed_accuracy.
  - rewrite Hs, Hf. reflexivity.
  - destruct (Text.search_overall output) as [g|]; [|reflexivity].
    destruct (Text.py_float g) as [a|]; [|reflexivity].
    assert (Hall : forallb (digit_readable output) (seq 0 10) = false).
    { apply not_true_is_false. intros Hall.
      rewrite forallb_forall in Hall.
      assert (Hin : In d (seq 0 10)) by (apply in_seq; lia).
      specialize (Hall d Hin). unfold digit_readable in Hall.
      rewrite Hs, Hf in Hall. discriminate. }
    rewrite Hall. reflexivity.
Qed.

Lemma readable_accuracy (output group : string) (a : Q) :
  numbers_convert output ->
  Text.search_overall output = Some group ->
  Text.py_float group = Some a ->
  parsed_accuracy output = a.
Proof.
  intros [_ Hdig] Hs Hf. unfold parsed_accuracy. rewrite Hs, Hf.
  assert (Hall : forallb (digit_readable output) (seq 0 10) = true).
  { apply forallb_forall. intros d _. unfold digit_readable.
    destruct (Text.search_digit d output) as [g|] eqn:Hg; [|reflexivity].
    destruct (Hdig d g Hg) as [b ->]. reflexivity. }
  rewrite Hall. reflexivity.
Qed.

Ltac table_close Hins :=
  try solve
    [ reflexivity | discriminate | apply Qle_refl | lia
    | eapply py_float_nonneg; eauto
    | rewrite ?visited_app; simpl; rewrite ?app_nil_r; reflexivity
    | apply Hins
    | intros _; split; [reflexivity|]; rewrite <- ?app_assoc; eexists; reflexivity
    | intros _; split; [reflexivity|]; exists []; eexists; reflexivity
    | intros _; split; [reflexivity|]; exists [PWarnParse]; eexists;
      rewrite <- ?app_assoc; reflexivity
    | intros _; reflexivity ].

(** The [try] statement of [run_experiment], in full: it returns whatever
    happens, touches no file but the output file, and its result is read
    off the outcome of the child process. *)
Lemma attempt_table (E : env) (self : HyperOpt.optimizer) (run_id : nat) (w : world) :
  exists acc pd w',
    HyperOpt.attempt E self run_id w = Ret (acc, pd) w'
    /\ (0 <= acc)%Q
    /\ heap w' = heap w /\ rng w' = rng w /\ calls w' = calls w
    /\ visited (console w') = visited (console w)
    /\ ticks w < ticks w'
    /\ (forall path, path <> HyperOpt.output_path self run_id ->
                     fs w' !! path = fs w !! path)
    /\ match spawn E (ticks w) (HyperOpt.command self run_id) (fs w) with
       | Raised e =>
           (acc, pd) = (0%Q, [])
           /\ console w'
              = console w ++ [if is_timeout e then PTimedOut run_id
                              else PErrorRunning run_id e]
       | Completed rc out err =>
           (Text.search_overall out = None ->
            acc = 0%Q /\ exists ls, console w' = console w ++ PWarnParse :: ls)
           /\ (unreadable out ->
               (acc, pd) = (0%Q, [])
               /\ exists ls e, console w' = console w ++ ls ++ [PErrorRunning run_id e])
           /\ (can_write E (S (ticks w)) (HyperOpt.output_path self run_id) = true ->
               acc = parsed_accuracy out)
           /\ (can_write E (S (ticks w)) (HyperOpt.output_path self run_id) = false ->
               (acc, pd) = (0%Q, [])
               /\ exists ls e, console w' = console w ++ ls ++ [PErrorRunning run_id e])
       end.
Proof.
  destruct w as [h files out g t cs].
  unfold HyperOpt.attempt, HyperOpt.run_and_parse, subprocess_run.
  munfold. cbn [heap fs console rng ticks calls].
  assert (Hins : forall content path,
             path <> HyperOpt.output_path self run_id ->
             <[HyperOpt.output_path self run_id := content]> files !! path = files !! path).
  { intros content path Hne. apply lookup_insert_ne. congruence. }
  destruct (spawn E t (HyperOpt.command self run_id) files) as [rc o err|e].
  - cbn [fst snd].
    set (w1 := World h files out g (S t) cs).
    unfold HyperOpt.parse_accuracy, parsed_accuracy, unreadable.
    destruct (Text.search_overall o) as [group|] eqn:Hs.
    + unfold to_float. destruct (Text.py_float group) as [a|] eqn:Hf.
      * unfold ret at 1.
        destruct (forallb (digit_readable o) (seq 0 10)) eqn:Hall.
        -- destruct (parse_per_digit_readable o w1 Hall) as [pd ->].
           destruct (can_write E (S t) (HyperOpt.output_path self run_id)) eqn:Hc.
           ++ rewrite (write_file_ok E _ _ w1 Hc). cbn.
              eexists _, _, _. split; [reflexivity|]. cbn.
              splits; table_close Hins.
              intros [(g0 & Hg0 & Hf0)|(d & g0 & Hd & Hg0 & Hf0)].
              ** congruence.
              ** exfalso. rewrite forallb_forall in Hall.
                 assert (Hin : In d (seq 0 10)) by (apply in_seq; lia).
                 specialize (Hall d Hin). unfold digit_readable in Hall.
                 rewrite Hg0, Hf0 in Hall. discriminate.
           ++ rewrite (write_file_denied E _ _ w1 Hc). cbn.
              eexists _, _, _. split; [reflexivity|]. cbn.
              splits; table_close Hins.
        -- destruct (parse_per_digit_unreadable o w1 Hall) as [m ->]. cbn.
           eexists _, _, _. split; [reflexivity|]. cbn.
           splits; table_close Hins.
      * cbn. eexists _, _, _. split; [reflexivity|]. cbn.
        splits; table_close Hins.
    + subst w1. munfold. cbn [heap fs console rng ticks calls].
      set (w2 := World h files (out ++ [PWarnParse]) g (S t) cs).
      destruct (parse_per_digit_cases o w2) as [(pd & Hok)|(m & Hbad)].
      * rewrite Hok.
        destruct (can_write E (S t) (HyperOpt.output_path self run_id)) eqn:Hc.
        -- rewrite (write_file_ok E _ _ w2 Hc). cbn.
           eexists _, _, _. split; [reflexivity|]. cbn.
           splits; table_close Hins.
           intros [(g0 & Hg0 & _)|(d & g0 & Hd & Hg0 & Hf0)]; [discriminate|].
           exfalso.
           destruct (parse_per_digit_bad o w2 d g0 Hd Hg0 Hf0) as [m Hm].
           congruence.
        -- rewrite (write_file_denied E _ _ w2 Hc). cbn.
           eexists _, _, _. split; [reflexivity|]. cbn.
           splits; table_close Hins.
      * rewrite Hbad. cbn.
        eexists _, _, _. split; [reflexivity|]. cbn.
        splits; table_close Hins.
  - destruct (is_timeout e); cbn; eexists _, _, _;
      (split; [reflexivity|]); cbn; splits; table_close Hins.
Qed.

(** [create_config] on a full assignment: the copy, and nothing else,
    changes. *)
Lemma create_config_ok (params : dict scalar) (et kn st tw mp : scalar) (w : world) :
  base_intact (heap w) ->
  Dict.get params "edge_threshold" = Some et ->
  Dict.get params "k_neighbors" = Some kn ->
  Dict.get params "similarity_threshold" = Some st ->
  Dict.get params "temporal_window_ms" = Some tw ->
  Dict.get params "max_patterns" = Some mp ->
  exists config new,
    HyperOpt.create_config params w
    = Ret config (World (heap w ++ new) (fs w) (console w) (rng w) (ticks w) (calls w))
    /\ Heap.dumps (heap w ++ new) config = Some (configured_doc et kn st tw mp)
    /\ base_intact (heap w ++ new).
Proof.
  intros Hbase Het Hkn Hst Htw Hmp.
  destruct (create_config_spec params et kn st tw mp w Hbase Het Hkn Hst Htw Hmp)
    as (objs & Hrun & Hlen & Hdoc).
  eexists _, _. split; [exact Hrun|]. split.
  - apply (dumps_block (heap w) objs 13 (VRef 11)); [exact Hdoc|lia].
  - apply dumps_app. exact Hbase.
Qed.

Lemma fill_defaults_full (params : dict scalar) :
  exists et kn st tw mp,
    HyperOpt.fill_defaults params
    = [("edge_threshold", et); ("k_neighbors", kn); ("similarity_threshold", st);
       ("temporal_window_ms", tw); ("max_patterns", mp)].
Proof. eexists _, _, _, _, _. reflexivity. Qed.

Lemma append_inj (d a b : string) : d +:+ a = d +:+ b -> a = b.
Proof.
  induction d as [|c d IH]; simpl; intros H; [exact H|].
  injection H as H. apply IH. exact H.
Qed.

Lemma save_results_ok (E : env) (self : HyperOpt.optimizer) (w : world) :
  writable E ->
  exists files,
    HyperOpt.save_results E self w
    = Ret tt (World (heap w) files (console w) (rng w) (S (S (ticks w))) (calls w))
    /\ persisted self files.
Proof.
  intros Hw. unfold HyperOpt.save_results.
  rewrite bind_unfold, write_file_ok by apply Hw.
  rewrite write_file_ok by apply Hw.
  cbn [heap fs console rng ticks calls].
  eexists. split; [reflexivity|]. split.
  - rewrite lookup_insert_ne.
    + apply lookup_insert_eq.
    + intros H. apply append_inj in H. discriminate.
  - apply lookup_insert_eq.
Qed.

Lemma update_best_spec (a : Q) (fp : dict scalar) (self : HyperOpt.optimizer) (w : world) :
  exists ls,
    HyperOpt.update_best a fp self w
    = Ret (HyperOpt.Optimizer (HyperOpt.build_dir self) (HyperOpt.results_dir self)
             (HyperOpt.results self)
             (if float_gt a (HyperOpt.best_accuracy self) then a
              else HyperOpt.best_accuracy self)
             (if float_gt a (HyperOpt.best_accuracy self) then Some fp
              else HyperOpt.best_config self))
          (printed w ls)
    /\ visited ls = [].
Proof.
  unfold HyperOpt.update_best.
  destruct (float_gt a (HyperOpt.best_accuracy self)).
  - exists [PNewBest a]. split; reflexivity.
  - exists []. split; [|reflexivity].
    unfold ret, printed. rewrite app_nil_r. destruct self, w; reflexivity.
Qed.

(** One iteration of [grid_search]: whatever the child process does, the
    trial is recorded, the best updated and the ledger written. *)
Lemma grid_step_spec (E : env) (names : list string) (n i : nat) (combo : list scalar)
    (self : HyperOpt.optimizer) (w : world) :
  writable E ->
  base_intact (heap w) ->
  exists r w',
    HyperOpt.grid_step E names n (i, combo) self w = Ret (record_trial self r) w'
    /\ HyperOpt.run_id r = length (HyperOpt.results self)
    /\ HyperOpt.params r = HyperOpt.fill_defaults (Dict.of_zip names combo)
    /\ (0 <= HyperOpt.accuracy r)%Q
    /\ base_intact (heap w')
    /\ visited (console w') = visited (console w) ++ [Dict.of_zip names combo]
    /\ persisted (record_trial self r) (fs w').
Proof.
  intros Hw Hbase. unfold HyperOpt.grid_step.
  set (params := Dict.of_zip names combo).
  set (fp := HyperOpt.fill_defaults params).
  rewrite bind_unfold. unfold print at 1.
  set (w0 := World _ _ _ _ _ _).
  rewrite bind_unfold.
  destruct (create_config_ok fp _ _ _ _ _ w0 Hbase eq_refl eq_refl eq_refl eq_refl eq_refl)
    as (config & new & -> & Hdoc & Hbase1).
  set (w1 := World _ _ _ _ _ _).
  rewrite bind_unfold. unfold HyperOpt.run_experiment at 1.
  rewrite bind_unfold, (json_dump_to_ok E _ config _ w1 (Hw _ _) Hdoc).
  set (w2 := World _ _ _ _ _ _).
  destruct (attempt_returns E self (length (HyperOpt.results self)) w2)
    as (acc & pd & w3 & -> & Hacc & Hheap & _ & _ & Hvis).
  unfold time_time. munfold.
  set (r := HyperOpt.Trial _ fp acc pd _).
  set (self1 := HyperOpt.Optimizer _ _ _ _ _).
  set (w4 := World _ _ _ _ _ _).
  destruct (update_best_spec acc fp self1 w4) as (ls & -> & Hls).
  destruct (save_results_ok E
              (HyperOpt.Optimizer (HyperOpt.build_dir self1) (HyperOpt.results_dir self1)
                 (HyperOpt.results self1)
                 (if float_gt acc (HyperOpt.best_accuracy self1) then acc
                  else HyperOpt.best_accuracy self1)
                 (if float_gt acc (HyperOpt.best_accuracy self1) then Some fp
                  else HyperOpt.best_config self1))
              (printed w4 ls) Hw) as (files & -> & Hp).
  assert (Hself : HyperOpt.Optimizer (HyperOpt.build_dir self1) (HyperOpt.results_dir self1)
                 (HyperOpt.results self1)
                 (if float_gt acc (HyperOpt.best_accuracy self1) then acc
                  else HyperOpt.best_accuracy self1)
                 (if float_gt acc (HyperOpt.best_accuracy self1) then Some fp
                  else HyperOpt.best_config self1) = record_trial self r).
  { unfold record_trial, track. simpl.
    destruct (float_gt acc (HyperOpt.best_accuracy self)); reflexivity. }
  rewrite Hself in *.
  exists r. eexists. split; [reflexivity|]. cbn.
  splits; try reflexivity; try assumption.
  - rewrite Hheap. exact Hbase1.
  - rewrite !visited_app, Hls, Hvis. simpl. rewrite !app_nil_r. 
    unfold w2, w1, w0. cbn. rewrite visited_app. reflexivity.
Qed.

(** ** The loop of [grid_search] *)


Lemma record_trial_results (self : HyperOpt.optimizer) (rs : list HyperOpt.trial) :
  HyperOpt.results (fold_left record_trial rs self) = HyperOpt.results self ++ rs.
Proof.
  revert self. induction rs as [|r rs IH]; intros self; simpl.
  - rewrite app_nil_r. reflexivity.
  - rewrite IH. simpl. rewrite <- app_assoc. reflexivity.
Qed.

Lemma record_trial_best (self : HyperOpt.optimizer) (rs : list HyperOpt.trial) :
  (HyperOpt.best_accuracy (fold_left record_trial rs self),
   HyperOpt.best_config (fold_left record_trial rs self))
  = track (HyperOpt.best_accuracy self, HyperOpt.best_config self) rs.
Proof.
  revert self. induction rs as [|r rs IH]; intros self; simpl; [reflexivity|].
  rewrite IH. unfold track. simpl. f_equal.
  destruct (float_gt _ _); reflexivity.
Qed.

Lemma record_trial_dirs (self : HyperOpt.optimizer) (rs : list HyperOpt.trial) :
  HyperOpt.build_dir (fold_left record_trial rs self) = HyperOpt.build_dir self
  /\ HyperOpt.results_dir (fold_left record_trial rs self) = HyperOpt.results_dir self.
Proof.
  revert self. induction rs as [|r rs IH]; intros self; simpl; [split; reflexivity|].
  destruct (IH (record_trial self r)) as [-> ->]. split; reflexivity.
Qed.

(** The ledger invariant survives any run of trials numbered from the
    length of the history. *)
Lemma ledger_ok_extend (self : HyperOpt.optimizer) (rs : list HyperOpt.trial) :
  ledger_ok self ->
  map HyperOpt.run_id rs = seq (length (HyperOpt.results self)) (length rs) ->
  ledger_ok (fold_left record_trial rs self).
Proof.
  intros [Hbest Hids] Hrs. split.
  - rewrite record_trial_best, record_trial_results, Hbest.
    unfold track. rewrite fold_left_app. reflexivity.
  - rewrite record_trial_results, map_app, length_app, seq_app, Hids, Hrs.
    reflexivity.
Qed.

Lemma grid_loop_spec (E : env) (names : list string) (n : nat) :
  writable E ->
  forall (ics : list (nat * list scalar)) (self : HyperOpt.optimizer) (w : world),
    base_intact (heap w) ->
    exists rs w',
      for_each ics (HyperOpt.grid_step E names n) self w
      = Ret (fold_left record_trial rs self) w'
      /\ map HyperOpt.params rs
         = map (fun ic => HyperOpt.fill_defaults (Dict.of_zip names (snd ic))) ics
      /\ map HyperOpt.run_id rs = seq (length (HyperOpt.results self)) (length ics)
      /\ Forall (fun r => (0 <= HyperOpt.accuracy r)%Q) rs
      /\ base_intact (heap w')
      /\ visited (console w')
         = visited (console w) ++ map (fun ic => Dict.of_zip names (snd ic)) ics
      /\ (ics <> [] -> persisted (fold_left record_trial rs self) (fs w')).
Proof.
  intros Hw. induction ics as [|[i combo] ics IH]; intros self w Hbase.
  - exists [], w. simpl. splits; try reflexivity; try assumption.
    + constructor.
    + rewrite app_nil_r. reflexivity.
    + congruence.
  - cbn [for_each]. rewrite bind_unfold.
    destruct (grid_step_spec E names n i combo self w Hw Hbase)
      as (r & w1 & -> & Hid & Hparams & Hacc & Hbase1 & Hvis & Hpers).
    destruct ics as [|ic ics].
    + exists [r], w1. cbn. splits; try reflexivity; try assumption.
      * rewrite Hparams. reflexivity.
      * rewrite Hid. reflexivity.
      * constructor; [assumption|constructor].
      * intros _. exact Hpers.
    + destruct (IH (record_trial self r) w1 Hbase1)
        as (rs & w' & -> & Hps & Hids & Haccs & Hbase' & Hvis' & Hpers').
      exists (r :: rs), w'. splits; try reflexivity; try assumption.
      * cbn [map]. rewrite Hparams, Hps. reflexivity.
      * cbn [map]. rewrite Hid, Hids. cbn [HyperOpt.results record_trial].
        rewrite length_app. cbn [length]. rewrite Nat.add_1_r. reflexivity.
      * constructor; assumption.
      * rewrite Hvis', Hvis, <- app_assoc. reflexivity.
      * intros _. apply Hpers'. discriminate.
Qed.

Lemma imap_pair_map {A B} (F : A -> B) (l : list A) :
  forall g : nat -> nat,
    map (fun ic : nat * A => F (snd ic)) (imap (fun i c => (g i, c)) l) = map F l.
Proof.
  induction l as [|x l IH]; intros g; [reflexivity|].
  simpl. f_equal. apply (IH (fun i => g (S i))).
Qed.

Lemma select_all (E : env) (grid : dict (list scalar)) (max_experiments : Z) (w : world) :
  (Z.of_nat (length (product (map snd grid))) <= max_experiments)%Z ->
  HyperOpt.select_combinations E grid max_experiments w
  = Ret (product (map snd grid)) w.
Proof.
  intros H. unfold HyperOpt.select_combinations.
  destruct (Z.ltb_spec max_experiments (Z.of_nat (length (product (map snd grid)))));
    [lia|reflexivity].
Qed.

(** [grid_search] once the combinations are chosen. *)
Lemma grid_search_spec (E : env) (grid : dict (list scalar)) (max_experiments : Z)
    (self : HyperOpt.optimizer) (w : world) (combos : list (list scalar)) (w1 : world) :
  writable E ->
  base_intact (heap w) ->
  HyperOpt.select_combinations E grid max_experiments
    (printed w [PGridHeader grid max_experiments]) = Ret combos w1 ->
  heap w1 = heap w ->
  visited (console w1) = visited (console w) ->
  exists rs w',
    HyperOpt.grid_search E grid max_experiments self w
    = Ret (fold_left record_trial rs self) w'
    /\ map HyperOpt.params rs
       = map (fun c => HyperOpt.fill_defaults (Dict.of_zip (map fst grid) c)) combos
    /\ map HyperOpt.run_id rs = seq (length (HyperOpt.results self)) (length combos)
    /\ Forall (fun r => (0 <= HyperOpt.accuracy r)%Q) rs
    /\ base_intact (heap w')
    /\ visited (console w')
       = visited (console w) ++ map (Dict.of_zip (map fst grid)) combos
    /\ (combos <> [] -> persisted (fold_left record_trial rs self) (fs w')).
Proof.
  intros Hw Hbase Hsel Hheap Hvis.
  unfold HyperOpt.grid_search. rewrite bind_unfold. unfold print at 1.
  change (World (heap w) (fs w) (console w ++ [PGridHeader grid max_experiments])
                (rng w) (ticks w) (calls w))
    with (printed w [PGridHeader grid max_experiments]).
  rewrite bind_unfold, Hsel, bind_unfold. unfold print at 1.
  set (w2 := World _ _ _ _ _ _).
  assert (Hbase2 : base_intact (heap w2)) by (unfold w2; simpl; rewrite Hheap; exact Hbase).
  destruct (grid_loop_spec E (map fst grid) (length combos) Hw
              (imap pair combos) self w2 Hbase2)
    as (rs & w' & -> & Hps & Hids & Haccs & Hbase' & Hvis' & Hpers).
  exists rs, w'. splits; try reflexivity; try assumption.
  - rewrite Hps.
    apply (imap_pair_map (fun c => HyperOpt.fill_defaults (Dict.of_zip (map fst grid) c))
             combos (fun i => i)).
  - rewrite Hids, length_imap. reflexivity.
  - rewrite Hvis'. unfold w2. simpl. rewrite visited_app, Hvis. simpl.
    rewrite app_nil_r. f_equal.
    apply (imap_pair_map (Dict.of_zip (map fst grid)) combos (fun i => i)).
  - intros Hne. apply Hpers. destruct combos; [congruence|discriminate].
Qed.

(** ** The running best *)

Lemma track_cons (b : Q * option (dict scalar)) (r : HyperOpt.trial) (rs : list HyperOpt.trial) :
  track b (r :: rs)
  = track (if float_gt (HyperOpt.accuracy r) (fst b)
           then (HyperOpt.accuracy r, Some (HyperOpt.params r)) else b) rs.
Proof. reflexivity. Qed.

(** Either no trial beats the incoming best, which is kept, or the best is
    the earliest trial of maximal objective. *)
Lemma track_spec (rs : list HyperOpt.trial) :
  forall b,
    (track b rs = b
     /\ Forall (fun r => (HyperOpt.accuracy r <= fst b)%Q) rs)
    \/ (exists i r,
          rs !! i = Some r
          /\ track b rs = (HyperOpt.accuracy r, Some (HyperOpt.params r))
          /\ (fst b < HyperOpt.accuracy r)%Q
          /\ Forall (fun r' => (HyperOpt.accuracy r' <= HyperOpt.accuracy r)%Q) rs
          /\ (forall j r', j < i -> rs !! j = Some r' ->
                (HyperOpt.accuracy r' < HyperOpt.accuracy r)%Q)).
Proof.
  induction rs as [|r rs IH]; intros b.
  - left. split; [reflexivity|constructor].
  - rewrite track_cons.
    destruct (float_gt (HyperOpt.accuracy r) (fst b)) eqn:Hgt.
    + apply float_gt_spec in Hgt. right.
      destruct (IH (HyperOpt.accuracy r, Some (HyperOpt.params r)))
        as [[Heq Hall]|(i & r2 & Hi & Heq & Hlt & Hall & Hbefore)].
      * exists 0, r. simpl in Hall. splits; try assumption; try reflexivity.
        -- constructor; [apply Qle_refl|exact Hall].
        -- intros j r' Hj. lia.
      * exists (S i), r2. simpl in Hlt. splits; try assumption.
        -- eapply Qlt_trans; eauto.
        -- constructor; [apply Qlt_le_weak; exact Hlt|exact Hall].
        -- intros [|j] r' Hj Hr'; simpl in Hr'.
           ++ injection Hr' as <-. exact Hlt.
           ++ apply (Hbefore j r'); [lia|exact Hr'].
    + apply float_gt_false in Hgt.
      destruct (IH b) as [[Heq Hall]|(i & r2 & Hi & Heq & Hlt & Hall & Hbefore)].
      * left. split; [exact Heq|]. constructor; assumption.
      * right. exists (S i), r2. splits; try assumption.
        -- constructor; [|exact Hall].
           apply Qlt_le_weak. eapply Qle_lt_trans; eauto.
        -- intros [|j] r' Hj Hr'; simpl in Hr'.
           ++ injection Hr' as <-. eapply Qle_lt_trans; eauto.
           ++ apply (Hbefore j r'); [lia|exact Hr'].
Qed.

Lemma select_returns (E : env) (grid : dict (list scalar)) (max_experiments : Z) (w : world) :
  (0 <= max_experiments)%Z ->
  exists combos g,
    HyperOpt.select_combinations E grid max_experiments w
    = Ret combos (World (heap w) (fs w) (console w) g (ticks w) (calls w)).
Proof.
  intros Hmax. unfold HyperOpt.select_combinations.
  destruct (Z.ltb_spec max_experiments (Z.of_nat (length (product (map snd grid))))).
  - unfold random_seed, random_sample. rewrite bind_unfold. unfold set_rng at 1.
    destruct (Z.ltb_spec max_experiments 0); [lia|].
    destruct (Z.ltb_spec (Z.of_nat (length (product (map snd grid)))) max_experiments);
      [lia|].
    cbn [orb]. rewrite bind_unfold. unfold get_world at 1.
    cbn [heap fs console rng ticks calls].
    destruct (sample_positions E _ _ _) as [positions g'].
    rewrite bind_unfold. unfold set_rng at 1. unfold ret.
    eexists _, _. reflexivity.
  - exists (product (map snd grid)), (rng w). destruct w; reflexivity.
Qed.

(** [grid_search] from any budget that is not negative: it goes through the
    combinations it selected and comes back. *)
Lemma grid_search_returns (E : env) (grid : dict (list scalar)) (max_experiments : Z)
    (self : HyperOpt.optimizer) (w : world) :
  writable E ->
  base_intact (heap w) ->
  (0 <= max_experiments)%Z ->
  exists combos w0 rs w',
    HyperOpt.select_combinations E grid max_experiments
      (printed w [PGridHeader grid max_experiments]) = Ret combos w0
    /\ HyperOpt.grid_search E grid max_experiments self w
       = for_each (imap pair combos)
           (HyperOpt.grid_step E (map fst grid) (length combos)) self
           (printed w0 [PRunning (length combos)])
    /\ HyperOpt.grid_search E grid max_experiments self w
       = Ret (fold_left record_trial rs self) w'
    /\ map HyperOpt.params rs
       = map (fun c => HyperOpt.fill_defaults (Dict.of_zip (map fst grid) c)) combos
    /\ map HyperOpt.run_id rs = seq (length (HyperOpt.results self)) (length combos)
    /\ Forall (fun r => (0 <= HyperOpt.accuracy r)%Q) rs
    /\ base_intact (heap w')
    /\ base_intact (heap w0)
    /\ visited (console w')
       = visited (console w) ++ map (Dict.of_zip (map fst grid)) combos
    /\ (combos <> [] -> persisted (fold_left record_trial rs self) (fs w')).
Proof.
  intros Hw Hbase Hmax.
  destruct (select_returns E grid max_experiments
              (printed w [PGridHeader grid max_experiments]) Hmax)
    as (combos & g & Hsel).
  cbn [printed heap fs console rng ticks calls] in Hsel.
  destruct (fun H1 H2 => grid_search_spec E grid max_experiments self w combos _
                           Hw Hbase Hsel H1 H2)
    as (rs & w' & Hrun & Hrest).
  { reflexivity. }
  { cbn. rewrite visited_app. simpl. apply app_nil_r. }
  eexists combos, _, rs, w'. split; [exact Hsel|]. split.
  - unfold HyperOpt.grid_search. rewrite bind_unfold. unfold print at 1.
    change (World (heap w) (fs w) (console w ++ [PGridHeader grid max_experiments])
                  (rng w) (ticks w) (calls w))
      with (printed w [PGridHeader grid max_experiments]).
    rewrite bind_unfold, Hsel, bind_unfold. reflexivity.
  - split; [exact Hrun|].
    destruct Hrest as (H1 & H2 & H3 & H4 & H5 & H6).
    splits; assumption.
Qed.

(** ** File names *)

Lemma digits_of_uint (d : Decimal.uint) :
  forall acc : nat,
    Text.digits_value (Z.of_nat acc) (DecimalString.NilEmpty.string_of_uint d)
    = Some (Z.of_nat (Nat.of_uint_acc d acc)).
Proof.
  induction d as [|d IH|d IH|d IH|d IH|d IH|d IH|d IH|d IH|d IH|d IH]; intros acc;
    [reflexivity|..];
    cbn [DecimalString.NilEmpty.string_of_uint Text.digits_value Nat.of_uint_acc];
    match goal with
    | |- context [Text.is_digit ?c] =>
        change (Text.is_digit c) with true; cbv iota
    end;
    rewrite <- IH; f_equal; rewrite Nat.tail_mul_spec;
    match goal with
    | |- context [nat_of_ascii ?c] =>
        let v := eval vm_compute in (nat_of_ascii c) in
        change (nat_of_ascii c) with v
    end; lia.
Qed.

Lemma digits_str_nat (n : nat) : Text.digits_value 0 (str_nat n) = Some (Z.of_nat n).
Proof.
  unfold str_nat.
  exact (eq_trans (digits_of_uint (Nat.to_uint n) 0)
           (f_equal (fun k => Some (Z.of_nat k)) (DecimalNat.Unsigned.of_to n))).
Qed.

Lemma digits_zero_padded (k : nat) (s : string) :
  Text.digits_value 0 (Nat.iter k (String "0") s) = Text.digits_value 0 s.
Proof.
  induction k as [|k IH]; [reflexivity|].
  cbn [Nat.iter nat_rect]. exact IH.
Qed.

Lemma digits_fmt04d (n : nat) : Text.digits_value 0 (fmt04d n) = Some (Z.of_nat n).
Proof. unfold fmt04d. rewrite digits_zero_padded. apply digits_str_nat. Qed.

Lemma fmt04d_inj (n m : nat) : fmt04d n = fmt04d m -> n = m.
Proof.
  intros H. apply (f_equal (Text.digits_value 0)) in H.
  rewrite !digits_fmt04d in H. injection H as H. lia.
Qed.

Lemma append_length (a b : string) :
  String.length (a +:+ b) = String.length a + String.length b.
Proof. induction a as [|c a IH]; simpl; [reflexivity|]. rewrite IH. reflexivity. Qed.

Lemma append_inj_r (a b s : string) : a +:+ s = b +:+ s -> a = b.
Proof.
  revert b. induction a as [|c a IH]; intros b H.
  - destruct b as [|d b]; [reflexivity|].
    apply (f_equal String.length) in H. rewrite !append_length in H. simpl in H. lia.
  - destruct b as [|d b].
    + apply (f_equal String.length) in H. rewrite !append_length in H. simpl in H. lia.
    + simpl in H. injection H as -> H. f_equal. apply IH. exact H.
Qed.

(** ** The files of a search *)







(** ** Every trial of a search is an evaluation *)






(** ** Claims about [grid_search] *)


Lemma silent_env_writable : writable silent_env.
Proof. intros t path. reflexivity. Defined.


(** The best of a ledger, read off its history. *)
Lemma ledger_best (self : HyperOpt.optimizer) :
  ledger_ok self ->
  (HyperOpt.best_config self = None
   /\ HyperOpt.best_accuracy self = 0%Q
   /\ Forall (fun r => (HyperOpt.accuracy r <= 0)%Q) (HyperOpt.results self))
  \/ (exists i r,
        HyperOpt.results self !! i = Some r
        /\ HyperOpt.best_config self = Some (HyperOpt.params r)
        /\ HyperOpt.best_accuracy self = HyperOpt.accuracy r
        /\ (0 < HyperOpt.accuracy r)%Q
        /\ Forall (fun r' => (HyperOpt.accuracy r' <= HyperOpt.accuracy r)%Q)
                  (HyperOpt.results self)
        /\ (forall j r', j < i -> HyperOpt.results self !! j = Some r' ->
              (HyperOpt.accuracy r' < HyperOpt.accuracy r)%Q)).
Proof.
  intros [Hbest _].
  destruct (track_spec (HyperOpt.results self) (0%Q, None))
    as [[Heq Hall]|(i & r & Hi & Heq & Hlt & Hall & Hbefore)];
    rewrite Heq in Hbest; injection Hbest as Ha Hc.
  - left. splits; assumption.
  - right. exists i, r. splits; assumption.
Qed.

Lemma init_ledger_ok : ledger_ok HyperOpt.init.
Proof. split; reflexivity. Defined.


Lemma timeout_env_writable : writable timeout_env.
Proof. intros t path. reflexivity. Defined.

Lemma crashing_env_writable : writable crashing_env.
Proof. intros t path. reflexivity. Defined.

Lemma initial_world_intact (files : gmap string file) (g : list Z) :
  base_intact (heap (HyperOpt.initial_world files g)).
Proof. vm_compute. reflexivity. Defined.



(** ** The [try] statement of [run_experiment], case by case *)

Lemma attempt_raised (E : env) (self : HyperOpt.optimizer) (run_id : nat) (w : world) (e : exn) :
  spawn E (ticks w) (HyperOpt.command self run_id) (fs w) = Raised e ->
  HyperOpt.attempt E self run_id w
  = Ret (0%Q, [])
        (World (heap w) (fs w)
               (console w ++ [if is_timeout e then PTimedOut run_id
                              else PErrorRunning run_id e])
               (rng w) (S (ticks w)) (calls w)).
Proof.
  intros H. destruct w as [h files out g t cs]. simpl in H.
  unfold HyperOpt.attempt, HyperOpt.run_and_parse, subprocess_run.
  munfold. cbn [heap fs console rng ticks calls]. rewrite H.
  destruct (is_timeout e); reflexivity.
Qed.

Lemma parse_per_digit_ok (output : string) (w : world) :
  (forall digit group, Text.search_digit digit output = Some group ->
                       is_Some (Text.py_float group)) ->
  exists pd, HyperOpt.parse_per_digit output w = Ret pd w.
Proof.
  intros H. unfold HyperOpt.parse_per_digit.
  generalize (@nil (string * Q)) as pd0. generalize (seq 0 10) as digits.
  induction digits as [|d digits IH]; intros pd0.
  - eexists. reflexivity.
  - cbn [for_each]. rewrite bind_unfold. unfold HyperOpt.parse_digit at 1.
    destruct (Text.search_digit d output) as [group|] eqn:Hd.
    + destruct (H d group Hd) as [a Ha].
      rewrite bind_unfold. unfold to_float. rewrite Ha. apply IH.
    + apply IH.
Qed.

(** The process completed, whatever its exit code: if the numbers convert
    and the output file can be written, the output is saved and the parsed
    accuracy returned (0.0 and a warning when the marker is absent). *)
Lemma attempt_completed (E : env) (self : HyperOpt.optimizer) (run_id : nat) (w : world)
    (rc : Z) (output err : string) :
  spawn E (ticks w) (HyperOpt.command self run_id) (fs w) = Completed rc output err ->
  numbers_convert output ->
  can_write E (S (ticks w)) (HyperOpt.output_path self run_id) = true ->
  exists a pd,
    HyperOpt.attempt E self run_id w
    = Ret (a, pd)
          (World (heap w)
                 (<[HyperOpt.output_path self run_id := FText output]> (fs w))
                 (console w ++ match Text.search_overall output with
                               | Some _ => []
                               | None => [PWarnParse]
                               end)
                 (rng w) (S (S (ticks w))) (calls w))
    /\ match Text.search_overall output with
       | Some group => Text.py_float group = Some a
       | None => a = 0%Q
       end.
Proof.
  intros H [Hacc Hdig] Hc. destruct w as [h files out g t cs]. simpl in H, Hc.
  unfold HyperOpt.attempt, HyperOpt.run_and_parse, subprocess_run.
  munfold. cbn [heap fs console rng ticks calls]. rewrite H. cbn [fst snd].
  unfold HyperOpt.parse_accuracy.
  destruct (Text.search_overall output) as [group|] eqn:Hs.
  - destruct (Hacc group eq_refl) as [a Ha]. unfold to_float. rewrite Ha.
    unfold ret at 1.
    destruct (parse_per_digit_ok output (World h files out g (S t) cs) Hdig) as [pd ->].
    rewrite (write_file_ok E _ _ (World h files out g (S t) cs) Hc).
    exists a, pd. cbn. rewrite app_nil_r. split; reflexivity.
  - munfold. cbn [heap fs console rng ticks calls].
    destruct (parse_per_digit_ok output (World h files (out ++ [PWarnParse]) g (S t) cs) Hdig)
      as [pd ->].
    rewrite (write_file_ok E _ _ (World h files (out ++ [PWarnParse]) g (S t) cs) Hc).
    exists 0%Q, pd. cbn. split; reflexivity.
Qed.

(** The process completed without the marker: the sentinel comes back,
    after the warning. *)
Lemma attempt_no_marker (E : env) (self : HyperOpt.optimizer) (run_id : nat) (w : world)
    (rc : Z) (output err : string) :
  spawn E (ticks w) (HyperOpt.command self run_id) (fs w) = Completed rc output err ->
  Text.search_overall output = None ->
  exists pd w' ls,
    HyperOpt.attempt E self run_id w = Ret (0%Q, pd) w'
    /\ console w' = console w ++ PWarnParse :: ls.
Proof.
  intros H Hs. destruct w as [h files out g t cs]. simpl in H.
  unfold HyperOpt.attempt, HyperOpt.run_and_parse, subprocess_run.
  munfold. cbn [heap fs console rng ticks calls]. rewrite H. cbn [fst snd].
  unfold HyperOpt.parse_accuracy. rewrite Hs.
  munfold. cbn [heap fs console rng ticks calls].
  set (w1 := World h files (out ++ [PWarnParse]) g (S t) cs).
  destruct (parse_per_digit_cases output w1) as [(pd & ->)|(m & ->)].
  - destruct (can_write E (ticks w1) (HyperOpt.output_path self run_id)) eqn:Hc.
    + rewrite (write_file_ok _ _ _ _ Hc). cbn.
      eexists _, _, []. split; reflexivity.
    + rewrite (write_file_denied _ _ _ _ Hc). cbn.
      eexists _, _, [_]. split; [reflexivity|]. cbn.
      rewrite <- app_assoc. reflexivity.
  - cbn. eexists _, _, [_]. split; [reflexivity|]. cbn.
    rewrite <- app_assoc. reflexivity.
Qed.

(** [run_experiment] of [optimize_saccades.py] returns whatever the child
    process does. *)
Lemma saccades_run_cases (E : env) (path : string) (w : world) :
  exists a w',
    Saccades.run_experiment E path w = Ret a w'
    /\ (0 <= a)%Q
    /\ heap w' = heap w /\ fs w' = fs w /\ calls w' = calls w
    /\ match spawn E (ticks w) [Saccades.EXECUTABLE; path] (fs w) with
       | Raised e =>
           a = 0%Q
           /\ console w' = console w ++ [if is_timeout e then PTimeout else PError e]
       | Completed rc out err =>
           match Text.search_overall_ws (out +:+ err) with
           | None => a = 0%Q
           | Some group =>
               match Text.py_float group with
               | Some b => a = b
               | None => a = 0%Q
               end
           end
       end.
Proof.
  destruct w as [h files out g t cs].
  unfold Saccades.run_experiment, Saccades.run_and_parse, subprocess_run.
  munfold. cbn [heap fs console rng ticks calls].
  destruct (spawn E t [Saccades.EXECUTABLE; path] files) as [rc o err|e].
  - cbn [fst snd].
    destruct (Text.search_overall_ws (o +:+ err)) as [group|].
    + unfold to_float. destruct (Text.py_float group) as [b|] eqn:Hb; cbn.
      * eexists _, _. split; [reflexivity|]. cbn. splits; try reflexivity.
        eapply py_float_nonneg; eauto.
      * eexists _, _. split; [reflexivity|]. cbn. splits; try reflexivity.
        apply Qle_refl.
    + cbn. eexists _, _. split; [reflexivity|]. cbn. splits; try reflexivity.
      apply Qle_refl.
  - destruct (is_timeout e); cbn.
    + eexists _, _. split; [reflexivity|]. cbn. splits; try reflexivity.
      apply Qle_refl.
    + eexists _, _. split; [reflexivity|]. cbn. splits; try reflexivity.
      apply Qle_refl.
Qed.

(** The [try] statement of the single-axis sweeps. *)
Lemma sweep_attempt_cases (E : env) (S : sweep) (x : scalar) (w : world) :
  exists a w',
    SweepScript.attempt E S x w = Ret a w'
    /\ (0 <= a)%Q
    /\ heap w' = heap w /\ rng w' = rng w /\ calls w' = calls w
    /\ match spawn E (ticks w) (SweepScript.command E S x) (fs w) with
       | Raised e =>
           a = 0%Q /\ fs w' = fs w /\ console w' = console w ++ [PErrorValue x e]
       | Completed rc out err =>
           (forall group, Text.search_overall out = Some group ->
                          is_Some (Text.py_float group)) ->
           can_write E (Datatypes.S (ticks w)) (SweepScript.output_path E S x) = true ->
           fs w' = <[SweepScript.output_path E S x := FText out]> (fs w)
           /\ console w' = console w
           /\ match Text.search_overall out with
              | Some group => Text.py_float group = Some a
              | None => a = 0%Q
              end
       end.
Proof.
  destruct w as [h files out g t cs].
  unfold SweepScript.attempt, SweepScript.run_and_parse, subprocess_run.
  munfold. cbn [heap fs console rng ticks calls].
  destruct (spawn E t (SweepScript.command E S x) files) as [rc o err|e].
  - cbn [fst snd].
    destruct (Text.search_overall o) as [group|] eqn:Hs.
    + unfold to_float. destruct (Text.py_float group) as [b|] eqn:Hb; munfold.
      * destruct (can_write E (Datatypes.S t) (SweepScript.output_path E S x)) eqn:Hc.
        -- rewrite (write_file_ok E _ _ (World h files out g (Datatypes.S t) cs) Hc). cbn.
           eexists _, _. split; [reflexivity|]. cbn. splits; try reflexivity.
           ++ eapply py_float_nonneg; eauto.
           ++ intros _ _. splits; reflexivity.
        -- rewrite (write_file_denied E _ _ (World h files out g (Datatypes.S t) cs) Hc). cbn.
           eexists _, _. split; [reflexivity|]. cbn. splits; try reflexivity.
           ++ apply Qle_refl.
           ++ intros _ Hc'. discriminate.
      * cbn. eexists _, _. split; [reflexivity|]. cbn. splits; try reflexivity.
        -- apply Qle_refl.
        -- intros H. destruct (H group eq_refl) as [b Hb']. congruence.
    + destruct (can_write E (Datatypes.S t) (SweepScript.output_path E S x)) eqn:Hc.
      * rewrite (write_file_ok E _ _ (World h files out g (Datatypes.S t) cs) Hc). cbn.
        eexists _, _. split; [reflexivity|]. cbn. splits; try reflexivity.
        -- apply Qle_refl.
        -- intros _ _. splits; reflexivity.
      * rewrite (write_file_denied E _ _ (World h files out g (Datatypes.S t) cs) Hc). cbn.
        eexists _, _. split; [reflexivity|]. cbn. splits; try reflexivity.
        -- apply Qle_refl.
        -- intros _ Hc'. discriminate.
  - cbn. eexists _, _. split; [reflexivity|]. cbn. splits; try reflexivity.
    apply Qle_refl.
Qed.

(** ** Claims about the evaluator *)

(** C1 (amended).  Once the configuration file is written, [run_experiment]
    returns whatever the child process does, and the objective it returns is
    never negative.  When [subprocess.run] raises (a timeout, or a process
    that cannot be started) it returns the sentinel 0.0 with no per-digit
    accuracy; when the process completes without the accuracy marker it
    returns the sentinel 0.0.  The returned value carries no status: the
    cases are told apart by the line printed ("timed out", "Error running",
    "Could not parse") only.  The exit code of a completed process is not
    looked at: a process that crashed is parsed like any other.  With a
    figure that [float] cannot read, or an output file that cannot be
    saved, the result is the sentinel [(0.0, {})] and the line printed last
    is "Error running"; otherwise it is the accuracy read off the output,
    which is the figure after the marker when the marker is present and
    every figure is readable.
    [run_experiment] of [optimize_saccades.py] never raises either.  The
    campaign goes on: with [BASE_CONFIG] as the script defines it, a disk
    that accepts every write and a budget that is not negative,
    [grid_search] records one trial per selected combination whatever the
    child processes do. *)
Theorem evaluator_returns_sentinel (E : env) (self : HyperOpt.optimizer)
    (config : pyval) (run_id : nat) (w : world) (j : json)
    (path : string) (w2 : world)
    (grid : dict (list scalar)) (max_experiments : Z) :
  can_write E (ticks w) (HyperOpt.config_path self run_id) = true ->
  Heap.dumps (heap w) config = Some j ->
  (exists r w',
      HyperOpt.run_experiment E self config run_id w = Ret r w'
      /\ (0 <= fst r)%Q
      /\ match spawn E (S (ticks w)) (HyperOpt.command self run_id)
                 (<[HyperOpt.config_path self run_id := FJson j]> (fs w)) with
         | Raised e =>
             r = (0%Q, [])
             /\ console w'
                = console w ++ [if is_timeout e then PTimedOut run_id
                                else PErrorRunning run_id e]
         | Completed rc out err =>
             (Text.search_overall out = None ->
              fst r = 0%Q /\ exists ls, console w' = console w ++ PWarnParse :: ls)
             /\ (unreadable out ->
                 r = (0%Q, [])
                 /\ exists ls e, console w' = console w ++ ls ++ [PErrorRunning run_id e])
             /\ (can_write E (S (S (ticks w))) (HyperOpt.output_path self run_id) = false ->
                 r = (0%Q, [])
                 /\ exists ls e, console w' = console w ++ ls ++ [PErrorRunning run_id e])
             /\ (can_write E (S (S (ticks w))) (HyperOpt.output_path self run_id) = true ->
                 fst r = parsed_accuracy out)
             /\ (forall group a,
                   Text.search_overall out = Some group ->
                   Text.py_float group = Some a ->
                   numbers_convert out ->
                   can_write E (S (S (ticks w))) (HyperOpt.output_path self run_id) = true ->
                   fst r = a)
         end)
  /\ (exists a w',
        Saccades.run_experiment E path w2 = Ret a w'
        /\ (0 <= a)%Q
        /\ match spawn E (ticks w2) [Saccades.EXECUTABLE; path] (fs w2) with
           | Raised e =>
               a = 0%Q
               /\ console w'
                  = console w2 ++ [if is_timeout e then PTimeout else PError e]
           | Completed rc out err =>
               Text.search_overall_ws (out +:+ err) = None -> a = 0%Q
           end)
  /\ (writable E ->
      base_intact (heap w) ->
      (0 <= max_experiments)%Z ->
      exists combos w0 rs w',
        HyperOpt.select_combinations E grid max_experiments
          (printed w [PGridHeader grid max_experiments]) = Ret combos w0
        /\ HyperOpt.grid_search E grid max_experiments self w
           = Ret (fold_left record_trial rs self) w'
        /\ length rs = length combos).
Proof.
  intros Hc Hj. split; [|split].
  - unfold HyperOpt.run_experiment.
    rewrite bind_unfold, (json_dump_to_ok E _ config j w Hc Hj).
    set (w1 := World _ _ _ _ _ _).
    change (S (ticks w)) with (ticks w1).
    change (<[HyperOpt.config_path self run_id := FJson j]> (fs w)) with (fs w1).
    change (console w) with (console w1).
    destruct (attempt_table E self run_id w1)
      as (acc & pd & w' & -> & Hacc & _ & _ & _ & _ & _ & _ & Hcase).
    exists (acc, pd), w'. split; [reflexivity|]. split; [exact Hacc|].
    destruct (spawn E (ticks w1) (HyperOpt.command self run_id) (fs w1))
      as [rc out err|e]; [|exact Hcase].
    destruct Hcase as (Hnone & Hbad & Hsave & Hdenied).
    cbn [fst]. splits; try assumption.
    intros group a Hs Hf Hnum Hcw. rewrite (Hsave Hcw).
    eapply readable_accuracy; eauto.
  - destruct (saccades_run_cases E path w2) as (a & w' & Hrun & Ha & _ & _ & _ & Hcase).
    exists a, w'. split; [exact Hrun|]. split; [exact Ha|].
    destruct (spawn E (ticks w2) [Saccades.EXECUTABLE; path] (fs w2)) as [rc out err|e].
    + intros Hnone. rewrite Hnone in Hcase. exact Hcase.
    + exact Hcase.
  - intros Hw Hbase Hmax.
    destruct (grid_search_returns E grid max_experiments self w Hw Hbase Hmax)
      as (combos & w0 & rs & w' & Hsel & _ & Hrun & _ & Hids & _).
    exists combos, w0, rs, w'. splits; try assumption.
    rewrite <- (length_map HyperOpt.run_id), Hids, length_seq. reflexivity.
Qed.

Lemma evaluator_returns_sentinel_witness :
  can_write timeout_env (ticks (HyperOpt.initial_world ∅ []))
    (HyperOpt.config_path HyperOpt.init 0) = true
  /\ Heap.dumps (heap (HyperOpt.initial_world ∅ [])) HyperOpt.BASE_CONFIG
     = Some HyperOpt.BASE_CONFIG_doc
  /\ exists r w',
       HyperOpt.run_experiment timeout_env HyperOpt.init HyperOpt.BASE_CONFIG 0
         (HyperOpt.initial_world ∅ []) = Ret r w'
       /\ r = (0%Q, []).
Proof.
  assert (H1 : can_write timeout_env (ticks (HyperOpt.initial_world ∅ []))
                 (HyperOpt.config_path HyperOpt.init 0) = true) by reflexivity.
  split; [exact H1|].
  split; [exact (initial_world_intact ∅ [])|].
  destruct (evaluator_returns_sentinel timeout_env HyperOpt.init HyperOpt.BASE_CONFIG 0
              (HyperOpt.initial_world ∅ []) HyperOpt.BASE_CONFIG_doc
              Saccades.TEMP_CONFIG (HyperOpt.initial_world ∅ []) ab_grid 10
              H1 (initial_world_intact ∅ []))
    as ((r & w' & Hrun & _ & Hcase) & _).
  exists r, w'. split; [exact Hrun|].
  cbn in Hcase. exact (proj1 Hcase).
Defined.

(** C1 as stated fails twice.  The value returned for a process that times
    out is the value returned for a process that cannot be started: no
    status distinguishes them.  And a process that crashes (exit code 139)
    after printing the marker does not give the sentinel but the accuracy it
    printed. *)
Lemma evaluator_status_counterexample :
  (exists r w1 w2,
      HyperOpt.run_experiment timeout_env HyperOpt.init HyperOpt.BASE_CONFIG 0
        (HyperOpt.initial_world ∅ []) = Ret r w1
      /\ HyperOpt.run_experiment missing_env HyperOpt.init HyperOpt.BASE_CONFIG 0
           (HyperOpt.initial_world ∅ []) = Ret r w2)
  /\ (exists r w',
        HyperOpt.run_experiment crashing_env HyperOpt.init HyperOpt.BASE_CONFIG 0
          (HyperOpt.initial_world ∅ []) = Ret r w'
        /\ fst r = 95.0%Q
        /\ ~ (fst r == 0)%Q).
Proof.
  split.
  - eexists _, _, _. split; vm_compute; reflexivity.
  - eexists _, _. split; [vm_compute; reflexivity|].
    split; [reflexivity|]. cbn. intros H. discriminate H.
Qed.

(** C8 (amended).  Once the configuration file is written, [run_experiment]
    saves the captured output of a process that completed, with or without
    the accuracy marker, provided the numbers it announces convert and the
    output file can be written; when [subprocess.run] raises (timeout or
    failure to start) the configuration is the only file written.  The [try]
    statement of [optimize_edge_fine.py] behaves alike. *)
Theorem output_saved_on_completion (E : env) (self : HyperOpt.optimizer)
    (config : pyval) (run_id : nat) (w : world) (j : json)
    (x : scalar) (w2 : world) :
  can_write E (ticks w) (HyperOpt.config_path self run_id) = true ->
  Heap.dumps (heap w) config = Some j ->
  (exists r w',
      HyperOpt.run_experiment E self config run_id w = Ret r w'
      /\ match spawn E (S (ticks w)) (HyperOpt.command self run_id)
                 (<[HyperOpt.config_path self run_id := FJson j]> (fs w)) with
         | Raised e =>
             fs w' = <[HyperOpt.config_path self run_id := FJson j]> (fs w)
         | Completed rc out err =>
             numbers_convert out ->
             can_write E (S (S (ticks w))) (HyperOpt.output_path self run_id) = true ->
             fs w' = <[HyperOpt.output_path self run_id := FText out]>
                       (<[HyperOpt.config_path self run_id := FJson j]> (fs w))
         end)
  /\ (exists a w',
        SweepScript.attempt E OptimizeEdgeFine.script x w2 = Ret a w'
        /\ match spawn E (ticks w2) (SweepScript.command E OptimizeEdgeFine.script x)
                   (fs w2) with
           | Raised e => fs w' = fs w2
           | Completed rc out err =>
               (forall group, Text.search_overall out = Some group ->
                              is_Some (Text.py_float group)) ->
               can_write E (S (ticks w2))
                 (SweepScript.output_path E OptimizeEdgeFine.script x) = true ->
               fs w' = <[SweepScript.output_path E OptimizeEdgeFine.script x := FText out]>
                         (fs w2)
           end).
Proof.
  intros Hc Hj. split.
  - unfold HyperOpt.run_experiment.
    rewrite bind_unfold, (json_dump_to_ok E _ config j w Hc Hj).
    set (w1 := World _ _ _ _ _ _).
    change (S (S (ticks w))) with (S (ticks w1)).
    change (S (ticks w)) with (ticks w1).
    change (<[HyperOpt.config_path self run_id:=FJson j]> (fs w)) with (fs w1).
    destruct (spawn E (ticks w1) (HyperOpt.command self run_id) (fs w1))
      as [rc out err|e] eqn:Hspawn.
    + destruct (attempt_returns E self run_id w1) as (acc & pd & w' & Hrun & _).
      exists (acc, pd), w'. split; [exact Hrun|].
      intros Hconv Hout.
      destruct (attempt_completed E self run_id w1 rc out err Hspawn Hconv Hout)
        as (a & pd' & Hrun' & _).
      rewrite Hrun in Hrun'. injection Hrun' as _ _ ->. reflexivity.
    + rewrite (attempt_raised E self run_id w1 e Hspawn).
      eexists _, _. split; reflexivity.
  - destruct (sweep_attempt_cases E OptimizeEdgeFine.script x w2)
      as (a & w' & Hrun & _ & _ & _ & _ & Hcase).
    exists a, w'. split; [exact Hrun|].
    destruct (spawn E (ticks w2) (SweepScript.command E OptimizeEdgeFine.script x) (fs w2))
      as [rc out err|e].
    + intros Hconv Hout. apply Hcase; assumption.
    + apply Hcase.
Qed.

Lemma output_saved_on_completion_witness :
  can_write silent_env (ticks (HyperOpt.initial_world ∅ []))
    (HyperOpt.config_path HyperOpt.init 0) = true
  /\ Heap.dumps (heap (HyperOpt.initial_world ∅ [])) HyperOpt.BASE_CONFIG
     = Some HyperOpt.BASE_CONFIG_doc
  /\ exists r w',
       HyperOpt.run_experiment silent_env HyperOpt.init HyperOpt.BASE_CONFIG 0
         (HyperOpt.initial_world ∅ []) = Ret r w'
       /\ fs w' !! "results/hyperparam/output_0000.txt" = Some (FText "").
Proof.
  assert (H1 : can_write silent_env (ticks (HyperOpt.initial_world ∅ []))
                 (HyperOpt.config_path HyperOpt.init 0) = true) by reflexivity.
  split; [exact H1|]. split; [exact (initial_world_intact ∅ [])|].
  destruct (output_saved_on_completion silent_env HyperOpt.init HyperOpt.BASE_CONFIG 0
              (HyperOpt.initial_world ∅ []) HyperOpt.BASE_CONFIG_doc
              (SFloat 0.155) (HyperOpt.initial_world ∅ [])
              H1 (initial_world_intact ∅ []))
    as ((r & w' & Hrun & Hcase) & _).
  exists r, w'. split; [exact Hrun|].
  cbn in Hcase. rewrite Hcase.
  - vm_compute. reflexivity.
  - split; intros ? ?; discriminate.
  - reflexivity.
Defined.

(** C8 as stated fails: when the child process times out, the trial ends
    and no output file is written. *)
Lemma output_not_saved_counterexample :
  exists r w',
    HyperOpt.run_experiment timeout_env HyperOpt.init HyperOpt.BASE_CONFIG 0
      (HyperOpt.initial_world ∅ []) = Ret r w'
    /\ fs w' !! HyperOpt.output_path HyperOpt.init 0 = None
    /\ dom (fs w') = {[HyperOpt.config_path HyperOpt.init 0]}.
Proof.
  eexists _, _. split.
  - unfold HyperOpt.run_experiment.
    rewrite bind_unfold,
      (json_dump_to_ok timeout_env _ HyperOpt.BASE_CONFIG HyperOpt.BASE_CONFIG_doc
         (HyperOpt.initial_world ∅ []) eq_refl (initial_world_intact ∅ [])).
    rewrite (attempt_raised timeout_env _ _ _ TimeoutExpired eq_refl).
    reflexivity.
  - cbn [fs HyperOpt.initial_world]. split.
    + rewrite lookup_insert_ne by (vm_compute; discriminate). apply lookup_empty.
    + rewrite dom_insert_L, dom_empty_L. set_solver.
Qed.

(** ** Claims about [create_config] *)

(** C2.  For every assignment of the five search parameters, and in every
    heap that holds [BASE_CONFIG] as the script wrote it, [create_config]
    returns a fresh configuration: it serializes to the base document with
    the eleven leaves replaced, every location that mirrors a parameter
    holds the value the assignment gives to that parameter, the objects of
    the copy are all new (the copy occupies a block at the end of the heap
    and serializes within that block), no object that existed before is
    changed, and [BASE_CONFIG] still serializes to the base document. *)
Theorem create_config_mirrors (params : dict scalar) (et kn st tw mp : scalar) (w : world) :
  base_intact (heap w) ->
  Dict.get params "edge_threshold" = Some et ->
  Dict.get params "k_neighbors" = Some kn ->
  Dict.get params "similarity_threshold" = Some st ->
  Dict.get params "temporal_window_ms" = Some tw ->
  Dict.get params "max_patterns" = Some mp ->
  exists objs doc,
    let n := length (heap w) in
    let h' := heap w ++ map (relocate_obj n) objs in
    HyperOpt.create_config params w
    = Ret (VRef (n + 11)) (World h' (fs w) (console w) (rng w) (ticks w) (calls w))
    /\ doc = configured_doc et kn st tw mp
    /\ Heap.dumps h' (VRef (n + 11)) = Some doc
    /\ Heap.dumps_fuel 13 objs (VRef 11) = Some doc
    /\ Forall (fun m => exists x, Dict.get params (snd m) = Some x
                                  /\ Json.get (fst m) doc = Some (scalar_json x))
              mirrors
    /\ (forall l o, heap w !! l = Some o -> h' !! l = Some o)
    /\ base_intact h'.
Proof.
  intros Hbase Het Hkn Hst Htw Hmp.
  destruct (create_config_spec params et kn st tw mp w Hbase Het Hkn Hst Htw Hmp)
    as (objs & Hrun & Hlen & Hdoc).
  exists objs, (configured_doc et kn st tw mp). cbn zeta.
  splits.
  - exact Hrun.
  - reflexivity.
  - apply (dumps_block (heap w) objs 13 (VRef 11)); [exact Hdoc|lia].
  - exact Hdoc.
  - unfold mirrors.
    repeat (constructor; [eexists; split; [eassumption|reflexivity]|]).
    constructor.
  - intros l o Hl. apply lookup_app_l_Some. exact Hl.
  - apply dumps_app. exact Hbase.
Qed.

Lemma create_config_mirrors_witness :
  base_intact (heap (HyperOpt.initial_world ∅ []))
  /\ Dict.get sample_assignment "edge_threshold" = Some (SFloat 0.20)
  /\ Dict.get sample_assignment "k_neighbors" = Some (SInt 7)
  /\ Dict.get sample_assignment "similarity_threshold" = Some (SFloat 0.8)
  /\ Dict.get sample_assignment "temporal_window_ms" = Some (SFloat 250.0)
  /\ Dict.get sample_assignment "max_patterns" = Some (SInt 150)
  /\ exists doc h',
       HyperOpt.create_config sample_assignment (HyperOpt.initial_world ∅ [])
       = Ret (VRef 23) (World h' ∅ [] [] 0 [])
       /\ Heap.dumps h' (VRef 23) = Some doc
       /\ Json.get ["adapters"; "retina"; "parameters"; "neuron_window_size"] doc
          = Some (JFloat 250.0)
       /\ base_intact h'.
Proof.
  split; [exact (initial_world_intact ∅ [])|].
  do 5 (split; [reflexivity|]).
  destruct (create_config_mirrors sample_assignment _ _ _ _ _
              (HyperOpt.initial_world ∅ []) (initial_world_intact ∅ [])
              eq_refl eq_refl eq_refl eq_refl eq_refl)
    as (objs & doc & Hrun & Hdoc & Hdumps & _ & _ & _ & Hbase).
  exists doc. eexists. split; [exact Hrun|]. split; [exact Hdumps|].
  split; [|exact Hbase].
  rewrite Hdoc. reflexivity.
Defined.

Lemma set_from_missing (config : pyval) (params : dict scalar) (path : list string)
    (key name : string) (w : world) :
  Dict.get params name = None ->
  HyperOpt.set_from config params path key name w = Exc (KeyError name) w.
Proof.
  intros H. unfold HyperOpt.set_from, assign, getitem.
  rewrite !bind_unfold, H. reflexivity.
Qed.

(** [create_config] only fails for want of one of its five names. *)
Lemma create_config_cases (params : dict scalar) (w : world) :
  base_intact (heap w) ->
  (Forall (fun name => is_Some (Dict.get params name)) parameter_names
   /\ exists config w', HyperOpt.create_config params w = Ret config w')
  \/ (exists name w',
        HyperOpt.create_config params w = Exc (KeyError name) w'
        /\ name ∈ parameter_names
        /\ Dict.get params name = None).
Proof.
  intros Hbase.
  destruct (Dict.get params "edge_threshold") as [et|] eqn:Het;
    [destruct (Dict.get params "temporal_window_ms") as [tw|] eqn:Htw;
     [destruct (Dict.get params "similarity_threshold") as [st|] eqn:Hst;
      [destruct (Dict.get params "max_patterns") as [mp|] eqn:Hmp;
       [destruct (Dict.get params "k_neighbors") as [kn|] eqn:Hkn|]|]|]|].
  1: { left. split.
       - unfold parameter_names.
         repeat (constructor; [eexists; eassumption|]). constructor.
       - destruct (create_config_ok params et kn st tw mp w Hbase Het Hkn Hst Htw Hmp)
           as (config & new & Hrun & _).
         eexists _, _. exact Hrun. }
  all: right.
  all: destruct w as [h files out g t cs]; simpl in Hbase.
  all: unfold HyperOpt.create_config.
  all: unfold bind at 1, deep_copy at 1, bind at 1, get_world at 1; cbn [heap].
  all: unfold base_intact in Hbase; rewrite Hbase, loads_base.
  all: unfold bind at 1, set_heap at 1; cbn [heap fs console rng ticks calls].
  all: change (World (h ++ map (relocate_obj (length h)) HyperOpt.initial_heap)
                     files out g t cs)
         with (with_block h files out g t cs HyperOpt.initial_heap).
  all: unfold ret at 1.
  all: repeat (unfold bind at 1;
               first [ erewrite set_from_rel; [|eassumption|lazy -[to_val]; reflexivity]
                     | erewrite set_from_missing by eassumption ]).
  all: eexists _, _; split; [reflexivity|].
  all: split; [unfold parameter_names; set_solver|assumption].
Qed.

Lemma fill_defaults_names (params : dict scalar) :
  Forall (fun name => is_Some (Dict.get (HyperOpt.fill_defaults params) name))
         parameter_names.
Proof.
  unfold parameter_names. repeat (constructor; [eexists; reflexivity|]). constructor.
Qed.

(** C7 (amended).  Nothing validates an assignment.  [create_config] returns
    a configuration for every assignment that carries the five parameter
    names, whatever the values and whatever other names it carries; it
    fails, with [KeyError], only when one of the five names is missing.
    [grid_search] always hands it the five names: a name of the grid outside
    the five is dropped and the swept values are passed on unchecked. *)
Theorem create_config_unvalidated (params : dict scalar) (w : world) :
  base_intact (heap w) ->
  ((Forall (fun name => is_Some (Dict.get params name)) parameter_names
    /\ exists config w', HyperOpt.create_config params w = Ret config w')
   \/ (exists name w',
         HyperOpt.create_config params w = Exc (KeyError name) w'
         /\ name ∈ parameter_names
         /\ Dict.get params name = None))
  /\ (exists config w',
        HyperOpt.create_config (HyperOpt.fill_defaults params) w = Ret config w')
  /\ (forall name, name ∈ parameter_names ->
        Dict.get (HyperOpt.fill_defaults params) name
        = match Dict.get params name with
          | Some x => Some x
          | None => Dict.get (HyperOpt.fill_defaults []) name
          end).
Proof.
  intros Hbase. splits.
  - apply create_config_cases. exact Hbase.
  - destruct (create_config_cases (HyperOpt.fill_defaults params) w Hbase)
      as [[_ H]|(name & w' & _ & Hin & Hnone)]; [exact H|].
    pose proof (fill_defaults_names params) as Hall.
    rewrite Forall_forall in Hall. destruct (Hall name Hin) as [x Hx]. congruence.
  - intros name Hin. unfold parameter_names in Hin.
    repeat (apply elem_of_cons in Hin as [->|Hin];
            [cbn; unfold Dict.get_default;
             match goal with |- context [Dict.get params ?k] =>
               destruct (Dict.get params k) end; reflexivity|]).
    inversion Hin.
Qed.

Lemma create_config_unvalidated_witness :
  base_intact (heap (HyperOpt.initial_world ∅ []))
  /\ exists config w',
       HyperOpt.create_config (HyperOpt.fill_defaults wild_assignment)
         (HyperOpt.initial_world ∅ []) = Ret config w'.
Proof.
  split; [exact (initial_world_intact ∅ [])|].
  destruct (create_config_unvalidated wild_assignment (HyperOpt.initial_world ∅ [])
              (initial_world_intact ∅ []))
    as (_ & H & _).
  exact H.
Defined.

(** C7 as stated fails: an assignment with the unknown name [bogus], an
    edge threshold outside every listed value, a negative number of
    neighbours and a string for a threshold is turned into a configuration
    without any error, and a grid over the unknown axis [bogus] runs to its
    end. *)
Lemma config_error_counterexample :
  Dict.get HyperOpt.SEARCH_SPACE "bogus" = None
  /\ Dict.get HyperOpt.SEARCH_SPACE "edge_threshold"
     = Some [SFloat 0.10; SFloat 0.12; SFloat 0.15; SFloat 0.18; SFloat 0.20;
             SFloat 0.22; SFloat 0.25]
  /\ (exists config w',
        HyperOpt.create_config wild_assignment (HyperOpt.initial_world ∅ [])
        = Ret config w'
        /\ (Json.get ["network"; "edge_threshold"] <$> Heap.dumps (heap w') config)
           = Some (Some (JFloat 9.9)))
  /\ (exists self' w',
        HyperOpt.grid_search silent_env [("bogus", [SInt 1; SInt 2])] 10
          HyperOpt.init (HyperOpt.initial_world ∅ []) = Ret self' w'
        /\ length (HyperOpt.results self') = 2).
Proof.
  split; [reflexivity|]. split; [reflexivity|]. split.
  - eexists _, _. split; vm_compute; reflexivity.
  - eexists _, _. split; vm_compute; reflexivity.
Qed.

(** ** Sampling the grid *)

Section pick_facts.
Context {A : Type}.




End pick_facts.








(** ** The phases of [main] *)

(** C6, evaluated on the code.  The child prefers edge threshold 0.25 with
    nine neighbours, so the search ends with that best configuration, found
    in phase 1 (trials 0 to 15); phase 2 (trials 16 to 27) sweeps neither
    parameter, yet each of its twelve trials runs with the hard-coded
    defaults 0.15 and 5, in its record and in the configuration file the
    child reads. *)
Theorem phase2_uses_defaults_not_best :
  campaign_report 16
    (HyperOpt.search_phases favourite_env (HyperOpt.initial_world ∅ []))
  = Some (Some [("edge_threshold", SFloat 0.25); ("k_neighbors", SInt 9);
                ("similarity_threshold", SFloat 0.7);
                ("temporal_window_ms", SFloat 200.0); ("max_patterns", SInt 100)],
          replicate 12 (Some (SFloat 0.15), Some (SInt 5),
                        Some (JFloat 0.15), Some (JInt 5))).
Proof. vm_compute. reflexivity. Qed.

(** ** The single-axis sweeps *)

Lemma loads_sweep_base (name description version : string) (edge : Q)
    (results_file : string) (h : list pyobj) :
  Heap.loads (sweep_base_doc name description version edge results_file) h
  = (VRef (length h + 11),
     h ++ map (relocate_obj (length h))
              (snd (Heap.loads (sweep_base_doc name description version edge results_file) []))).
Proof.
  unfold sweep_base_doc. cbn.
  repeat (rewrite ?length_app, <- ?app_assoc; cbn [length app]).
  rewrite <- ?Nat.add_assoc. cbn [Nat.add].
  rewrite Nat.add_0_r.
  reflexivity.
Qed.

Lemma deep_copy_ok (v : pyval) (j : json) (w : world) :
  Heap.dumps (heap w) v = Some j ->
  deep_copy v w
  = Ret (fst (Heap.loads j (heap w)))
        (World (snd (Heap.loads j (heap w))) (fs w) (console w) (rng w) (ticks w) (calls w)).
Proof.
  intros H. unfold deep_copy. rewrite bind_unfold. unfold get_world at 1.
  rewrite H. destruct (Heap.loads j (heap w)) as [v' h']. reflexivity.
Qed.

Lemma candidate_config_k (x : scalar) (w : world) :
  sweep_intact OptimizeK.script (heap w) ->
  exists config new j,
    SweepScript.candidate_config OptimizeK.script x w
    = Ret config (World (heap w ++ new) (fs w) (console w) (rng w) (ticks w) (calls w))
    /\ Heap.dumps (heap w ++ new) config = Some j
    /\ sweep_intact OptimizeK.script (heap w ++ new).
Proof.
  intros Hbase. destruct w as [h files out g t cs]. cbn [heap fs console rng ticks calls] in *.
  unfold SweepScript.candidate_config.
  rewrite bind_unfold,
    (deep_copy_ok (SweepScript.BASE_CONFIG OptimizeK.script) (sweep_doc OptimizeK.script)
       (World h files out g t cs) Hbase).
  cbn [OptimizeK.script sweep_doc sweep_targets heap fs console rng ticks calls].
  rewrite loads_sweep_base. cbn [fst snd].
  match goal with |- context [World (h ++ map (relocate_obj (length h)) ?objs) _ _ _ _ _] =>
    change (World (h ++ map (relocate_obj (length h)) objs) files out g t cs)
      with (with_block h files out g t cs objs)
  end.
  cbn [for_each]. rewrite !bind_unfold.
  erewrite assign_rel; [|reflexivity|apply relocate_scalar|lazy -[to_val]; reflexivity].
  unfold ret.
  eexists _, _, _. split; [reflexivity|]. split.
  - apply (dumps_block h _ 13 (VRef 11)); [|cbn; lia].
    cbn -[to_val]. rewrite !dumps_fuel_scalar. reflexivity.
  - apply dumps_app. exact Hbase.
Qed.

Lemma candidate_config_edge (x : scalar) (w : world) :
  sweep_intact OptimizeEdgeFine.script (heap w) ->
  exists config new j,
    SweepScript.candidate_config OptimizeEdgeFine.script x w
    = Ret config (World (heap w ++ new) (fs w) (console w) (rng w) (ticks w) (calls w))
    /\ Heap.dumps (heap w ++ new) config = Some j
    /\ sweep_intact OptimizeEdgeFine.script (heap w ++ new).
Proof.
  intros Hbase. destruct w as [h files out g t cs].
  cbn [heap fs console rng ticks calls] in *.
  unfold SweepScript.candidate_config.
  rewrite bind_unfold,
    (deep_copy_ok (SweepScript.BASE_CONFIG OptimizeEdgeFine.script)
       (sweep_doc OptimizeEdgeFine.script) (World h files out g t cs) Hbase).
  cbn [OptimizeEdgeFine.script sweep_doc sweep_targets heap fs console rng ticks calls].
  rewrite loads_sweep_base. cbn [fst snd].
  match goal with |- context [World (h ++ map (relocate_obj (length h)) ?objs) _ _ _ _ _] =>
    change (World (h ++ map (relocate_obj (length h)) objs) files out g t cs)
      with (with_block h files out g t cs objs)
  end.
  cbn [for_each]. rewrite !bind_unfold.
  erewrite assign_rel; [|reflexivity|apply relocate_scalar|lazy -[to_val]; reflexivity].
  cbv beta iota. rewrite ?bind_unfold.
  erewrite assign_rel; [|reflexivity|apply relocate_scalar|lazy -[to_val]; reflexivity].
  unfold ret.
  eexists _, _, _. split; [reflexivity|]. split.
  - apply (dumps_block h _ 13 (VRef 11)); [|cbn; lia].
    cbn -[to_val]. rewrite !dumps_fuel_scalar. reflexivity.
  - apply dumps_app. exact Hbase.
Qed.

Lemma sweep_track_spec (rs : list (scalar * Q)) :
  forall b,
    (sweep_track b rs = b /\ Forall (fun r => (snd r <= snd b)%Q) rs)
    \/ (exists x a,
          (x, a) ∈ rs
          /\ sweep_track b rs = (Some x, a)
          /\ (snd b < a)%Q
          /\ Forall (fun r => (snd r <= a)%Q) rs).
Proof.
  induction rs as [|[x a] rs IH]; intros b.
  - left. split; [reflexivity|constructor].
  - unfold sweep_track. cbn [fold_left fst snd].
    fold (sweep_track (if float_gt a (snd b) then (Some x, a) else b) rs).
    destruct (float_gt a (snd b)) eqn:Hgt.
    + apply float_gt_spec in Hgt. right.
      destruct (IH (Some x, a)) as [[Heq Hall]|(x2 & a2 & Hin & Heq & Hlt & Hall)].
      * exists x, a. splits; try assumption.
        -- apply list_elem_of_here.
        -- constructor; [apply Qle_refl|exact Hall].
      * exists x2, a2. cbn [snd] in Hlt. splits; try assumption.
        -- apply list_elem_of_further. exact Hin.
        -- eapply Qlt_trans; eauto.
        -- constructor; [apply Qlt_le_weak; exact Hlt|exact Hall].
    + apply float_gt_false in Hgt.
      destruct (IH b) as [[Heq Hall]|(x2 & a2 & Hin & Heq & Hlt & Hall)].
      * left. split; [exact Heq|]. constructor; assumption.
      * right. exists x2, a2. splits; try assumption.
        -- apply list_elem_of_further. exact Hin.
        -- constructor; [|exact Hall]. cbn [snd].
           apply Qlt_le_weak. eapply Qle_lt_trans; eauto.
Qed.

Section sweep_loop.
Variable E : env.
Variable S : sweep.
Hypothesis Hw : writable E.
Hypothesis Hconfig :
forall x w,
  sweep_intact S (heap w) ->
  exists config new j,
    SweepScript.candidate_config S x w
    = Ret config (World (heap w ++ new) (fs w) (console w) (rng w) (ticks w) (calls w))
    /\ Heap.dumps (heap w ++ new) config = Some j
    /\ sweep_intact S (heap w ++ new).

Lemma sweep_step_spec (x : scalar) (l : SweepScript.locals) (w : world) :
sweep_intact S (heap w) ->
exists a w',
  SweepScript.step E S x l w
  = Ret (SweepScript.Locals
           (SweepScript.results l ++ [(x, a)])
           (fst (sweep_track (SweepScript.best l, SweepScript.best_accuracy l) [(x, a)]))
           (snd (sweep_track (SweepScript.best l, SweepScript.best_accuracy l) [(x, a)])))
        w'
  /\ (0 <= a)%Q
  /\ sweep_intact S (heap w').
Proof.
intros Hbase. unfold SweepScript.step.
rewrite bind_unfold. unfold print at 1.
set (w0 := World _ _ _ _ _ _).
rewrite bind_unfold. unfold SweepScript.run_experiment.
rewrite bind_unfold.
destruct (Hconfig x w0 Hbase) as (config & new & j & -> & Hj & Hbase1).
set (w1 := World _ _ _ _ _ _).
rewrite bind_unfold, (json_dump_to_ok E _ config j w1 (Hw _ _) Hj).
set (w2 := World _ _ _ _ _ _).
destruct (sweep_attempt_cases E S x w2) as (a & w3 & -> & Ha & Hheap & _).
rewrite bind_unfold. unfold print at 1.
set (w4 := World _ _ _ _ _ _).
exists a. unfold sweep_track. cbn [fold_left fst snd].
destruct (float_gt a (SweepScript.best_accuracy l)).
- rewrite bind_unfold. unfold print at 1. unfold ret.
  eexists. split; [reflexivity|]. split; [exact Ha|].
  cbn. rewrite Hheap. exact Hbase1.
- unfold ret. eexists. split; [reflexivity|]. split; [exact Ha|].
  cbn. rewrite Hheap. exact Hbase1.
Qed.

Lemma sweep_loop_spec (xs : list scalar) :
forall (l : SweepScript.locals) (w : world),
  sweep_intact S (heap w) ->
  exists rs w',
    for_each xs (SweepScript.step E S) l w
    = Ret (SweepScript.Locals
             (SweepScript.results l ++ rs)
             (fst (sweep_track (SweepScript.best l, SweepScript.best_accuracy l) rs))
             (snd (sweep_track (SweepScript.best l, SweepScript.best_accuracy l) rs)))
          w'
    /\ map fst rs = xs
    /\ Forall (fun r => (0 <= snd r)%Q) rs
    /\ sweep_intact S (heap w').
Proof.
induction xs as [|x xs IH]; intros l w Hbase.
- exists [], w. cbn. rewrite app_nil_r. destruct l. splits; try reflexivity.
  + constructor.
  + exact Hbase.
- cbn [for_each]. rewrite bind_unfold.
  destruct (sweep_step_spec x l w Hbase) as (a & w1 & -> & Ha & Hbase1).
  set (l1 := SweepScript.Locals _ _ _).
  destruct (IH l1 w1 Hbase1) as (rs & w' & -> & Hxs & Hall & Hbase').
  exists ((x, a) :: rs), w'. splits.
  + unfold l1. cbn [SweepScript.results SweepScript.best SweepScript.best_accuracy].
    rewrite <- app_assoc. cbn [app].
    rewrite <- surjective_pairing. reflexivity.
  + cbn. rewrite Hxs. reflexivity.
  + constructor; assumption.
  + exact Hbase'.
Qed.
End sweep_loop.

Lemma k_world_intact (files : gmap string file) (g : list Z) :
  sweep_intact OptimizeK.script (heap (SweepScript.initial_world OptimizeK.script files g)).
Proof. vm_compute. reflexivity. Defined.

Lemma edge_world_intact (files : gmap string file) (g : list Z) :
  sweep_intact OptimizeEdgeFine.script
    (heap (SweepScript.initial_world OptimizeEdgeFine.script files g)).
Proof. vm_compute. reflexivity. Defined.

(** What a sweep ends with: a best candidate only if its objective is above
    the sentinel. *)
Lemma sweep_sentinel (E : env) (S : sweep) (w : world) :
  writable E ->
  (forall x w,
      sweep_intact S (heap w) ->
      exists config new j,
        SweepScript.candidate_config S x w
        = Ret config (World (heap w ++ new) (fs w) (console w) (rng w) (ticks w) (calls w))
        /\ Heap.dumps (heap w ++ new) config = Some j
        /\ sweep_intact S (heap w ++ new)) ->
  sweep_intact S (heap w) ->
  exists l w',
    SweepScript.sweep_loop E S w = Ret l w'
    /\ map fst (SweepScript.results l) = sweep_candidates S
    /\ Forall (fun r => (0 <= snd r)%Q) (SweepScript.results l)
    /\ (forall x, SweepScript.best l = Some x ->
          exists a, (x, a) ∈ SweepScript.results l
                    /\ SweepScript.best_accuracy l = a /\ (0 < a)%Q)
    /\ (Forall (fun r => (snd r == 0)%Q) (SweepScript.results l) ->
        SweepScript.best l = None /\ SweepScript.best_accuracy l = 0%Q).
Proof.
  intros Hw Hconfig Hbase. unfold SweepScript.sweep_loop.
  destruct (sweep_loop_spec E S Hw Hconfig (sweep_candidates S) (SweepScript.start) w Hbase)
    as (rs & w' & -> & Hxs & Hall & _).
  eexists _, w'. split; [reflexivity|].
  cbn [SweepScript.results SweepScript.best SweepScript.best_accuracy SweepScript.start app].
  split; [exact Hxs|]. split; [exact Hall|].
  destruct (sweep_track_spec rs (None, 0%Q))
    as [[Heq _]|(x & a & Hin & Heq & Hlt & _)]; rewrite Heq; cbn [fst snd] in *.
  - split; [discriminate|]. intros _. split; reflexivity.
  - split.
    + intros y [= <-]. exists a. splits; [exact Hin|reflexivity|exact Hlt].
    + intros Hzero. rewrite Forall_forall in Hzero.
      specialize (Hzero _ Hin). cbn in Hzero. rewrite Hzero in Hlt.
      exfalso. exact (Qlt_irrefl _ Hlt).
Qed.

(** ** The sentinel and the best *)

(** C10.  The running best starts at objective 0.0 with no configuration and
    is replaced only by a strictly greater objective, and no trial has a
    negative objective.  So whenever a best configuration is recorded, the
    trial that set it has an objective above 0.0: a trial returning the
    sentinel, as every timed-out, errored or unparsable trial does, never
    becomes the best.  In particular a search whose trials all return 0.0
    ends with no best recorded: [best_config] is [None] after [grid_search],
    and [best_k] and [best_threshold] are [None] after the loops of
    [optimize_k.py] and [optimize_edge_fine.py]. *)
Theorem sentinel_never_best (E : env) (grid : dict (list scalar)) (max_experiments : Z)
    (self : HyperOpt.optimizer) (w wk we : world) :
  writable E ->
  base_intact (heap w) ->
  ledger_ok self ->
  (0 <= max_experiments)%Z ->
  sweep_intact OptimizeK.script (heap wk) ->
  sweep_intact OptimizeEdgeFine.script (heap we) ->
  (exists rs w',
      let self' := fold_left record_trial rs self in
      HyperOpt.grid_search E grid max_experiments self w = Ret self' w'
      /\ HyperOpt.results self' = HyperOpt.results self ++ rs
      /\ Forall (fun r => (0 <= HyperOpt.accuracy r)%Q) rs
      /\ (forall c, HyperOpt.best_config self' = Some c ->
            exists r, r ∈ HyperOpt.results self'
                      /\ c = HyperOpt.params r
                      /\ HyperOpt.best_accuracy self' = HyperOpt.accuracy r
                      /\ (0 < HyperOpt.accuracy r)%Q)
      /\ (Forall (fun r => (HyperOpt.accuracy r == 0)%Q) (HyperOpt.results self') ->
          HyperOpt.best_config self' = None /\ HyperOpt.best_accuracy self' = 0%Q))
  /\ (exists l w',
        OptimizeK.sweep_loop E wk = Ret l w'
        /\ map fst (SweepScript.results l) = [SInt 1; SInt 3; SInt 5; SInt 7; SInt 9; SInt 11]
        /\ Forall (fun r => (0 <= snd r)%Q) (SweepScript.results l)
        /\ (forall x, SweepScript.best l = Some x ->
              exists a, (x, a) ∈ SweepScript.results l
                        /\ SweepScript.best_accuracy l = a /\ (0 < a)%Q)
        /\ (Forall (fun r => (snd r == 0)%Q) (SweepScript.results l) ->
            SweepScript.best l = None /\ SweepScript.best_accuracy l = 0%Q))
  /\ (exists l w',
        OptimizeEdgeFine.sweep_loop E we = Ret l w'
        /\ map fst (SweepScript.results l)
           = [SFloat 0.155; SFloat 0.158; SFloat 0.160; SFloat 0.162; SFloat 0.165]
        /\ Forall (fun r => (0 <= snd r)%Q) (SweepScript.results l)
        /\ (forall x, SweepScript.best l = Some x ->
              exists a, (x, a) ∈ SweepScript.results l
                        /\ SweepScript.best_accuracy l = a /\ (0 < a)%Q)
        /\ (Forall (fun r => (snd r == 0)%Q) (SweepScript.results l) ->
            SweepScript.best l = None /\ SweepScript.best_accuracy l = 0%Q)).
Proof.
  intros Hw Hbase Hledger Hmax Hk He. splits.
  - destruct (grid_search_returns E grid max_experiments self w Hw Hbase Hmax)
      as (combos & w0 & rs & w' & _ & _ & Hrun & _ & Hids & Haccs & _).
    exists rs, w'. cbn zeta.
    assert (Hledger' : ledger_ok (fold_left record_trial rs self)).
    { apply ledger_ok_extend; [exact Hledger|].
      rewrite Hids. f_equal.
      rewrite <- (length_map HyperOpt.run_id rs), Hids, length_seq. reflexivity. }
    splits; try assumption.
    + apply record_trial_results.
    + intros c Hc.
      destruct (ledger_best _ Hledger')
        as [(Hnone & _)|(i & r & Hi & Hsome & Hacc & Hlt & _)]; [congruence|].
      exists r. splits; try assumption.
      * eapply list_elem_of_lookup_2. exact Hi.
      * congruence.
    + intros Hzero.
      destruct (ledger_best _ Hledger')
        as [(Hnone & Hacc & _)|(i & r & Hi & _ & _ & Hlt & _)]; [split; assumption|].
      rewrite Forall_forall in Hzero.
      specialize (Hzero r (list_elem_of_lookup_2 _ _ _ Hi)). cbn in Hzero.
      rewrite Hzero in Hlt. exfalso. exact (Qlt_irrefl _ Hlt).
  - apply (sweep_sentinel E OptimizeK.script wk Hw); [|exact Hk].
    intros x w1. apply candidate_config_k.
  - apply (sweep_sentinel E OptimizeEdgeFine.script we Hw); [|exact He].
    intros x w1. apply candidate_config_edge.
Qed.

(** Every trial times out: no best is recorded by any of the three
    searches. *)
Lemma sentinel_never_best_witness :
  writable timeout_env
  /\ base_intact (heap (HyperOpt.initial_world ∅ []))
  /\ ledger_ok HyperOpt.init
  /\ (0 <= 10)%Z
  /\ sweep_intact OptimizeK.script (heap (SweepScript.initial_world OptimizeK.script ∅ []))
  /\ sweep_intact OptimizeEdgeFine.script
       (heap (SweepScript.initial_world OptimizeEdgeFine.script ∅ []))
  /\ (exists self' w',
        HyperOpt.grid_search timeout_env ab_grid 10 HyperOpt.init
          (HyperOpt.initial_world ∅ []) = Ret self' w'
        /\ HyperOpt.best_config self' = None)
  /\ (exists l w',
        OptimizeK.sweep_loop timeout_env
          (SweepScript.initial_world OptimizeK.script ∅ []) = Ret l w'
        /\ SweepScript.best l = None)
  /\ (exists l w',
        OptimizeEdgeFine.sweep_loop timeout_env
          (SweepScript.initial_world OptimizeEdgeFine.script ∅ []) = Ret l w'
        /\ SweepScript.best l = None).
Proof.
  assert (H4 : (0 <= 10)%Z) by lia.
  split; [exact timeout_env_writable|].
  split; [exact (initial_world_intact ∅ [])|].
  split; [exact init_ledger_ok|].
  split; [exact H4|].
  split; [exact (k_world_intact ∅ [])|].
  split; [exact (edge_world_intact ∅ [])|].
  destruct (sentinel_never_best timeout_env ab_grid 10 HyperOpt.init
              (HyperOpt.initial_world ∅ [])
              (SweepScript.initial_world OptimizeK.script ∅ [])
              (SweepScript.initial_world OptimizeEdgeFine.script ∅ [])
              timeout_env_writable (initial_world_intact ∅ []) init_ledger_ok H4
              (k_world_intact ∅ []) (edge_world_intact ∅ []))
    as ((rs & w' & Hrun & _ & _ & _ & Hg) & (lk & wk' & Hrunk & _ & _ & _ & Hk)
        & (le & we' & Hrune & _ & _ & _ & He)).
  cbn zeta in *. splits.
  - eexists _, _. split; [exact Hrun|]. apply Hg.
    assert (Hc : exists s x, HyperOpt.grid_search timeout_env ab_grid 10 HyperOpt.init
                   (HyperOpt.initial_world ∅ []) = Ret s x
                 /\ Forall (fun r => (HyperOpt.accuracy r == 0)%Q) (HyperOpt.results s)).
    { eexists _, _. split; [vm_compute; reflexivity|].
      cbn [HyperOpt.results]. repeat (constructor; [reflexivity|]). constructor. }
    destruct Hc as (s & x & Hs & Hall). rewrite Hs in Hrun.
    injection Hrun as <- _. exact Hall.
  - eexists _, _. split; [exact Hrunk|]. apply Hk.
    assert (Hc : exists s x, OptimizeK.sweep_loop timeout_env
                   (SweepScript.initial_world OptimizeK.script ∅ []) = Ret s x
                 /\ Forall (fun r => (snd r == 0)%Q) (SweepScript.results s)).
    { eexists _, _. split; [vm_compute; reflexivity|].
      cbn [SweepScript.results]. repeat (constructor; [reflexivity|]). constructor. }
    destruct Hc as (s & x & Hs & Hall). rewrite Hs in Hrunk.
    injection Hrunk as <- _. exact Hall.
  - eexists _, _. split; [exact Hrune|]. apply He.
    assert (Hc : exists s x, OptimizeEdgeFine.sweep_loop timeout_env
                   (SweepScript.initial_world OptimizeEdgeFine.script ∅ []) = Ret s x
                 /\ Forall (fun r => (snd r == 0)%Q) (SweepScript.results s)).
    { eexists _, _. split; [vm_compute; reflexivity|].
      cbn [SweepScript.results]. repeat (constructor; [reflexivity|]). constructor. }
    destruct Hc as (s & x & Hs & Hall). rewrite Hs in Hrune.
    injection Hrune as <- _. exact Hall.
Defined.

(** ** The Optuna study *)

Lemma tame_ret {A} (a : A) : tame (ret a).
Proof.
  intros w. split; [|reflexivity].
  exists []. split; [symmetry; apply app_nil_r|constructor].
Qed.

Lemma tame_raise {A} (e : exn) : e <> TrialPruned -> tame (@raise A e).
Proof.
  intros He w. split.
  - exists []. split; [symmetry; apply app_nil_r|constructor].
  - destruct e; try reflexivity. congruence.
Qed.

Lemma tame_bind {A B} (m : M A) (k : A -> M B) :
  tame m -> (forall a, tame (k a)) -> tame (bind m k).
Proof.
  intros Hm Hk w. rewrite bind_unfold.
  destruct (Hm w) as [(new & Hnew & Hall) Hp].
  destruct (m w) as [a w1|e w1]; cbn in *.
  - destruct (Hk a w1) as [(new' & Hnew' & Hall') Hp'].
    split; [|exact Hp'].
    exists (new ++ new'). rewrite Hnew', Hnew, app_assoc. split; [reflexivity|].
    apply Forall_app. split; assumption.
  - split; [|exact Hp]. exists new. split; assumption.
Qed.

Lemma tame_quiet {A} (m : M A) :
  (forall w, calls (final_world (m w)) = calls w /\ pruned (m w) = false) -> tame m.
Proof.
  intros H w. destruct (H w) as [Hc Hp]. split; [|exact Hp].
  exists []. rewrite Hc. split; [symmetry; apply app_nil_r|constructor].
Qed.

Lemma tame_get_world : tame get_world.
Proof. apply tame_quiet. intros w. split; reflexivity. Qed.

Lemma tame_tick : tame tick.
Proof. apply tame_quiet. intros w. split; reflexivity. Qed.

Lemma tame_print (l : line) : tame (print l).
Proof. apply tame_quiet. intros w. split; reflexivity. Qed.

Lemma tame_set_heap (h : list pyobj) : tame (set_heap h).
Proof. apply tame_quiet. intros w. split; reflexivity. Qed.

Lemma tame_set_fs (f : gmap string file) : tame (set_fs f).
Proof. apply tame_quiet. intros w. split; reflexivity. Qed.

Lemma tame_record_suggest (number : nat) (name : string) (v : scalar) :
  tame (record_call (CSuggest number name v)).
Proof.
  intros w. split; [|reflexivity].
  exists [CSuggest number name v]. split; [reflexivity|].
  constructor; [reflexivity|constructor].
Qed.

Ltac tame_step :=
  first
    [ apply tame_ret
    | apply tame_raise; discriminate
    | apply tame_get_world
    | apply tame_tick
    | apply tame_print
    | apply tame_set_heap
    | apply tame_set_fs
    | apply tame_record_suggest
    | apply tame_bind; [|intros ?] ].

Lemma tame_getitem {V} (d : dict V) (k : string) : tame (getitem d k).
Proof. unfold getitem. destruct (Dict.get d k); tame_step. Qed.

Lemma tame_subscript (obj : pyval) (k : string) : tame (subscript obj k).
Proof.
  unfold subscript. tame_step; [tame_step|].
  destruct obj; try tame_step.
  destruct (heap a !! l) as [[d|]|]; try tame_step.
  apply tame_getitem.
Qed.

Lemma tame_store_subscript (obj : pyval) (k : string) (x : pyval) :
  tame (store_subscript obj k x).
Proof.
  unfold store_subscript. tame_step; [tame_step|].
  destruct obj; try tame_step.
  destruct (heap a !! l) as [[d|]|]; tame_step.
Qed.

Lemma tame_walk (path : list string) : forall obj, tame (walk obj path).
Proof.
  induction path as [|k path IH]; intros obj; cbn [walk].
  - tame_step.
  - tame_step; [apply tame_subscript|apply IH].
Qed.

Lemma tame_assign (obj : pyval) (path : list string) (key : string) (rhs : M pyval) :
  tame rhs -> tame (assign obj path key rhs).
Proof.
  intros H. unfold assign. tame_step; [exact H|].
  tame_step; [apply tame_walk|apply tame_store_subscript].
Qed.

Lemma tame_json_load (path : string) : tame (json_load path).
Proof.
  unfold json_load. tame_step; [tame_step|]. tame_step; [tame_step|].
  destruct (fs a0 !! path) as [[j| |]|]; try tame_step.
  destruct (Heap.loads j (heap a0)) as [v h']. tame_step; tame_step.
Qed.

Lemma tame_json_dump_to (E : env) (path : string) (v : pyval) : tame (json_dump_to E path v).
Proof.
  unfold json_dump_to, open_w. tame_step.
  - tame_step; [tame_step|].
    destruct (can_write E a path); [|tame_step].
    tame_step; tame_step.
  - tame_step; [tame_step|].
    destruct (Heap.dumps (heap a0) v); tame_step.
Qed.

Lemma tame_suggest_int (Opt : optuna) (number : nat) (name : string) (low high step : Z) :
  tame (Trial.suggest_int Opt number name low high step).
Proof. unfold Trial.suggest_int. repeat tame_step. Qed.

Lemma tame_suggest_float (Opt : optuna) (number : nat) (name : string) (low high step : Q) :
  tame (Trial.suggest_float Opt number name low high step).
Proof. unfold Trial.suggest_float. repeat tame_step. Qed.

Lemma tame_run_experiment (E : env) (path : string) : tame (Saccades.run_experiment E path).
Proof.
  apply tame_quiet. intros w.
  destruct (saccades_run_cases E path w) as (a & w' & -> & _ & _ & _ & Hc & _).
  split; [exact Hc|reflexivity].
Qed.

(** [objective] asks the trial for parameter values and for nothing else,
    and never raises [TrialPruned]. *)
Lemma tame_objective (E : env) (Opt : optuna) (number : nat) :
  tame (Saccades.objective E Opt number).
Proof.
  unfold Saccades.objective.
  repeat first
    [ apply tame_json_load
    | apply tame_json_dump_to
    | apply tame_run_experiment
    | apply tame_suggest_int
    | apply tame_suggest_float
    | apply tame_assign
    | tame_step ].
Qed.

Lemma tame_try_except {A} (body : M A) (sel : exn -> bool) (handler : exn -> M A) :
  tame body -> (forall e, tame (handler e)) -> tame (try_except body sel handler).
Proof.
  intros Hb Hh w. unfold try_except.
  destruct (Hb w) as [(new & Hnew & Hall) Hp].
  destruct (body w) as [a w1|e w1]; cbn in *.
  - split; [|reflexivity]. exists new. split; assumption.
  - destruct (sel e).
    + destruct (Hh e w1) as [(new' & Hnew' & Hall') Hp'].
      split; [|exact Hp'].
      exists (new ++ new'). rewrite Hnew', Hnew, app_assoc. split; [reflexivity|].
      apply Forall_app. split; assumption.
    + split; [|exact Hp]. exists new. split; assumption.
Qed.

Lemma tame_optimize (objective : nat -> M Q) (n : nat) :
  (forall number, tame (objective number)) ->
  forall study, tame (optimize objective n study).
Proof.
  intros Hobj. induction n as [|n IH]; intros study; cbn [optimize].
  - tame_step.
  - tame_step; [|apply IH].
    apply tame_try_except.
    + tame_step; [apply Hobj|tame_step].
    + intros e. tame_step.
Qed.

(** Every trial a study closes is closed as [COMPLETE], with the value its
    objective returned. *)
Lemma optimize_complete (objective : nat -> M Q) (n : nat) :
  (forall number, tame (objective number)) ->
  forall study w study' w',
    optimize objective n study w = Ret study' w' ->
    exists closed,
      study' = study ++ closed
      /\ length closed = n
      /\ Forall (fun f => state f = COMPLETE /\ is_Some (value f)) closed.
Proof.
  intros Hobj.
  induction n as [|n IH]; intros study w study' w' H; cbn [optimize] in H.
  - injection H as <- <-. exists []. splits.
    + symmetry. apply app_nil_r.
    + reflexivity.
    + constructor.
  - rewrite bind_unfold in H. unfold try_except in H. rewrite bind_unfold in H.
    destruct (Hobj (length study) w) as [_ Hp].
    destruct (objective (length study) w) as [v w1|e w1].
    + unfold ret in H. apply IH in H as (closed & -> & Hlen & Hall).
      exists (Frozen (length study) (Some v) COMPLETE :: closed). splits.
      * rewrite <- app_assoc. reflexivity.
      * cbn. rewrite Hlen. reflexivity.
      * constructor; [|exact Hall]. split; [reflexivity|eexists; reflexivity].
    + destruct e; try discriminate H. discriminate Hp.
Qed.

(** Objectives that behave alike give studies that run alike. *)
Lemma optimize_ext (objective objective' : nat -> M Q) (n : nat) :
  (forall number w, objective' number w = objective number w) ->
  forall study w, optimize objective' n study w = optimize objective n study w.
Proof.
  intros Hobj. induction n as [|n IH]; intros study w; cbn [optimize].
  - reflexivity.
  - rewrite !bind_unfold. unfold try_except. rewrite !bind_unfold, Hobj.
    destruct (objective (length study) w) as [v w1|e w1].
    + apply IH.
    + destruct e; try reflexivity. apply IH.
Qed.

Lemma tame_run_experiment_focused (E : env) (path : string) :
  tame (SaccadesFocused.run_experiment E path).
Proof.
  apply tame_quiet. intros w. destruct w as [h files out g t cs].
  unfold SaccadesFocused.run_experiment, SaccadesFocused.run_and_parse, subprocess_run.
  munfold. cbn [heap fs console rng ticks calls].
  destruct (spawn E t [SaccadesFocused.EXECUTABLE; path] files) as [rc o err|e].
  - cbn [fst snd].
    destruct (Text.search_overall_ws (o +:+ err)) as [group|].
    + unfold to_float. destruct (Text.py_float group); cbn; split; reflexivity.
    + cbn. split; reflexivity.
  - destruct (is_timeout e); cbn; split; reflexivity.
Qed.

Lemma tame_objective_focused (E : env) (Opt : optuna) (number : nat) :
  tame (SaccadesFocused.objective E Opt number).
Proof.
  unfold SaccadesFocused.objective.
  repeat first
    [ apply tame_json_load
    | apply tame_json_dump_to
    | apply tame_run_experiment_focused
    | apply tame_suggest_int
    | apply tame_suggest_float
    | apply tame_assign
    | tame_step ].
Qed.

(** The value [objective] returns is the one [run_experiment] returned:
    the trial ends after its evaluation, with the complete objective. *)
Lemma objective_returns_evaluation (E : env) (Opt : optuna) (number : nat)
    (w : world) (a : Q) (w' : world) :
  Saccades.objective E Opt number w = Ret a w' ->
  exists w1 w2,
    Saccades.run_experiment E Saccades.TEMP_CONFIG w1 = Ret a w2
    /\ w' = printed w2 [PTrialResult a].
Proof.
  unfold Saccades.objective. intros H.
  repeat (rewrite bind_unfold in H;
          match type of H with
          | match ?m ?x with _ => _ end = _ =>
              destruct (m x) as [? ?|? ?] eqn:?; [|discriminate H]
          end).
  unfold ret in H. injection H as <- <-.
  match goal with
  | Hrun : Saccades.run_experiment E Saccades.TEMP_CONFIG ?w1 = Ret ?a ?w2,
    Hp : print (PTrialResult ?a) ?w2 = Ret _ ?w3 |- _ =>
      exists w1, w2; split; [exact Hrun|];
      unfold print in Hp; injection Hp as _ <-; reflexivity
  end.
Qed.

(** C9.  In the studies of [optimize_saccades.py] and
    [optimize_saccades_focused.py] the pruner never acts on a trial.  Two
    studies that differ in their pruner only run alike; the only calls made
    on trial objects ask for parameter values (no intermediate value is
    reported, [should_prune] is never asked); no trial ends by
    [TrialPruned], so every trial the study closes is [COMPLETE] with a
    value; and the value a trial returns is the one [run_experiment] returned
    once the external evaluation was over. *)
Theorem pruner_never_interrupts (E : env) (Opt Opt' : optuna) (n : nat)
    (study : list frozen_trial) (w : world) :
  sampler_int Opt' = sampler_int Opt ->
  sampler_float Opt' = sampler_float Opt ->
  forall objective objective',
    (objective = Saccades.objective E Opt /\ objective' = Saccades.objective E Opt')
    \/ (objective = SaccadesFocused.objective E Opt
        /\ objective' = SaccadesFocused.objective E Opt') ->
    optimize objective' n study w = optimize objective n study w
    /\ (exists new,
          calls (final_world (optimize objective n study w)) = calls w ++ new
          /\ Forall (fun c => is_suggest c = true) new)
    /\ pruned (optimize objective n study w) = false
    /\ (forall study' w',
          optimize objective n study w = Ret study' w' ->
          exists closed,
            study' = study ++ closed
            /\ length closed = n
            /\ Forall (fun f => state f = COMPLETE /\ is_Some (value f)) closed)
    /\ (forall number w0 a w',
          Saccades.objective E Opt number w0 = Ret a w' ->
          exists w1 w2,
            Saccades.run_experiment E Saccades.TEMP_CONFIG w1 = Ret a w2
            /\ w' = printed w2 [PTrialResult a]).
Proof.
  intros Hi Hf objective objective' Hscript.
  assert (Htame : forall number, tame (objective number)).
  { intros number. destruct Hscript as [[-> _]|[-> _]].
    - apply tame_objective.
    - apply tame_objective_focused. }
  splits.
  - destruct Opt as [si sf p], Opt' as [si' sf' p']. cbn in Hi, Hf. subst si' sf'.
    apply optimize_ext. intros number w0.
    destruct Hscript as [[-> ->]|[-> ->]]; reflexivity.
  - apply tame_optimize. exact Htame.
  - apply tame_optimize. exact Htame.
  - intros study' w'. apply optimize_complete. exact Htame.
  - intros number w0 a w'. apply objective_returns_evaluation.
Qed.

(** A pruner that would prune every trial changes nothing: both trials of a
    two-trial study are closed as complete. *)
Lemma pruner_never_interrupts_witness :
  sampler_int (constant_study true) = sampler_int (constant_study false)
  /\ sampler_float (constant_study true) = sampler_float (constant_study false)
  /\ exists w',
       optimize (Saccades.objective letters_env (constant_study true)) 2 [] saccades_world
       = Ret [Frozen 0 (Some 70.5%Q) COMPLETE; Frozen 1 (Some 70.5%Q) COMPLETE] w'
       /\ Forall (fun c => is_suggest c = true) (calls w').
Proof.
  split; [reflexivity|]. split; [reflexivity|].
  destruct (pruner_never_interrupts letters_env (constant_study false)
              (constant_study true) 2 [] saccades_world eq_refl eq_refl
              (Saccades.objective letters_env (constant_study false))
              (Saccades.objective letters_env (constant_study true))
              (or_introl (conj eq_refl eq_refl)))
    as (Heq & (new & Hnew & Hall) & _).
  assert (Hrun : exists s x,
             optimize (Saccades.objective letters_env (constant_study false)) 2 [] saccades_world
             = Ret s x
             /\ s = [Frozen 0 (Some 70.5%Q) COMPLETE; Frozen 1 (Some 70.5%Q) COMPLETE]).
  { eexists _, _. split; [vm_compute; reflexivity|reflexivity]. }
  destruct Hrun as (s & x & Hrun & ->).
  exists x. split.
  - rewrite Heq. exact Hrun.
  - rewrite Hrun in Hnew. cbn in Hnew. rewrite Hnew. exact Hall.
Defined.

(* ===================================================================== *)
(** * Part III: further properties of the scripts                         *)
(* ===================================================================== *)

(** ** Dictionaries *)

Lemma dict_get_set_eq {V} (d : dict V) (k : string) (v : V) :
  Dict.get (Dict.set d k v) k = Some v.
Proof.
  induction d as [|[k' v'] d IH]; simpl.
  - rewrite String.eqb_refl. reflexivity.
  - destruct (String.eqb k k') eqn:Hk; simpl.
    + rewrite String.eqb_refl. reflexivity.
    + rewrite Hk. exact IH.
Qed.

Lemma dict_get_set_ne {V} (d : dict V) (k k' : string) (v : V) :
  k <> k' -> Dict.get (Dict.set d k v) k' = Dict.get d k'.
Proof.
  intros Hne. induction d as [|[k0 v0] d IH]; simpl.
  - destruct (String.eqb k' k) eqn:Hk; [|reflexivity].
    apply String.eqb_eq in Hk. congruence.
  - destruct (String.eqb k k0) eqn:Hk; simpl.
    + apply String.eqb_eq in Hk. subst k0.
      destruct (String.eqb k' k) eqn:Hk'; [|reflexivity].
      apply String.eqb_eq in Hk'. congruence.
    + destruct (String.eqb k' k0); [reflexivity|exact IH].
Qed.

Lemma dict_set_fresh {V} (d : dict V) (k : string) (v : V) :
  k ∉ map fst d -> Dict.set d k v = d ++ [(k, v)].
Proof.
  induction d as [|[k' v'] d IH]; intros Hk; [reflexivity|].
  simpl in *. apply not_elem_of_cons in Hk as [Hne Hk].
  destruct (String.eqb k k') eqn:He.
  - apply String.eqb_eq in He. congruence.
  - rewrite IH by exact Hk. reflexivity.
Qed.

Lemma of_pairs_fresh {V} (pairs : list (string * V)) :
  forall d : dict V,
    NoDup (map fst d ++ map fst pairs) ->
    fold_left (fun d kv => Dict.set d (fst kv) (snd kv)) pairs d = d ++ pairs.
Proof.
  induction pairs as [|[k v] pairs IH]; intros d Hnd; simpl.
  - rewrite app_nil_r. reflexivity.
  - rewrite dict_set_fresh.
    + rewrite IH.
      * rewrite <- app_assoc. reflexivity.
      * rewrite map_app. simpl. rewrite <- app_assoc. exact Hnd.
    + apply NoDup_app in Hnd as (_ & Hd & _).
      intros Hin. apply (Hd k Hin). simpl. left.
Qed.

Lemma str_nat_inj (n m : nat) : str_nat n = str_nat m -> n = m.
Proof.
  unfold str_nat. intros H.
  apply DecimalNat.Unsigned.to_uint_inj.
  apply (f_equal DecimalString.NilEmpty.uint_of_string) in H.
  rewrite !DecimalString.NilEmpty.usu in H. congruence.
Qed.

(** ** [run_experiment]: what discards a run *)

(** X1.  [run_experiment] opens the configuration file before its [try]
    statement: when that write is refused the [OSError] leaves
    [run_experiment], the child process is never started, and a grid search
    whose first trial meets it ends with that exception, its ledger
    unwritten. *)
Theorem config_write_failure_propagates (E : env) (self : HyperOpt.optimizer)
    (grid : dict (list scalar)) (max_experiments : Z)
    (c : list scalar) (rest : list (list scalar)) (w : world) :
  base_intact (heap w) ->
  product (map snd grid) = c :: rest ->
  (Z.of_nat (length (c :: rest)) <= max_experiments)%Z ->
  can_write E (ticks w)
    (HyperOpt.config_path self (length (HyperOpt.results self))) = false ->
  (forall config,
      HyperOpt.run_experiment E self config (length (HyperOpt.results self)) w
      = Exc (OSError (HyperOpt.config_path self (length (HyperOpt.results self))))
            (World (heap w) (fs w) (console w) (rng w) (S (ticks w)) (calls w)))
  /\ (exists w',
        HyperOpt.grid_search E grid max_experiments self w
        = Exc (OSError (HyperOpt.config_path self (length (HyperOpt.results self)))) w'
        /\ fs w' = fs w
        /\ ticks w' = S (ticks w)
        /\ visited (console w') = visited (console w) ++ [Dict.of_zip (map fst grid) c]).
Proof.
  intros Hbase Hprod Hmax Hc. split.
  - intros config. unfold HyperOpt.run_experiment, json_dump_to, open_w.
    munfold. rewrite Hc. reflexivity.
  - unfold HyperOpt.grid_search. rewrite bind_unfold. unfold print at 1.
    rewrite bind_unfold, select_all by (rewrite Hprod; exact Hmax).
    rewrite Hprod. rewrite bind_unfold. unfold print at 1.
    cbn [imap for_each heap fs console rng ticks calls].
    rewrite bind_unfold. unfold HyperOpt.grid_step.
    rewrite bind_unfold. unfold print at 1.
    cbn [heap fs console rng ticks calls].
    set (w0 := World _ _ _ _ _ _).
    rewrite bind_unfold.
    destruct (create_config_ok
                (HyperOpt.fill_defaults (Dict.of_zip (map fst grid) c))
                _ _ _ _ _ w0 Hbase eq_refl eq_refl eq_refl eq_refl eq_refl)
      as (config & new & -> & Hdoc & Hbase1).
    rewrite bind_unfold.
    unfold HyperOpt.run_experiment, json_dump_to, open_w. munfold.
    subst w0. cbn [heap fs console rng ticks calls]. rewrite Hc.
    eexists. split; [reflexivity|]. cbn [fs ticks console].
    splits; try reflexivity.
    rewrite !visited_app. simpl. rewrite !app_nil_r. reflexivity.
Qed.

Lemma config_write_failure_propagates_witness :
  exists w',
    HyperOpt.grid_search readonly_env ab_grid 10 HyperOpt.init
      (HyperOpt.initial_world ∅ [])
    = Exc (OSError "results/hyperparam/config_0000.json") w'
    /\ fs w' = ∅.
Proof.
  destruct (config_write_failure_propagates readonly_env HyperOpt.init ab_grid 10
              [SInt 1; SInt 10] [[SInt 1; SInt 20]; [SInt 2; SInt 10]; [SInt 2; SInt 20]]
              (HyperOpt.initial_world ∅ []))
    as (_ & w' & Hrun & Hfs & _).
  - apply initial_world_intact.
  - reflexivity.
  - simpl. lia.
  - reflexivity.
  - exists w'. split; [exact Hrun|exact Hfs].
Defined.

(** X2.  A figure that [float] cannot read, in the overall line or in the
    line of any digit, costs the whole run: [run_experiment] returns
    [(0.0, {})] even when the overall accuracy was sound, reports the
    [ValueError], and the output of the child is not saved. *)
Theorem unreadable_figure_discards_run (E : env) (self : HyperOpt.optimizer)
    (config : pyval) (run_id : nat) (w : world) (j : json)
    (rc : Z) (out err : string) :
  can_write E (ticks w) (HyperOpt.config_path self run_id) = true ->
  Heap.dumps (heap w) config = Some j ->
  spawn E (S (ticks w)) (HyperOpt.command self run_id)
        (<[HyperOpt.config_path self run_id := FJson j]> (fs w))
  = Completed rc out err ->
  (exists g, Text.search_overall out = Some g /\ Text.py_float g = None)
  \/ (exists d g, d < 10 /\ Text.search_digit d out = Some g /\ Text.py_float g = None) ->
  exists m,
    HyperOpt.run_experiment E self config run_id w
    = Ret (0%Q, [])
          (World (heap w)
                 (<[HyperOpt.config_path self run_id := FJson j]> (fs w))
                 (console w
                  ++ match Text.search_overall out with
                     | Some _ => []
                     | None => [PWarnParse]
                     end
                  ++ [PErrorRunning run_id (ValueError m)])
                 (rng w) (S (S (ticks w))) (calls w)).
Proof.
  intros Hc Hj Hsp Hbad.
  unfold HyperOpt.run_experiment.
  rewrite bind_unfold, (json_dump_to_ok E _ config j w Hc Hj).
  destruct w as [h files cons g t cs]. cbn [heap fs console rng ticks calls] in *.
  unfold HyperOpt.attempt, HyperOpt.run_and_parse, subprocess_run.
  munfold. cbn [heap fs console rng ticks calls]. rewrite Hsp. cbn [fst snd].
  set (w1 := World h _ cons g (S (S t)) cs).
  destruct (parse_accuracy_cases out w1) as
    [(group & a & Hs & Hf & _ & ->)|[(Hs & ->)|(group & m & Hs & Hf & ->)]].
  - destruct Hbad as [(g0 & Hs0 & Hf0)|(d & g0 & Hd & Hs0 & Hf0)]; [congruence|].
    destruct (parse_per_digit_bad out w1 d g0 Hd Hs0 Hf0) as [m ->].
    rewrite Hs. exists m. reflexivity.
  - destruct Hbad as [(g0 & Hs0 & Hf0)|(d & g0 & Hd & Hs0 & Hf0)]; [congruence|].
    destruct (parse_per_digit_bad out (printed w1 [PWarnParse]) d g0 Hd Hs0 Hf0) as [m ->].
    rewrite Hs. exists m. cbn. rewrite <- app_assoc. reflexivity.
  - rewrite Hs. exists m. reflexivity.
Qed.

Lemma unreadable_figure_discards_run_witness :
  exists m w',
    HyperOpt.run_experiment garbled_env HyperOpt.init HyperOpt.BASE_CONFIG 0
      (HyperOpt.initial_world ∅ [])
    = Ret (0%Q, []) w'
    /\ console w' = [PErrorRunning 0 (ValueError m)]
    /\ fs w' !! HyperOpt.output_path HyperOpt.init 0 = None.
Proof.
  destruct (unreadable_figure_discards_run garbled_env HyperOpt.init HyperOpt.BASE_CONFIG 0
              (HyperOpt.initial_world ∅ []) HyperOpt.BASE_CONFIG_doc
              0 "Overall Accuracy: 97.5% Digit 3: 9..1%" "") as [m Hrun].
  - reflexivity.
  - apply initial_world_intact.
  - reflexivity.
  - right. exists 3, "9..1". split; [lia|]. split; vm_compute; reflexivity.
  - exists m. eexists. split; [exact Hrun|]. split; [reflexivity|].
    cbn [fs HyperOpt.initial_world]. rewrite lookup_insert_ne; [apply lookup_empty|].
    intros H. apply append_inj in H. discriminate.
Defined.

(** X3.  When the output of a completed child cannot be saved, the
    accuracy already parsed is thrown away: [run_experiment] returns
    [(0.0, {})] and reports the [OSError]. *)
Theorem output_write_failure_discards_run (E : env) (self : HyperOpt.optimizer)
    (config : pyval) (run_id : nat) (w : world) (j : json)
    (rc : Z) (out err : string) :
  can_write E (ticks w) (HyperOpt.config_path self run_id) = true ->
  Heap.dumps (heap w) config = Some j ->
  spawn E (S (ticks w)) (HyperOpt.command self run_id)
        (<[HyperOpt.config_path self run_id := FJson j]> (fs w))
  = Completed rc out err ->
  numbers_convert out ->
  can_write E (S (S (ticks w))) (HyperOpt.output_path self run_id) = false ->
  HyperOpt.run_experiment E self config run_id w
  = Ret (0%Q, [])
        (World (heap w)
               (<[HyperOpt.config_path self run_id := FJson j]> (fs w))
               (console w
                ++ match Text.search_overall out with
                   | Some _ => []
                   | None => [PWarnParse]
                   end
                ++ [PErrorRunning run_id (OSError (HyperOpt.output_path self run_id))])
               (rng w) (S (S (S (ticks w)))) (calls w)).
Proof.
  intros Hc Hj Hsp [Hacc Hdig] Hden.
  unfold HyperOpt.run_experiment.
  rewrite bind_unfold, (json_dump_to_ok E _ config j w Hc Hj).
  destruct w as [h files cons g t cs]. cbn [heap fs console rng ticks calls] in *.
  unfold HyperOpt.attempt, HyperOpt.run_and_parse, subprocess_run.
  munfold. cbn [heap fs console rng ticks calls]. rewrite Hsp. cbn [fst snd].
  unfold HyperOpt.parse_accuracy.
  destruct (Text.search_overall out) as [group|] eqn:Hs.
  - destruct (Hacc group eq_refl) as [a Ha]. unfold to_float. rewrite Ha.
    unfold ret at 1.
    set (w1 := World h _ cons g (S (S t)) cs).
    destruct (parse_per_digit_ok out w1 Hdig) as [pd ->].
    rewrite (write_file_denied E _ _ w1 Hden). reflexivity.
  - munfold. cbn [heap fs console rng ticks calls].
    set (w1 := World h _ (cons ++ [PWarnParse]) g (S (S t)) cs).
    destruct (parse_per_digit_ok out w1 Hdig) as [pd ->].
    rewrite (write_file_denied E _ _ w1 Hden). cbn.
    rewrite <- app_assoc. reflexivity.
Qed.

Lemma output_write_failure_discards_run_witness :
  exists w',
    HyperOpt.run_experiment full_disk_env HyperOpt.init HyperOpt.BASE_CONFIG 0
      (HyperOpt.initial_world ∅ [])
    = Ret (0%Q, []) w'
    /\ console w' = [PErrorRunning 0 (OSError "results/hyperparam/output_0000.txt")].
Proof.
  eexists. split.
  - apply (output_write_failure_discards_run full_disk_env HyperOpt.init
             HyperOpt.BASE_CONFIG 0 (HyperOpt.initial_world ∅ [])
             HyperOpt.BASE_CONFIG_doc 0 "Overall Accuracy: 95.0%" "").
    + reflexivity.
    + apply initial_world_intact.
    + reflexivity.
    + split.
      * intros group H. vm_compute in H. injection H as <-. vm_compute. eauto.
      * intros digit group H. exfalso. revert H.
        unfold Text.search_digit.
        generalize (Text.digit_char digit). intros c H.
        vm_compute in H.
        repeat match type of H with
               | context [match ?c with Ascii _ _ _ _ _ _ _ _ => _ end] => destruct c
               | context [if ?b then _ else _] => destruct b
               end; discriminate.
    + reflexivity.
  - reflexivity.
Defined.

(** ** The per-digit table *)

Lemma parse_digits_table (output : string) (w : world) :
  forall (ds : list nat) (pd0 : dict Q),
    NoDup ds ->
    (forall d g, d ∈ ds -> Text.search_digit d output = Some g ->
                 is_Some (Text.py_float g)) ->
    exists pd,
      for_each ds (HyperOpt.parse_digit output) pd0 w = Ret pd w
      /\ (forall d, d ∈ ds ->
            Dict.get pd (str_nat d)
            = match Text.search_digit d output with
              | Some g => Text.py_float g
              | None => Dict.get pd0 (str_nat d)
              end)
      /\ (forall k, (forall d, d ∈ ds -> k <> str_nat d) ->
            Dict.get pd k = Dict.get pd0 k).
Proof.
  induction ds as [|a ds IH]; intros pd0 Hnd Hok.
  - exists pd0. split; [reflexivity|]. split; [|reflexivity].
    intros d Hd. inversion Hd.
  - apply NoDup_cons in Hnd as [Ha Hnd].
    cbn [for_each]. rewrite bind_unfold. unfold HyperOpt.parse_digit at 1.
    assert (Hfresh : forall d, d ∈ ds -> str_nat a <> str_nat d).
    { intros d Hd Heq. apply str_nat_inj in Heq. subst d. exact (Ha Hd). }
    destruct (Text.search_digit a output) as [g|] eqn:Hs.
    + destruct (Hok a g (list_elem_of_here _ _) Hs) as [q Hq].
      rewrite bind_unfold. unfold to_float. rewrite Hq. unfold ret at 1 2.
      destruct (IH (Dict.set pd0 (str_nat a) q) Hnd) as (pd & Hrun & Hin & Hout).
      { intros d g' Hd. apply Hok. right. exact Hd. }
      exists pd. split; [exact Hrun|]. split.
      * intros d Hd. apply elem_of_cons in Hd as [->|Hd].
        -- rewrite Hs, Hout by exact Hfresh. rewrite dict_get_set_eq. symmetry. exact Hq.
        -- rewrite Hin by exact Hd.
           destruct (Text.search_digit d output); [reflexivity|].
           apply dict_get_set_ne. apply Hfresh. exact Hd.
      * intros k Hk. rewrite Hout.
        -- apply dict_get_set_ne. intros Heq. apply (Hk a); [left|congruence].
        -- intros d Hd. apply Hk. right. exact Hd.
    + unfold ret at 1.
      destruct (IH pd0 Hnd) as (pd & Hrun & Hin & Hout).
      { intros d g' Hd. apply Hok. right. exact Hd. }
      exists pd. split; [exact Hrun|]. split.
      * intros d Hd. apply elem_of_cons in Hd as [->|Hd].
        -- rewrite Hs. apply Hout. exact Hfresh.
        -- apply Hin. exact Hd.
      * intros k Hk. apply Hout. intros d Hd. apply Hk. right. exact Hd.
Qed.

(** X4.  The per-digit dictionary a completed run returns has, under the
    key [str(d)], the figure of the first line "Digit d: ...%" of the
    output, for each of the ten digits, and no other key; a digit the
    output does not mention has no entry. *)
Theorem per_digit_table (E : env) (self : HyperOpt.optimizer)
    (config : pyval) (run_id : nat) (w : world) (j : json)
    (rc : Z) (out err : string) :
  can_write E (ticks w) (HyperOpt.config_path self run_id) = true ->
  Heap.dumps (heap w) config = Some j ->
  spawn E (S (ticks w)) (HyperOpt.command self run_id)
        (<[HyperOpt.config_path self run_id := FJson j]> (fs w))
  = Completed rc out err ->
  numbers_convert out ->
  can_write E (S (S (ticks w))) (HyperOpt.output_path self run_id) = true ->
  exists a pd w',
    HyperOpt.run_experiment E self config run_id w = Ret (a, pd) w'
    /\ (forall d, d < 10 ->
          Dict.get pd (str_nat d)
          = match Text.search_digit d out with
            | Some g => Text.py_float g
            | None => None
            end)
    /\ (forall k, is_Some (Dict.get pd k) -> exists d, d < 10 /\ k = str_nat d).
Proof.
  intros Hc Hj Hsp [Hacc Hdig] Hout.
  unfold HyperOpt.run_experiment.
  rewrite bind_unfold, (json_dump_to_ok E _ config j w Hc Hj).
  destruct w as [h files cons g t cs]. cbn [heap fs console rng ticks calls] in *.
  unfold HyperOpt.attempt, HyperOpt.run_and_parse, subprocess_run.
  munfold. cbn [heap fs console rng ticks calls]. rewrite Hsp. cbn [fst snd].
  assert (Htable : forall w1,
             exists pd,
               HyperOpt.parse_per_digit out w1 = Ret pd w1
               /\ (forall d, d < 10 ->
                     Dict.get pd (str_nat d)
                     = match Text.search_digit d out with
                       | Some g => Text.py_float g
                       | None => None
                       end)
               /\ (forall k, is_Some (Dict.get pd k) ->
                             exists d, d < 10 /\ k = str_nat d)).
  { intros w1.
    destruct (parse_digits_table out w1 (seq 0 10) [] (NoDup_seq 0 10))
      as (pd & Hrun & Hin & Hother).
    { intros d g0 _. apply Hdig. }
    exists pd. split; [exact Hrun|]. split.
    - intros d Hd. apply Hin. apply elem_of_seq. lia.
    - intros k [q Hq].
      destruct (decide (k ∈ map str_nat (seq 0 10))) as [Hk|Hk].
      + apply list_elem_of_fmap in Hk as (d & -> & Hd).
        apply elem_of_seq in Hd. exists d. split; [lia|reflexivity].
      + rewrite Hother in Hq; [discriminate|].
        intros d Hd ->. apply Hk. apply list_elem_of_fmap. exists d. split; [reflexivity|exact Hd]. }
  unfold HyperOpt.parse_accuracy.
  destruct (Text.search_overall out) as [group|] eqn:Hs.
  - destruct (Hacc group eq_refl) as [a Ha]. unfold to_float. rewrite Ha.
    unfold ret at 1.
    set (w1 := World h _ cons g (S (S t)) cs).
    destruct (Htable w1) as (pd & -> & Hin & Hkeys).
    rewrite (write_file_ok E _ _ w1 Hout).
    exists a, pd. eexists. split; [reflexivity|]. split; assumption.
  - munfold. cbn [heap fs console rng ticks calls].
    set (w1 := World h _ (cons ++ [PWarnParse]) g (S (S t)) cs).
    destruct (Htable w1) as (pd & -> & Hin & Hkeys).
    rewrite (write_file_ok E _ _ w1 Hout).
    exists 0%Q, pd. eexists. split; [reflexivity|]. split; assumption.
Qed.

Lemma digits_env_numbers_convert :
  numbers_convert "Digit 7: 88.5% Overall Accuracy: 97.5% Digit 0: 99%".
Proof.
  split.
  - intros group H. vm_compute in H. injection H as <-. vm_compute. eauto.
  - intros digit group. unfold Text.search_digit.
    generalize (Text.digit_char digit). intros c H.
    destruct c as [b0 b1 b2 b3 b4 b5 b6 b7].
    destruct b0, b1, b2, b3, b4, b5, b6, b7; vm_compute in H;
      try discriminate; injection H as <-; vm_compute; eauto.
Qed.

Lemma per_digit_table_witness :
  exists a pd w',
    HyperOpt.run_experiment digits_env HyperOpt.init HyperOpt.BASE_CONFIG 0
      (HyperOpt.initial_world ∅ []) = Ret (a, pd) w'
    /\ Dict.get pd "7" = Some 88.5%Q
    /\ Dict.get pd "3" = None.
Proof.
  destruct (per_digit_table digits_env HyperOpt.init HyperOpt.BASE_CONFIG 0
              (HyperOpt.initial_world ∅ []) HyperOpt.BASE_CONFIG_doc
              0 "Digit 7: 88.5% Overall Accuracy: 97.5% Digit 0: 99%" "")
    as (a & pd & w' & Hrun & Hin & _).
  - reflexivity.
  - apply initial_world_intact.
  - reflexivity.
  - exact digits_env_numbers_convert.
  - reflexivity.
  - exists a, pd, w'. split; [exact Hrun|]. split.
    + refine (eq_trans (Hin 7 _) _); [lia|vm_compute; reflexivity].
    + refine (eq_trans (Hin 3 _) _); [lia|vm_compute; reflexivity].
Defined.

(** ** The parameters of a combination *)

Lemma product_elem_length {A} (axes : list (list A)) (c : list A) :
  c ∈ product axes -> length c = length axes.
Proof.
  intros H. apply elem_of_product in H. eapply Forall2_length. exact H.
Qed.

Lemma dict_get_combine {V} (names : list string) (values : list V) :
  NoDup names ->
  forall i k v,
    names !! i = Some k -> values !! i = Some v ->
    Dict.get (combine names values) k = Some v.
Proof.
  revert values. induction names as [|n names IH]; intros values Hnd i k v Hk Hv.
  - destruct i; discriminate.
  - apply NoDup_cons in Hnd as [Hn Hnd].
    destruct values as [|x values]; [destruct i; discriminate|].
    destruct i as [|i]; simpl in *.
    + injection Hk as ->. injection Hv as ->. rewrite String.eqb_refl. reflexivity.
    + destruct (String.eqb k n) eqn:He.
      * apply String.eqb_eq in He. subst n. exfalso. apply Hn.
        eapply list_elem_of_lookup_2. exact Hk.
      * eapply IH; eauto.
Qed.

Lemma dict_get_absent {V} (d : dict V) (k : string) :
  k ∉ map fst d -> Dict.get d k = None.
Proof.
  induction d as [|[k' v] d IH]; intros Hk; [reflexivity|].
  simpl in *. apply not_elem_of_cons in Hk as [Hne Hk].
  destruct (String.eqb k k') eqn:He.
  - apply String.eqb_eq in He. congruence.
  - apply IH. exact Hk.
Qed.

Lemma of_zip_combine {V} (names : list string) (values : list V) :
  NoDup names -> Dict.of_zip names values = combine names values.
Proof.
  intros Hnd. unfold Dict.of_zip, Dict.of_pairs.
  rewrite of_pairs_fresh; [reflexivity|].
  simpl. revert values. induction Hnd as [|n names Hn Hnd IH]; intros values.
  - constructor.
  - destruct values as [|x values]; [constructor|].
    simpl. apply NoDup_cons. split; [|apply IH].
    intros Hin. apply Hn.
    clear -Hin. revert values Hin. induction names as [|m names IH]; intros values Hin.
    + inversion Hin.
    + destruct values as [|y values]; [inversion Hin|].
      simpl in Hin. apply elem_of_cons in Hin as [->|Hin]; [left|right; eauto].
Qed.

Lemma fill_defaults_get (params : dict scalar) (name : string) :
  name ∈ parameter_names ->
  Dict.get (HyperOpt.fill_defaults params) name
  = match Dict.get params name with
    | Some x => Some x
    | None => Dict.get (HyperOpt.fill_defaults []) name
    end.
Proof.
  intros Hin. unfold parameter_names in Hin.
  repeat (apply elem_of_cons in Hin as [->|Hin];
          [unfold HyperOpt.fill_defaults, Dict.get_default; simpl;
           match goal with |- context [Dict.get params ?k] =>
             destruct (Dict.get params k) end; reflexivity|]).
  inversion Hin.
Qed.

(** X5.  A Python dictionary has no repeated key, so neither has the grid
    of [grid_search].  Each combination then has one value per axis, the
    dictionary printed for it pairs the axis names with its values in grid
    order, and the parameters recorded for the trial hold the swept value
    under each of the five known names that is an axis, and the hard-coded
    default under the others. *)
Theorem recorded_parameters (grid : dict (list scalar)) (c : list scalar) :
  NoDup (map fst grid) ->
  c ∈ product (map snd grid) ->
  length c = length grid
  /\ Dict.of_zip (map fst grid) c = combine (map fst grid) c
  /\ (forall i k v,
        map fst grid !! i = Some k -> c !! i = Some v ->
        Dict.get (Dict.of_zip (map fst grid) c) k = Some v
        /\ (k ∈ parameter_names ->
            Dict.get (HyperOpt.fill_defaults (Dict.of_zip (map fst grid) c)) k = Some v))
  /\ (forall k,
        k ∈ parameter_names -> k ∉ map fst grid ->
        Dict.get (HyperOpt.fill_defaults (Dict.of_zip (map fst grid) c)) k
        = Dict.get (HyperOpt.fill_defaults []) k).
Proof.
  intros Hnd Hc.
  assert (Hlen : length c = length grid).
  { rewrite (product_elem_length _ _ Hc). apply length_map. }
  assert (Hzip := of_zip_combine (map fst grid) c Hnd).
  splits.
  - exact Hlen.
  - exact Hzip.
  - intros i k v Hk Hv.
    assert (Hget : Dict.get (Dict.of_zip (map fst grid) c) k = Some v).
    { rewrite Hzip. eapply dict_get_combine; eauto. }
    split; [exact Hget|].
    intros Hin. rewrite fill_defaults_get, Hget by exact Hin. reflexivity.
  - intros k Hin Hk. rewrite fill_defaults_get by exact Hin.
    rewrite Hzip, dict_get_absent; [reflexivity|].
    intros Hin'. apply Hk.
    clear -Hin'. revert c Hin'. generalize (map fst grid) as names.
    induction names as [|n names IH]; intros c Hin; [inversion Hin|].
    destruct c as [|x c]; [inversion Hin|].
    simpl in Hin. apply elem_of_cons in Hin as [->|Hin]; [left|right; eauto].
Qed.

Lemma recorded_parameters_witness :
  Dict.of_zip (map fst HyperOpt.phase1_grid) [SFloat 0.25; SInt 9]
  = [("edge_threshold", SFloat 0.25); ("k_neighbors", SInt 9)]
  /\ Dict.get (HyperOpt.fill_defaults
                 (Dict.of_zip (map fst HyperOpt.phase1_grid) [SFloat 0.25; SInt 9]))
              "max_patterns"
     = Some (SInt 100).
Proof.
  destruct (recorded_parameters HyperOpt.phase1_grid [SFloat 0.25; SInt 9])
    as (_ & Hzip & _ & Hdef).
  - simpl. apply NoDup_cons. split; [|apply NoDup_singleton].
    intros H. apply list_elem_of_singleton in H. discriminate.
  - apply elem_of_product. simpl.
    repeat constructor.
  - split; [exact Hzip|].
    rewrite (Hdef "max_patterns"); [reflexivity| |].
    + unfold parameter_names. repeat constructor.
    + simpl. intros H. apply elem_of_cons in H as [H|H]; [discriminate|].
      apply list_elem_of_singleton in H. discriminate.
Defined.

(** ** [grid_search] on degenerate requests *)

Lemma product_nil {A} (axes : list (list A)) :
  [] ∈ axes -> product axes = [].
Proof.
  induction axes as [|xs rest IH]; intros Hin; [inversion Hin|].
  apply elem_of_cons in Hin as [<-|Hin]; [reflexivity|].
  rewrite product_cons, (IH Hin). clear.
  induction xs as [|x xs IHxs]; [reflexivity|exact IHxs].
Qed.

(** X6.  A negative [max_experiments] is smaller than the number of
    combinations, so [grid_search] seeds the generator and asks
    [random.sample] for a negative number of elements: the [ValueError]
    leaves [grid_search] before any trial, with the global generator
    reseeded and nothing written. *)
Theorem negative_budget_aborts (E : env) (grid : dict (list scalar))
    (max_experiments : Z) (self : HyperOpt.optimizer) (w : world) :
  (max_experiments < 0)%Z ->
  HyperOpt.grid_search E grid max_experiments self w
  = Exc (ValueError "Sample larger than population or is negative")
        (World (heap w) (fs w) (console w ++ [PGridHeader grid max_experiments])
               (seed_state E 42) (ticks w) (calls w)).
Proof.
  intros Hneg. unfold HyperOpt.grid_search, HyperOpt.select_combinations.
  rewrite bind_unfold. unfold print at 1. rewrite bind_unfold.
  assert (Hlt : (max_experiments <? Z.of_nat (length (product (map snd grid))))%Z = true)
    by (apply Z.ltb_lt; lia).
  rewrite Hlt. rewrite bind_unfold. unfold random_seed, set_rng at 1.
  unfold random_sample.
  assert (Hk : (max_experiments <? 0)%Z = true) by (apply Z.ltb_lt; exact Hneg).
  rewrite Hk. reflexivity.
Qed.

Lemma negative_budget_aborts_witness :
  exists w',
    HyperOpt.grid_search silent_env ab_grid (-1) HyperOpt.init
      (HyperOpt.initial_world ∅ [7%Z])
    = Exc (ValueError "Sample larger than population or is negative") w'
    /\ rng w' = [42%Z] /\ fs w' = ∅.
Proof.
  eexists. split.
  - apply (negative_budget_aborts silent_env ab_grid (-1) HyperOpt.init
             (HyperOpt.initial_world ∅ [7%Z])). lia.
  - split; reflexivity.
Defined.

(** X7.  A grid with an empty axis has no combination, and a budget of
    zero draws none: [grid_search] then prints its two header lines and
    returns the optimizer as it was, without starting a process or writing
    a file, the ledger included. *)
Theorem empty_search_leaves_no_trace (E : env) (grid : dict (list scalar))
    (max_experiments : Z) (self : HyperOpt.optimizer) (w : world) :
  ([] ∈ map snd grid /\ (0 <= max_experiments)%Z)
  \/ (max_experiments = 0%Z /\ sampler_ok E) ->
  exists g,
    HyperOpt.grid_search E grid max_experiments self w
    = Ret self
          (World (heap w) (fs w)
                 (console w ++ [PGridHeader grid max_experiments; PRunning 0])
                 g (ticks w) (calls w)).
Proof.
  intros H. unfold HyperOpt.grid_search, HyperOpt.select_combinations.
  rewrite bind_unfold. unfold print at 1. rewrite bind_unfold.
  destruct H as [[Hempty Hmax]|[-> Hsam]].
  - rewrite (product_nil _ Hempty).
    assert (Hlt : (max_experiments <? Z.of_nat (length (@nil (list scalar))))%Z = false)
      by (apply Z.ltb_ge; simpl; lia).
    rewrite Hlt. unfold ret at 1. rewrite bind_unfold. unfold print at 1.
    cbn [imap for_each heap fs console rng ticks calls length]. unfold ret.
    rewrite <- app_assoc. eexists. reflexivity.
  - destruct (0 <? Z.of_nat (length (product (map snd grid))))%Z eqn:Hlt.
    + rewrite bind_unfold. unfold random_seed, set_rng at 1.
      unfold random_sample. cbn [heap fs console rng ticks calls].
      assert (Hk : ((0 <? 0) || (Z.of_nat (length (product (map snd grid))) <? 0))%Z = false).
      { apply orb_false_iff. split; apply Z.ltb_ge; lia. }
      rewrite Hk. rewrite bind_unfold. unfold get_world at 1.
      cbn [heap fs console rng ticks calls].
      destruct (Hsam (seed_state E 42) (length (product (map snd grid))) 0) as (Hlen & _);
        [lia|].
      change (Z.to_nat 0) with 0.
      destruct (sample_positions E (seed_state E 42) (length (product (map snd grid))) 0)
        as [positions g'].
      simpl in Hlen. apply nil_length_inv in Hlen. subst positions.
      rewrite bind_unfold. unfold set_rng at 1. unfold ret at 1.
      cbn [omap heap fs console rng ticks calls].
      rewrite bind_unfold. unfold print at 1.
      cbn [imap for_each heap fs console rng ticks calls length]. unfold ret.
      rewrite <- app_assoc. eexists. reflexivity.
    + apply Z.ltb_ge in Hlt.
      assert (Hnil : product (map snd grid) = []).
      { destruct (product (map snd grid)); [reflexivity|simpl in Hlt; lia]. }
      rewrite Hnil. unfold ret at 1. rewrite bind_unfold. unfold print at 1.
      cbn [imap for_each heap fs console rng ticks calls length]. unfold ret.
      rewrite <- app_assoc. eexists. reflexivity.
Qed.

Lemma empty_search_leaves_no_trace_witness :
  exists g w',
    HyperOpt.grid_search silent_env [("a", [SInt 1; SInt 2]); ("b", [])] 10 HyperOpt.init
      (HyperOpt.initial_world ∅ [])
    = Ret HyperOpt.init w'
    /\ w' = World HyperOpt.initial_heap ∅
              [PGridHeader [("a", [SInt 1; SInt 2]); ("b", [])] 10; PRunning 0] g 0 [].
Proof.
  destruct (empty_search_leaves_no_trace silent_env
              [("a", [SInt 1; SInt 2]); ("b", [])] 10 HyperOpt.init
              (HyperOpt.initial_world ∅ [])) as [g Hrun].
  - left. split; [|lia]. simpl. right. left.
  - exists g. eexists. split; [exact Hrun|reflexivity].
Defined.

(** ** The phases of [main] *)

Lemma track_keeps_best (rs : list HyperOpt.trial) :
  forall b, is_Some (snd b) -> is_Some (snd (track b rs)).
Proof.
  induction rs as [|r rs IH]; intros b Hb; [exact Hb|].
  rewrite track_cons. apply IH.
  destruct (float_gt (HyperOpt.accuracy r) (fst b)); [eexists; reflexivity|exact Hb].
Qed.

Lemma best_is_filled (rs : list HyperOpt.trial) (F : list scalar -> dict scalar)
    (combos : list (list scalar)) (r : HyperOpt.trial) :
  map HyperOpt.params rs = map (fun c => HyperOpt.fill_defaults (F c)) combos ->
  r ∈ rs ->
  exists p, HyperOpt.params r = HyperOpt.fill_defaults p.
Proof.
  intros Hmap Hr.
  assert (Hin : HyperOpt.params r ∈ map HyperOpt.params rs).
  { apply list_elem_of_fmap. exists r. split; [reflexivity|exact Hr]. }
  rewrite Hmap in Hin. apply list_elem_of_fmap in Hin as (c & -> & _).
  eexists. reflexivity.
Qed.

Lemma search_phases_spec (E : env) (w : world) :
  writable E ->
  base_intact (heap w) ->
  exists rs w',
    HyperOpt.search_phases E w = Ret (fold_left record_trial rs HyperOpt.init) w'
    /\ ledger_ok (fold_left record_trial rs HyperOpt.init)
    /\ base_intact (heap w')
    /\ Forall (fun r => (0 <= HyperOpt.accuracy r)%Q
                        /\ exists p, HyperOpt.params r = HyperOpt.fill_defaults p) rs
    /\ ((HyperOpt.best_config (fold_left record_trial rs HyperOpt.init) = None
         /\ length rs = 16)
        \/ (is_Some (HyperOpt.best_config (fold_left record_trial rs HyperOpt.init))
            /\ length rs = 28
            /\ is_Some (snd (track (0%Q, None) (take 16 rs))))).
Proof.
  intros Hw Hbase. unfold HyperOpt.search_phases.
  rewrite bind_unfold. unfold print at 1.
  set (w0 := World _ _ _ _ _ _).
  destruct (grid_search_spec E HyperOpt.phase1_grid 16 HyperOpt.init w0
              (product (map snd HyperOpt.phase1_grid))
              (printed w0 [PGridHeader HyperOpt.phase1_grid 16]) Hw Hbase)
    as (rs1 & w1 & Hrun1 & Hpar1 & Hid1 & Hacc1 & Hbase1 & _ & _).
  { apply select_all. vm_compute. discriminate. }
  { reflexivity. }
  { cbn [printed console]. rewrite visited_app, app_nil_r. reflexivity. }
  rewrite bind_unfold, Hrun1.
  set (self1 := fold_left record_trial rs1 HyperOpt.init) in *.
  assert (Hlen1 : length rs1 = 16).
  { apply (f_equal length) in Hpar1. rewrite !length_map in Hpar1. exact Hpar1. }
  assert (Hok1 : ledger_ok self1).
  { apply ledger_ok_extend; [exact init_ledger_ok|]. rewrite Hid1, Hlen1. reflexivity. }
  assert (Hfill1 : Forall (fun r => (0 <= HyperOpt.accuracy r)%Q
                        /\ exists p, HyperOpt.params r = HyperOpt.fill_defaults p) rs1).
  { apply Forall_forall. intros r Hr. split.
    - rewrite Forall_forall in Hacc1. apply Hacc1. exact Hr.
    - eapply best_is_filled; eauto. }
  assert (Hres1 : HyperOpt.results self1 = rs1).
  { unfold self1. rewrite record_trial_results. reflexivity. }
  assert (Hbest1 : (HyperOpt.best_accuracy self1, HyperOpt.best_config self1)
                   = track (0%Q, None) rs1).
  { unfold self1. rewrite record_trial_best. reflexivity. }
  rewrite bind_unfold. unfold print at 1.
  destruct (HyperOpt.best_config self1) as [c|] eqn:Hc.
  - assert (Htruthy : HyperOpt.truthy (Some c) = true).
    { destruct (ledger_best self1 Hok1) as [(Hnone & _)|(i & r & Hr & Hsome & _)];
        [congruence|].
      rewrite Hc in Hsome. injection Hsome as ->.
      rewrite Hres1 in Hr. apply list_elem_of_lookup_2 in Hr.
      rewrite Forall_forall in Hfill1. destruct (Hfill1 r Hr) as (_ & p & ->).
      reflexivity. }
    rewrite Htruthy. rewrite bind_unfold. unfold print at 1.
    set (w2 := World _ _ _ _ _ _).
    destruct (grid_search_spec E HyperOpt.phase2_grid 12 self1 w2
                (product (map snd HyperOpt.phase2_grid))
                (printed w2 [PGridHeader HyperOpt.phase2_grid 12]) Hw Hbase1)
      as (rs2 & w3 & Hrun2 & Hpar2 & Hid2 & Hacc2 & Hbase2 & _ & _).
    { apply select_all. vm_compute. discriminate. }
    { reflexivity. }
    { cbn [printed console]. rewrite visited_app, app_nil_r. reflexivity. }
    rewrite Hrun2.
    assert (Hlen2 : length rs2 = 12).
    { apply (f_equal length) in Hpar2. rewrite !length_map in Hpar2. exact Hpar2. }
    exists (rs1 ++ rs2), w3. rewrite fold_left_app. fold self1.
    split; [reflexivity|].
    assert (Hfill2 : Forall (fun r => (0 <= HyperOpt.accuracy r)%Q
                        /\ exists p, HyperOpt.params r = HyperOpt.fill_defaults p) rs2).
    { apply Forall_forall. intros r Hr. split.
      - rewrite Forall_forall in Hacc2. apply Hacc2. exact Hr.
      - eapply best_is_filled; eauto. }
    splits.
    + apply ledger_ok_extend; [exact Hok1|]. rewrite Hid2, Hlen2. reflexivity.
    + exact Hbase2.
    + apply Forall_app. split; assumption.
    + right. splits.
      * pose proof (record_trial_best self1 rs2) as Hb.
        pose proof (track_keeps_best rs2
                      (HyperOpt.best_accuracy self1, HyperOpt.best_config self1)) as Hk.
        rewrite <- Hb in Hk. simpl in Hk. apply Hk. rewrite Hc. eexists. reflexivity.
      * rewrite length_app. lia.
      * rewrite take_app_length' by (symmetry; exact Hlen1). rewrite <- Hbest1. simpl.
        eexists. reflexivity.
  - simpl HyperOpt.truthy. cbn iota. unfold ret.
    exists rs1. eexists. fold self1. split; [reflexivity|].
    splits; try assumption.
    left. split; [exact Hc|exact Hlen1].
Qed.

(** X8.  [main] runs phase 2 exactly when phase 1 found a best
    configuration.  With a writable results directory it always reaches the
    end of the search: with 16 trials, all at accuracy 0.0 and no best
    configuration, or with 28 trials and a best configuration, the first 16
    of which already had one. *)
Theorem phase2_runs_iff_phase1_found_best (E : env) (w : world) :
  writable E ->
  base_intact (heap w) ->
  exists self w',
    HyperOpt.search_phases E w = Ret self w'
    /\ ledger_ok self
    /\ ((HyperOpt.best_config self = None
         /\ length (HyperOpt.results self) = 16
         /\ Forall (fun r => (HyperOpt.accuracy r == 0)%Q) (HyperOpt.results self))
        \/ (is_Some (HyperOpt.best_config self)
            /\ length (HyperOpt.results self) = 28
            /\ Exists (fun r => (0 < HyperOpt.accuracy r)%Q)
                      (take 16 (HyperOpt.results self)))).
Proof.
  intros Hw Hbase.
  destruct (search_phases_spec E w Hw Hbase)
    as (rs & w' & Hrun & Hok & _ & Hfill & Hcases).
  exists (fold_left record_trial rs HyperOpt.init), w'.
  split; [exact Hrun|]. split; [exact Hok|].
  assert (Hres : HyperOpt.results (fold_left record_trial rs HyperOpt.init) = rs).
  { rewrite record_trial_results. reflexivity. }
  rewrite Hres.
  destruct Hcases as [(Hnone & Hlen)|(Hsome & Hlen & Hfirst)].
  - left. splits; [exact Hnone|exact Hlen|].
    destruct (ledger_best _ Hok) as [(_ & _ & Hall)|(i & r & _ & Hc & _)];
      [|congruence].
    rewrite Hres in Hall. rewrite Forall_forall in Hall, Hfill |- *.
    intros r Hr. apply Qle_antisym; [apply Hall; exact Hr|apply Hfill; exact Hr].
  - right. splits; [exact Hsome|exact Hlen|].
    destruct (track_spec (take 16 rs) (0%Q, None))
      as [(Heq & _)|(i & r & Hr & _ & Hpos & _)].
    + rewrite Heq in Hfirst. destruct Hfirst as [? ?]. discriminate.
    + apply Exists_exists. exists r. split; [|exact Hpos].
      eapply list_elem_of_lookup_2. exact Hr.
Qed.

Lemma phase2_runs_iff_phase1_found_best_witness :
  exists self w',
    HyperOpt.search_phases timeout_env (HyperOpt.initial_world ∅ []) = Ret self w'
    /\ ledger_ok self.
Proof.
  destruct (phase2_runs_iff_phase1_found_best timeout_env (HyperOpt.initial_world ∅ []))
    as (self & w' & Hrun & Hok & _).
  - exact timeout_env_writable.
  - apply initial_world_intact.
  - exists self, w'. split; [exact Hrun|exact Hok].
Defined.

(** ** The final validation *)

Lemma create_config_block (params : dict scalar) (et kn st tw mp : scalar) (w : world) :
  base_intact (heap w) ->
  Dict.get params "edge_threshold" = Some et ->
  Dict.get params "k_neighbors" = Some kn ->
  Dict.get params "similarity_threshold" = Some st ->
  Dict.get params "temporal_window_ms" = Some tw ->
  Dict.get params "max_patterns" = Some mp ->
  HyperOpt.create_config params w
  = Ret (VRef (length (heap w) + 11))
        (with_block (heap w) (fs w) (console w) (rng w) (ticks w) (calls w)
                    (configured_block et kn st tw mp)).
Proof.
  intros Hbase Het Hkn Hst Htw Hmp.
  destruct w as [h files out g t cs]. simpl in *.
  unfold HyperOpt.create_config.
  unfold bind at 1, deep_copy at 1, bind at 1, get_world at 1. cbn [heap].
  unfold base_intact in Hbase. rewrite Hbase, loads_base.
  unfold bind at 1, set_heap at 1. cbn [heap fs console rng ticks calls].
  change (World (h ++ map (relocate_obj (length h)) HyperOpt.initial_heap) files out g t cs)
    with (with_block h files out g t cs HyperOpt.initial_heap).
  unfold ret at 1.
  do 11 (unfold bind at 1;
         erewrite set_from_rel; [|eassumption|lazy -[to_val]; reflexivity]).
  reflexivity.
Qed.

Lemma attempt_frame (E : env) (self : HyperOpt.optimizer) (run_id : nat) (w : world) :
  exists acc pd w',
    HyperOpt.attempt E self run_id w = Ret (acc, pd) w'
    /\ heap w' = heap w
    /\ (forall path, path <> HyperOpt.output_path self run_id ->
                     fs w' !! path = fs w !! path).
Proof.
  destruct w as [h files out g t cs].
  unfold HyperOpt.attempt, HyperOpt.run_and_parse, subprocess_run.
  munfold. cbn [heap fs console rng ticks calls].
  assert (Hins : forall content path,
             path <> HyperOpt.output_path self run_id ->
             <[HyperOpt.output_path self run_id := content]> files !! path = files !! path).
  { intros content path Hne. apply lookup_insert_ne. congruence. }
  destruct (spawn E t (HyperOpt.command self run_id) files) as [rc o err|e].
  - cbn [fst snd].
    set (w1 := World h files out g (S t) cs).
    destruct (parse_accuracy_cases o w1) as
      [(group & a & _ & _ & Ha & ->)|[(_ & ->)|(group & m & _ & _ & ->)]].
    + destruct (parse_per_digit_cases o w1) as [(pd & ->)|(m & ->)].
      * destruct (can_write E (ticks w1) (HyperOpt.output_path self run_id)) eqn:Hc.
        -- rewrite (write_file_ok _ _ _ _ Hc). cbn. eexists _, _, _.
           split; [reflexivity|]. cbn. split; [reflexivity|apply Hins].
        -- rewrite (write_file_denied _ _ _ _ Hc). cbn. eexists _, _, _.
           split; [reflexivity|]. cbn. split; reflexivity.
      * cbn. eexists _, _, _. split; [reflexivity|]. cbn. split; reflexivity.
    + destruct (parse_per_digit_cases o (printed w1 [PWarnParse])) as [(pd & ->)|(m & ->)].
      * destruct (can_write E (ticks (printed w1 [PWarnParse]))
                    (HyperOpt.output_path self run_id)) eqn:Hc.
        -- rewrite (write_file_ok _ _ _ _ Hc). cbn. eexists _, _, _.
           split; [reflexivity|]. cbn. split; [reflexivity|apply Hins].
        -- rewrite (write_file_denied _ _ _ _ Hc). cbn. eexists _, _, _.
           split; [reflexivity|]. cbn. split; reflexivity.
      * cbn. eexists _, _, _. split; [reflexivity|]. cbn. split; reflexivity.
    + cbn. eexists _, _, _. split; [reflexivity|]. cbn. split; reflexivity.
  - destruct (is_timeout e); cbn; eexists _, _, _;
      (split; [reflexivity|]); cbn; split; reflexivity.
Qed.

(** Serialization followed along the structure of the heap, one object at
    a time. *)
Lemma dumps_ref_dict (f : nat) (h : list pyobj) (l : nat) (d : list (string * pyval)) :
  h !! l = Some (ODict d) ->
  Heap.dumps_fuel (S f) h (VRef l)
  = JObj <$> mapM (fun kv : string * pyval => pair (fst kv) <$> Heap.dumps_fuel f h (snd kv)) d.
Proof. intros H. simpl. rewrite H. reflexivity. Qed.

Lemma dumps_ref_list (f : nat) (h : list pyobj) (l : nat) (xs : list pyval) :
  h !! l = Some (OList xs) ->
  Heap.dumps_fuel (S f) h (VRef l) = JArr <$> mapM (Heap.dumps_fuel f h) xs.
Proof. intros H. simpl. rewrite H. reflexivity. Qed.

Lemma mapM_cons_Some {A B} (f : A -> option B) (x : A) (l : list A) (y : B) (k : list B) :
  f x = Some y -> mapM f l = Some k -> mapM f (x :: l) = Some (y :: k).
Proof. intros Hx Hl. simpl. rewrite Hx. simpl. rewrite Hl. reflexivity. Qed.

Lemma fmap_Some_eq {A B} (f : A -> B) (o : option A) (x : A) :
  o = Some x -> f <$> o = Some (f x).
Proof. intros ->. reflexivity. Qed.

Ltac dump_json :=
  cbn beta; cbn [fst snd];
  lazymatch goal with
  | |- Heap.dumps_fuel (S _) _ (to_val _) = _ => apply dumps_fuel_scalar
  | |- Heap.dumps_fuel (S _) _ (VRef _) = _ =>
      first [ erewrite dumps_ref_dict by reflexivity
            | erewrite dumps_ref_list by reflexivity ];
      apply fmap_Some_eq; dump_json
  | |- Heap.dumps_fuel (S _) _ _ = _ => reflexivity
  | |- mapM _ [] = _ => reflexivity
  | |- mapM _ (_ :: _) = _ => eapply mapM_cons_Some; [dump_json|dump_json]
  | |- _ <$> _ = _ => apply fmap_Some_eq; dump_json
  end.

Lemma full_scale_block_doc (et kn st tw mp : scalar) :
  Heap.dumps_fuel 13 (full_scale_block et kn st tw mp) (VRef 11)
  = Some (full_scale_doc et kn st tw mp).
Proof.
  assert (H : exists objs j,
             full_scale_block et kn st tw mp = objs
             /\ Heap.dumps_fuel 13 objs (VRef 11) = Some j
             /\ j = full_scale_doc et kn st tw mp).
  { eexists _, _. split; [lazy -[to_val]; reflexivity|].
    split; [dump_json|reflexivity]. }
  destruct H as (objs & j & <- & H & <-). exact H.
Qed.

Lemma full_scale_stores (et kn st tw mp : scalar) :
  exists objs,
    store_rel (configured_block et kn st tw mp) 11 ["training"] "examples_per_digit"
              (VInt 5000) = Some objs
    /\ store_rel objs 11 ["training"] "test_images" (VInt 10000)
       = Some (full_scale_block et kn st tw mp).
Proof. eexists. split; lazy -[to_val]; reflexivity. Qed.

Lemma final_validation_spec (E : env) (self : HyperOpt.optimizer) (best : dict scalar)
    (et kn st tw mp : scalar) (w : world) :
  writable E ->
  base_intact (heap w) ->
  Dict.get best "edge_threshold" = Some et ->
  Dict.get best "k_neighbors" = Some kn ->
  Dict.get best "similarity_threshold" = Some st ->
  Dict.get best "temporal_window_ms" = Some tw ->
  Dict.get best "max_patterns" = Some mp ->
  exists w',
    HyperOpt.final_validation E self best w = Ret tt w'
    /\ fs w' !! HyperOpt.config_path self 9999
       = Some (FJson (full_scale_doc et kn st tw mp))
    /\ fs w' !! (HyperOpt.results_dir self +:+ "/best_config_full.json")
       = Some (FJson (full_scale_doc et kn st tw mp))
    /\ base_intact (heap w').
Proof.
  intros Hw Hbase Het Hkn Hst Htw Hmp.
  unfold HyperOpt.final_validation.
  rewrite bind_unfold. unfold print at 1.
  set (w0 := World _ _ _ _ _ _).
  rewrite bind_unfold.
  rewrite (create_config_block best et kn st tw mp w0 Hbase Het Hkn Hst Htw Hmp).
  subst w0. cbn [heap fs console rng ticks calls].
  destruct (full_scale_stores et kn st tw mp) as (objs & Hs1 & Hs2).
  rewrite bind_unfold.
  rewrite (assign_rel _ _ _ _ _ _ _ objs 11 ["training"] "examples_per_digit"
             (ret (VInt 5000)) (VInt 5000) eq_refl eq_refl Hs1).
  rewrite bind_unfold.
  rewrite (assign_rel _ _ _ _ _ _ _ _ 11 ["training"] "test_images"
             (ret (VInt 10000)) (VInt 10000) eq_refl eq_refl Hs2).
  clear objs Hs1 Hs2.
  assert (Hdoc : Heap.dumps
                   (heap w ++ map (relocate_obj (length (heap w)))
                                  (full_scale_block et kn st tw mp))
                   (VRef (length (heap w) + 11))
                 = Some (full_scale_doc et kn st tw mp)).
  { apply (dumps_block (heap w) _ 13 (VRef 11)); [apply full_scale_block_doc|].
    apply le_n_S. apply Nat.eq_le_incl. reflexivity. }
  assert (Hbase1 : base_intact (heap w ++ map (relocate_obj (length (heap w)))
                                              (full_scale_block et kn st tw mp))).
  { apply dumps_app. exact Hbase. }
  generalize dependent (full_scale_block et kn st tw mp). intros block Hdoc Hbase1.
  rewrite bind_unfold. unfold HyperOpt.run_experiment.
  unfold with_block.
  set (w1 := World _ _ _ _ _ _).
  rewrite bind_unfold, (json_dump_to_ok E _ _ _ w1 (Hw _ _) Hdoc).
  set (w2 := World _ _ _ _ _ _).
  destruct (attempt_frame E self 9999 w2) as (acc & pd & w3 & -> & Hheap & Hfs).
  rewrite bind_unfold. unfold print at 1.
  set (w4 := World _ _ _ _ _ _).
  assert (Hdoc4 : Heap.dumps (heap w4) (VRef (length (heap w) + 11))
                  = Some (full_scale_doc et kn st tw mp)).
  { subst w4. cbn [heap]. rewrite Hheap. exact Hdoc. }
  rewrite bind_unfold, (json_dump_to_ok E _ _ _ w4 (Hw _ _) Hdoc4).
  unfold print. eexists. split; [reflexivity|].
  cbn [heap fs console rng ticks calls]. splits.
  - rewrite lookup_insert_ne.
    + subst w4. cbn [fs]. rewrite Hfs.
      * subst w2 w1. cbn [fs]. apply lookup_insert_eq.
      * unfold HyperOpt.config_path, HyperOpt.output_path.
        intros H. apply append_inj in H. discriminate.
    + unfold HyperOpt.config_path. intros H. apply append_inj in H. discriminate.
  - apply lookup_insert_eq.
  - subst w4. cbn [heap]. rewrite Hheap. exact Hbase1.
Qed.

(** X9.  The final validation evaluates the best configuration on the
    whole data set: the configuration it hands to the child, saved as
    [config_9999.json], is the one of [create_config] with 5000 training
    examples per digit and 10000 test images, and [best_config_full.json]
    holds the same document, whatever the child then does. *)
Theorem final_validation_full_scale (E : env) (self : HyperOpt.optimizer)
    (best : dict scalar) (et kn st tw mp : scalar) (w : world) :
  writable E ->
  base_intact (heap w) ->
  Dict.get best "edge_threshold" = Some et ->
  Dict.get best "k_neighbors" = Some kn ->
  Dict.get best "similarity_threshold" = Some st ->
  Dict.get best "temporal_window_ms" = Some tw ->
  Dict.get best "max_patterns" = Some mp ->
  exists w' doc,
    HyperOpt.final_validation E self best w = Ret tt w'
    /\ fs w' !! HyperOpt.config_path self 9999 = Some (FJson doc)
    /\ fs w' !! (HyperOpt.results_dir self +:+ "/best_config_full.json")
       = Some (FJson doc)
    /\ doc = full_scale_doc et kn st tw mp
    /\ Json.get ["training"; "examples_per_digit"] doc = Some (JInt 5000)
    /\ Json.get ["training"; "test_images"] doc = Some (JInt 10000)
    /\ Json.get ["training"; "num_digits"] doc = Some (JInt 10)
    /\ Forall (fun m => exists x, Dict.get best (snd m) = Some x
                                  /\ Json.get (fst m) doc = Some (scalar_json x))
              mirrors.
Proof.
  intros Hw Hbase Het Hkn Hst Htw Hmp.
  destruct (final_validation_spec E self best et kn st tw mp w Hw Hbase Het Hkn Hst Htw Hmp)
    as (w' & Hrun & Hcfg & Hbest & _).
  exists w', (full_scale_doc et kn st tw mp).
  splits; try assumption; try reflexivity.
  unfold mirrors.
  repeat (apply Forall_cons; split;
          [eexists; split; [eassumption|reflexivity]|]).
  apply Forall_nil_2.
Qed.

Lemma final_validation_full_scale_witness :
  exists w',
    HyperOpt.final_validation crashing_env HyperOpt.init sample_assignment
      (HyperOpt.initial_world ∅ []) = Ret tt w'
    /\ fs w' !! "results/hyperparam/best_config_full.json"
       = fs w' !! "results/hyperparam/config_9999.json"
    /\ is_Some (fs w' !! "results/hyperparam/best_config_full.json").
Proof.
  destruct (final_validation_full_scale crashing_env HyperOpt.init sample_assignment
              (SFloat 0.20) (SInt 7) (SFloat 0.8) (SFloat 250.0) (SInt 150)
              (HyperOpt.initial_world ∅ []))
    as (w' & doc & Hrun & Hcfg & Hbest & _);
    [exact crashing_env_writable|apply initial_world_intact
    |reflexivity|reflexivity|reflexivity|reflexivity|reflexivity|].
  exists w'. split; [exact Hrun|]. split.
  - change "results/hyperparam/config_9999.json"
      with (HyperOpt.config_path HyperOpt.init 9999).
    change "results/hyperparam/best_config_full.json"
      with (HyperOpt.results_dir HyperOpt.init +:+ "/best_config_full.json").
    rewrite Hcfg, Hbest. reflexivity.
  - change "results/hyperparam/best_config_full.json"
      with (HyperOpt.results_dir HyperOpt.init +:+ "/best_config_full.json").
    rewrite Hbest. eexists. reflexivity.
Defined.

(** X10.  [main] as a whole, with a writable results directory: it always
    returns.  When the search ends without a best configuration the final
    validation is skipped and only the closing banner follows; otherwise the
    best configuration assigns the five parameters and
    [best_config_full.json] holds it at full scale. *)
Theorem main_validates_best (E : env) (w : world) :
  writable E ->
  base_intact (heap w) ->
  exists self w1 w',
    HyperOpt.search_phases E w = Ret self w1
    /\ HyperOpt.main E w = Ret self w'
    /\ match HyperOpt.best_config self with
       | None => w' = printed w1 [PText "OPTIMIZATION COMPLETE"]
       | Some c =>
           exists et kn st tw mp,
             c = [("edge_threshold", et); ("k_neighbors", kn);
                  ("similarity_threshold", st); ("temporal_window_ms", tw);
                  ("max_patterns", mp)]
             /\ fs w' !! "results/hyperparam/best_config_full.json"
                = Some (FJson (full_scale_doc et kn st tw mp))
             /\ fs w' !! "results/hyperparam/config_9999.json"
                = Some (FJson (full_scale_doc et kn st tw mp))
       end.
Proof.
  intros Hw Hbase.
  destruct (search_phases_spec E w Hw Hbase)
    as (rs & w1 & Hrun & Hok & Hbase1 & Hfill & _).
  set (self := fold_left record_trial rs HyperOpt.init) in *.
  assert (Hdir : HyperOpt.results_dir self = "results/hyperparam").
  { unfold self. rewrite (proj2 (record_trial_dirs HyperOpt.init rs)). reflexivity. }
  assert (Hres : HyperOpt.results self = rs).
  { unfold self. rewrite record_trial_results. reflexivity. }
  exists self, w1. unfold HyperOpt.main. rewrite bind_unfold, Hrun.
  destruct (HyperOpt.best_config self) as [c|] eqn:Hc.
  - destruct (ledger_best self Hok) as [(Hnone & _)|(i & r & Hr & Hsome & _)];
      [congruence|].
    rewrite Hc in Hsome. injection Hsome as ->.
    rewrite Hres in Hr. apply list_elem_of_lookup_2 in Hr.
    rewrite Forall_forall in Hfill. destruct (Hfill r Hr) as (_ & p & Hp).
    destruct (fill_defaults_full p) as (et & kn & st & tw & mp & Hfull).
    rewrite Hp, Hfull. cbn [HyperOpt.truthy].
    destruct (final_validation_spec E self
                [("edge_threshold", et); ("k_neighbors", kn);
                 ("similarity_threshold", st); ("temporal_window_ms", tw);
                 ("max_patterns", mp)]
                et kn st tw mp w1 Hw Hbase1
                eq_refl eq_refl eq_refl eq_refl eq_refl)
      as (w2 & Hfinal & Hcfg & Hbest & _).
    rewrite bind_unfold, Hfinal. unfold print, ret. rewrite bind_unfold.
    eexists. split; [reflexivity|]. split; [reflexivity|].
    exists et, kn, st, tw, mp. split; [reflexivity|].
    cbn [fs]. unfold HyperOpt.config_path in Hcfg. rewrite Hdir in Hcfg, Hbest.
    split; [exact Hbest|exact Hcfg].
  - cbn [HyperOpt.truthy]. unfold print, ret. rewrite !bind_unfold.
    eexists. split; [reflexivity|]. split; reflexivity.
Qed.

Lemma main_validates_best_witness :
  exists self w', HyperOpt.main crashing_env (HyperOpt.initial_world ∅ []) = Ret self w'.
Proof.
  destruct (main_validates_best crashing_env (HyperOpt.initial_world ∅ []))
    as (self & w1 & w' & _ & Hrun & _).
  - exact crashing_env_writable.
  - apply initial_world_intact.
  - exists self, w'. exact Hrun.
Defined.

(** ** The summary *)

Lemma insert_desc_perm (r : HyperOpt.trial) (l : list HyperOpt.trial) :
  HyperOpt.insert_desc r l ≡ₚ r :: l.
Proof.
  induction l as [|r' l IH]; [reflexivity|].
  simpl. destruct (float_gt (HyperOpt.accuracy r') (HyperOpt.accuracy r)).
  - rewrite IH. apply Permutation_swap.
  - reflexivity.
Qed.

Lemma sorted_desc_perm (rs : list HyperOpt.trial) : HyperOpt.sorted_desc rs ≡ₚ rs.
Proof.
  induction rs as [|r rs IH]; [reflexivity|].
  unfold HyperOpt.sorted_desc in *. simpl.
  rewrite insert_desc_perm, IH. reflexivity.
Qed.

Lemma insert_desc_sorted (r : HyperOpt.trial) (l : list HyperOpt.trial) :
  descending l -> descending (HyperOpt.insert_desc r l).
Proof.
  unfold descending. induction 1 as [|r' l Hl IH Hall]; simpl.
  - repeat constructor.
  - destruct (float_gt (HyperOpt.accuracy r') (HyperOpt.accuracy r)) eqn:Hgt.
    + constructor; [exact IH|].
      rewrite insert_desc_perm. constructor; [|exact Hall].
      apply float_gt_spec in Hgt. apply Qlt_le_weak. exact Hgt.
    + apply float_gt_false in Hgt.
      constructor; [constructor; assumption|].
      constructor; [exact Hgt|].
      eapply Forall_impl; [exact Hall|].
      intros x Hx. simpl in Hx. eapply Qle_trans; eassumption.
Qed.

Lemma sorted_desc_sorted (rs : list HyperOpt.trial) : descending (HyperOpt.sorted_desc rs).
Proof.
  induction rs as [|r rs IH]; [constructor|].
  unfold HyperOpt.sorted_desc in *. simpl. apply insert_desc_sorted. exact IH.
Qed.

Lemma insert_desc_stable (a : Q) (r : HyperOpt.trial) (l : list HyperOpt.trial) :
  with_accuracy a (HyperOpt.insert_desc r l) = with_accuracy a (r :: l).
Proof.
  unfold with_accuracy.
  induction l as [|r' l IH]; [reflexivity|].
  cbn [HyperOpt.insert_desc].
  destruct (float_gt (HyperOpt.accuracy r') (HyperOpt.accuracy r)) eqn:Hgt; [|reflexivity].
  cbn [List.filter] in *. rewrite IH.
  destruct (Qeq_bool (HyperOpt.accuracy r) a) eqn:Hr; [|reflexivity].
  destruct (Qeq_bool (HyperOpt.accuracy r') a) eqn:Hr'; [|reflexivity].
  apply Qeq_bool_iff in Hr, Hr'. apply float_gt_spec in Hgt.
  rewrite Hr, Hr' in Hgt. exfalso. exact (Qlt_irrefl _ Hgt).
Qed.

Lemma sorted_desc_stable (a : Q) (rs : list HyperOpt.trial) :
  with_accuracy a (HyperOpt.sorted_desc rs) = with_accuracy a rs.
Proof.
  induction rs as [|r rs IH]; [reflexivity|].
  unfold HyperOpt.sorted_desc in *. cbn [foldr].
  rewrite insert_desc_stable. unfold with_accuracy in *. cbn [List.filter].
  rewrite IH. reflexivity.
Qed.

Lemma top_lines_summary (self : HyperOpt.optimizer) :
  top_lines (HyperOpt.summary self)
  = imap (fun i r => (i + 1, HyperOpt.accuracy r, HyperOpt.params r))
         (take 10 (HyperOpt.sorted_desc (HyperOpt.results self))).
Proof.
  unfold HyperOpt.summary, top_lines.
  rewrite !omap_app. cbn [omap app].
  assert (H1 : forall c : dict scalar,
             omap (fun l => match l with
                            | STop rank a p => Some (rank, a, p)
                            | _ => None
                            end)
                  (map (fun kv => SBestParam (fst kv) (snd kv)) c) = []).
  { induction c as [|kv c IH]; [reflexivity|exact IH]. }
  rewrite H1. cbn [app].
  assert (H2 : forall (l : list HyperOpt.trial) (f : nat -> nat),
             omap (fun l => match l with
                            | STop rank a p => Some (rank, a, p)
                            | _ => None
                            end)
                  (imap (fun i r => STop (f i) (HyperOpt.accuracy r) (HyperOpt.params r)) l)
             = imap (fun i r => (f i, HyperOpt.accuracy r, HyperOpt.params r)) l).
  { clear. induction l as [|r l IH]; intros f; [reflexivity|].
    simpl. f_equal. exact (IH (f ∘ S)). }
  apply (H2 _ (fun i => i + 1)).
Qed.

(** X11.  The "Top 10" of [summary.txt]: it ranks the trials of the ledger
    in non-increasing order of accuracy, trials of equal accuracy in the
    order they ran; it has ten lines, or as many as there are trials, with
    ranks counted from one, and no trial left out beats a trial listed. *)
Theorem summary_ranking (self : HyperOpt.optimizer) :
  let ranking := HyperOpt.sorted_desc (HyperOpt.results self) in
  top_lines (HyperOpt.summary self)
  = imap (fun i r => (i + 1, HyperOpt.accuracy r, HyperOpt.params r)) (take 10 ranking)
  /\ length (top_lines (HyperOpt.summary self)) = min 10 (length (HyperOpt.results self))
  /\ ranking ≡ₚ HyperOpt.results self
  /\ descending ranking
  /\ (forall a, with_accuracy a ranking = with_accuracy a (HyperOpt.results self))
  /\ (forall r r', r ∈ take 10 ranking -> r' ∈ drop 10 ranking ->
                   (HyperOpt.accuracy r' <= HyperOpt.accuracy r)%Q).
Proof.
  intros ranking. splits.
  - apply top_lines_summary.
  - rewrite top_lines_summary, length_imap, length_take.
    rewrite (Permutation_length (sorted_desc_perm _)). reflexivity.
  - apply sorted_desc_perm.
  - apply sorted_desc_sorted.
  - intros a. apply sorted_desc_stable.
  - intros r r' Hr Hr'.
    pose proof (sorted_desc_sorted (HyperOpt.results self)) as Hs.
    fold ranking in Hs. rewrite <- (take_drop 10 ranking) in Hs.
    unfold descending in Hs.
    exact (StronglySorted_app_1_elem_of _ _ _ _ _ Hs Hr Hr').
Qed.

Lemma head_filter_first {A} (p : A -> bool) (l : list A) :
  forall i x,
    l !! i = Some x -> p x = true ->
    (forall j y, j < i -> l !! j = Some y -> p y = false) ->
    head (List.filter p l) = Some x.
Proof.
  induction l as [|z l IH]; intros i x Hi Hx Hbefore; [destruct i; discriminate|].
  destruct i as [|i]; simpl in Hi.
  - injection Hi as ->. simpl. rewrite Hx. reflexivity.
  - simpl. rewrite (Hbefore 0 z); [|lia|reflexivity].
    apply (IH i x Hi Hx). intros j y Hj Hy. apply (Hbefore (S j) y); [lia|exact Hy].
Qed.

(** X12.  The first line of the "Top 10" is the best trial: whenever the
    optimizer holds a best configuration, rank 1 of the summary shows that
    configuration with the best accuracy, although the ranking is computed
    afresh by sorting the ledger. *)
Theorem summary_rank_one_is_best (self : HyperOpt.optimizer) (c : dict scalar) :
  ledger_ok self ->
  HyperOpt.best_config self = Some c ->
  exists rest,
    top_lines (HyperOpt.summary self) = (1, HyperOpt.best_accuracy self, c) :: rest.
Proof.
  intros Hok Hc.
  destruct (ledger_best self Hok) as [(Hnone & _)|(i & r & Hr & Hsome & Hacc & _ & Hall & Hfirst)];
    [congruence|].
  rewrite Hc in Hsome. injection Hsome as ->. rewrite Hacc.
  rewrite top_lines_summary.
  set (ranking := HyperOpt.sorted_desc (HyperOpt.results self)).
  assert (Hhead : head ranking = Some r).
  { pose proof (sorted_desc_perm (HyperOpt.results self)) as Hperm. fold ranking in Hperm.
    pose proof (sorted_desc_sorted (HyperOpt.results self)) as Hsorted. fold ranking in Hsorted.
    pose proof (sorted_desc_stable (HyperOpt.accuracy r) (HyperOpt.results self)) as Hst.
    fold ranking in Hst.
    assert (Hfilter : head (with_accuracy (HyperOpt.accuracy r) (HyperOpt.results self))
                      = Some r).
    { apply (head_filter_first _ _ i r Hr).
      - apply Qeq_bool_iff. reflexivity.
      - intros j y Hj Hy. specialize (Hfirst j y Hj Hy).
        destruct (Qeq_bool (HyperOpt.accuracy y) (HyperOpt.accuracy r)) eqn:He; [|reflexivity].
        apply Qeq_bool_iff in He. rewrite He in Hfirst.
        exfalso. exact (Qlt_irrefl _ Hfirst). }
    rewrite <- Hst in Hfilter.
    destruct ranking as [|x ranking'] eqn:Hrank.
    - apply Permutation_nil_l in Hperm. rewrite <- Hperm in Hr. destruct i; discriminate.
    - unfold with_accuracy in Hfilter. cbn [List.filter] in Hfilter.
      assert (Hx : Qeq_bool (HyperOpt.accuracy x) (HyperOpt.accuracy r) = true).
      { apply Qeq_bool_iff. apply Qle_antisym.
        - rewrite Forall_forall in Hall. apply Hall. rewrite <- Hperm. left.
        - assert (Hin : r ∈ x :: ranking').
          { rewrite Hperm. eapply list_elem_of_lookup_2. exact Hr. }
          apply elem_of_cons in Hin as [->|Hin]; [apply Qle_refl|].
          unfold descending in Hsorted. apply StronglySorted_cons in Hsorted as [Hx _].
          rewrite Forall_forall in Hx. apply Hx. exact Hin. }
      rewrite Hx in Hfilter. simpl in Hfilter. simpl. exact Hfilter. }
  destruct ranking as [|x ranking']; [discriminate|].
  injection Hhead as ->. cbn [take imap]. eexists. reflexivity.
Qed.

Lemma summary_rank_one_is_best_witness :
  exists rest,
    top_lines (HyperOpt.summary
                 (record_trial (record_trial HyperOpt.init
                    (HyperOpt.Trial 0 [("k_neighbors", SInt 3)] 50.0 [] 1))
                    (HyperOpt.Trial 1 [("k_neighbors", SInt 5)] 96.0 [] 2)))
    = (1, 96.0%Q, [("k_neighbors", SInt 5)]) :: rest.
Proof.
  apply (summary_rank_one_is_best
           (record_trial (record_trial HyperOpt.init
              (HyperOpt.Trial 0 [("k_neighbors", SInt 3)] 50.0 [] 1))
              (HyperOpt.Trial 1 [("k_neighbors", SInt 5)] 96.0 [] 2))).
  - split; reflexivity.
  - reflexivity.
Defined.

(** ** The files of the trials *)

(** X13.  The run number can be read back from the four-digit field of a
    file name, so different trials never share a configuration or an output
    file; and no trial file is an output file of another trial, a ledger
    file or the file of the final validation. *)
Theorem trial_files_do_not_collide (self : HyperOpt.optimizer) (i j : nat) :
  Text.digits_value 0 (fmt04d i) = Some (Z.of_nat i)
  /\ (HyperOpt.config_path self i = HyperOpt.config_path self j -> i = j)
  /\ (HyperOpt.output_path self i = HyperOpt.output_path self j -> i = j)
  /\ HyperOpt.config_path self i <> HyperOpt.output_path self j
  /\ Forall (fun name =>
               HyperOpt.config_path self i <> HyperOpt.results_dir self +:+ name
               /\ HyperOpt.output_path self i <> HyperOpt.results_dir self +:+ name)
            ["/all_results.json"; "/summary.txt"; "/best_config_full.json"].
Proof.
  splits.
  - apply digits_fmt04d.
  - unfold HyperOpt.config_path. intros H.
    apply append_inj in H. apply (append_inj "/config_") in H.
    apply append_inj_r in H. apply fmt04d_inj. exact H.
  - unfold HyperOpt.output_path. intros H.
    apply append_inj in H. apply (append_inj "/output_") in H.
    apply append_inj_r in H. apply fmt04d_inj. exact H.
  - unfold HyperOpt.config_path, HyperOpt.output_path. intros H.
    apply append_inj in H. discriminate.
  - unfold HyperOpt.config_path, HyperOpt.output_path.
    repeat (apply Forall_cons; split;
            [split; intros H; apply append_inj in H; discriminate|]).
    apply Forall_nil_2.
Qed.

(** ** What the scripts write *)

Lemma confined_quiet {A} (P : string -> Prop) (m : M A) :
  (forall w, fs (final_world (m w)) = fs w) -> confined P m.
Proof. intros H w path _. rewrite H. reflexivity. Qed.

Lemma confined_ret {A} (P : string -> Prop) (a : A) : confined P (ret a).
Proof. apply confined_quiet. reflexivity. Qed.

Lemma confined_raise {A} (P : string -> Prop) (e : exn) : confined P (@raise A e).
Proof. apply confined_quiet. reflexivity. Qed.

Lemma confined_bind {A B} (P : string -> Prop) (m : M A) (k : A -> M B) :
  confined P m -> (forall a, confined P (k a)) -> confined P (bind m k).
Proof.
  intros Hm Hk w path Hp. rewrite bind_unfold.
  specialize (Hm w path Hp).
  destruct (m w) as [a w1|e w1]; cbn in *.
  - rewrite (Hk a w1 path Hp). exact Hm.
  - exact Hm.
Qed.

Lemma confined_try_except {A} (P : string -> Prop) (body : M A) (sel : exn -> bool)
    (handler : exn -> M A) :
  confined P body -> (forall e, confined P (handler e)) ->
  confined P (try_except body sel handler).
Proof.
  intros Hb Hh w path Hp. unfold try_except.
  specialize (Hb w path Hp).
  destruct (body w) as [a w1|e w1]; cbn in *.
  - exact Hb.
  - destruct (sel e); [|exact Hb].
    rewrite (Hh e w1 path Hp). exact Hb.
Qed.

Lemma confined_get_world (P : string -> Prop) : confined P get_world.
Proof. apply confined_quiet. reflexivity. Qed.

Lemma confined_tick (P : string -> Prop) : confined P tick.
Proof. apply confined_quiet. reflexivity. Qed.

Lemma confined_print (P : string -> Prop) (l : line) : confined P (print l).
Proof. apply confined_quiet. reflexivity. Qed.

Lemma confined_set_heap (P : string -> Prop) (h : list pyobj) : confined P (set_heap h).
Proof. apply confined_quiet. reflexivity. Qed.

Lemma confined_set_rng (P : string -> Prop) (g : list Z) : confined P (set_rng g).
Proof. apply confined_quiet. reflexivity. Qed.

Lemma confined_record_call (P : string -> Prop) (c : call) : confined P (record_call c).
Proof. apply confined_quiet. reflexivity. Qed.

Ltac confined_step :=
  first
    [ apply confined_ret
    | apply confined_raise
    | apply confined_get_world
    | apply confined_tick
    | apply confined_print
    | apply confined_set_heap
    | apply confined_set_rng
    | apply confined_record_call
    | apply confined_bind; [|intros ?] ].

Lemma confined_open_w (E : env) (P : string -> Prop) (path : string) :
  P path -> confined P (open_w E path).
Proof.
  intros HP w p Hp. unfold open_w. munfold.
  destruct (can_write E (ticks w) path); cbn; [|reflexivity].
  apply lookup_insert_ne. intros ->. exact (Hp HP).
Qed.

Lemma confined_write_file (E : env) (P : string -> Prop) (path : string) (content : file) :
  P path -> confined P (write_file E path content).
Proof.
  intros HP. unfold write_file. apply confined_bind; [apply confined_open_w; exact HP|].
  intros _ w p Hp. munfold. cbn. apply lookup_insert_ne. intros ->. exact (Hp HP).
Qed.

Lemma confined_json_dump_to (E : env) (P : string -> Prop) (path : string) (v : pyval) :
  P path -> confined P (json_dump_to E path v).
Proof.
  intros HP. unfold json_dump_to. apply confined_bind; [apply confined_open_w; exact HP|].
  intros _ w p Hp. munfold.
  destruct (Heap.dumps (heap w) v); cbn; [|reflexivity].
  apply lookup_insert_ne. intros ->. exact (Hp HP).
Qed.

Lemma confined_subprocess_run (E : env) (P : string -> Prop) (cmd : list string) :
  confined P (subprocess_run E cmd).
Proof.
  apply confined_quiet. intros w. unfold subprocess_run. munfold. cbn.
  destruct (spawn E (ticks w) cmd (fs w)); reflexivity.
Qed.

Lemma confined_time_time (E : env) (P : string -> Prop) : confined P (time_time E).
Proof. unfold time_time. repeat confined_step. Qed.

Lemma confined_random_seed (E : env) (P : string -> Prop) (a : Z) :
  confined P (random_seed E a).
Proof. unfold random_seed. confined_step. Qed.

Lemma confined_random_sample {A} (E : env) (P : string -> Prop) (population : list A) (k : Z) :
  confined P (random_sample E population k).
Proof.
  unfold random_sample.
  destruct ((k <? 0) || (Z.of_nat (length population) <? k))%Z; [confined_step|].
  confined_step; [confined_step|].
  destruct (sample_positions E (rng a) (length population) (Z.to_nat k)).
  repeat confined_step.
Qed.

Lemma confined_getitem {V} (P : string -> Prop) (d : dict V) (k : string) :
  confined P (getitem d k).
Proof. unfold getitem. destruct (Dict.get d k); confined_step. Qed.

Lemma confined_to_float (P : string -> Prop) (group : string) : confined P (to_float group).
Proof. unfold to_float. destruct (Text.py_float group); confined_step. Qed.

Lemma confined_subscript (P : string -> Prop) (obj : pyval) (k : string) :
  confined P (subscript obj k).
Proof.
  unfold subscript. confined_step; [confined_step|].
  destruct obj; try confined_step.
  destruct (heap a !! l) as [[d|]|]; try confined_step.
  apply confined_getitem.
Qed.

Lemma confined_store_subscript (P : string -> Prop) (obj : pyval) (k : string) (x : pyval) :
  confined P (store_subscript obj k x).
Proof.
  unfold store_subscript. confined_step; [confined_step|].
  destruct obj; try confined_step.
  destruct (heap a !! l) as [[d|]|]; confined_step.
Qed.

Lemma confined_walk (P : string -> Prop) (path : list string) :
  forall obj, confined P (walk obj path).
Proof.
  induction path as [|k path IH]; intros obj; cbn [walk].
  - confined_step.
  - confined_step; [apply confined_subscript|apply IH].
Qed.

Lemma confined_assign (P : string -> Prop) (obj : pyval) (path : list string)
    (key : string) (rhs : M pyval) :
  confined P rhs -> confined P (assign obj path key rhs).
Proof.
  intros H. unfold assign. confined_step; [exact H|].
  confined_step; [apply confined_walk|apply confined_store_subscript].
Qed.

Lemma confined_json_load (P : string -> Prop) (path : string) : confined P (json_load path).
Proof.
  unfold json_load. confined_step; [confined_step|]. confined_step; [confined_step|].
  destruct (fs a0 !! path) as [[j| |]|]; try confined_step.
  destruct (Heap.loads j (heap a0)) as [v h']. confined_step; confined_step.
Qed.

Lemma confined_deep_copy (P : string -> Prop) (v : pyval) : confined P (deep_copy v).
Proof.
  unfold deep_copy. confined_step; [confined_step|].
  destruct (Heap.dumps (heap a) v) as [j|]; [|confined_step].
  destruct (Heap.loads j (heap a)) as [v' h']. confined_step; confined_step.
Qed.

Lemma confined_for_each {A S} (P : string -> Prop) (I : S -> Prop)
    (body : A -> S -> M S) :
  (forall x s, I s -> confined P (body x s)) ->
  (forall x s, I s -> yields I (body x s)) ->
  forall xs s, I s -> confined P (for_each xs body s).
Proof.
  intros Hbody Hinv. induction xs as [|x xs IH]; intros s Hs; cbn [for_each].
  - confined_step.
  - intros w path Hp. rewrite bind_unfold.
    pose proof (Hbody x s Hs w path Hp) as H1.
    pose proof (Hinv x s Hs w) as H2.
    destruct (body x s w) as [s' w1|e w1]; cbn in *.
    + rewrite (IH s' (H2 s' w1 eq_refl) w1 path Hp). exact H1.
    + exact H1.
Qed.

Lemma yields_ret {A} (Q : A -> Prop) (a : A) : Q a -> yields Q (ret a).
Proof. intros H w a' w' [= <- _]. exact H. Qed.

Lemma yields_bind {A B} (Q : B -> Prop) (m : M A) (k : A -> M B) :
  (forall a, yields Q (k a)) -> yields Q (bind m k).
Proof.
  intros Hk w b w' H. rewrite bind_unfold in H.
  destruct (m w) as [a w1|e w1]; [|discriminate].
  exact (Hk a w1 b w' H).
Qed.

Lemma yields_bind_with {A B} (Q1 : A -> Prop) (Q : B -> Prop) (m : M A) (k : A -> M B) :
  yields Q1 m -> (forall a, Q1 a -> yields Q (k a)) -> yields Q (bind m k).
Proof.
  intros Hm Hk w b w' H. rewrite bind_unfold in H.
  destruct (m w) as [a w1|e w1] eqn:Hmw; [|discriminate].
  exact (Hk a (Hm w a w1 Hmw) w1 b w' H).
Qed.

(** *** [hyperparameter_optimization.py] *)

Lemma confined_create_config (P : string -> Prop) (params : dict scalar) :
  confined P (HyperOpt.create_config params).
Proof.
  unfold HyperOpt.create_config, HyperOpt.set_from.
  repeat first
    [ apply confined_deep_copy
    | apply confined_assign
    | apply confined_getitem
    | confined_step ].
Qed.

Lemma inside_config_path (self : HyperOpt.optimizer) (run_id : nat) :
  inside (HyperOpt.results_dir self) (HyperOpt.config_path self run_id).
Proof. eexists. reflexivity. Qed.

Lemma inside_output_path (self : HyperOpt.optimizer) (run_id : nat) :
  inside (HyperOpt.results_dir self) (HyperOpt.output_path self run_id).
Proof. eexists. reflexivity. Qed.

Lemma confined_parse_per_digit (P : string -> Prop) (output : string) :
  confined P (HyperOpt.parse_per_digit output).
Proof.
  unfold HyperOpt.parse_per_digit.
  apply (confined_for_each P (fun _ => True)); [| |exact I].
  - intros d pd _. unfold HyperOpt.parse_digit.
    destruct (Text.search_digit d output); [|confined_step].
    confined_step; [apply confined_to_float|confined_step].
  - intros d pd _ w a w' _. exact I.
Qed.

Lemma confined_run_experiment (E : env) (self : HyperOpt.optimizer) (config : pyval)
    (run_id : nat) :
  confined (inside (HyperOpt.results_dir self)) (HyperOpt.run_experiment E self config run_id).
Proof.
  unfold HyperOpt.run_experiment, HyperOpt.attempt, HyperOpt.run_and_parse,
    HyperOpt.parse_accuracy.
  confined_step; [apply confined_json_dump_to; apply inside_config_path|].
  apply confined_try_except; [|intros e; repeat confined_step].
  apply confined_try_except; [|intros e; repeat confined_step].
  confined_step; [apply confined_subprocess_run|].
  confined_step.
  { destruct (Text.search_overall a0.1.2); [apply confined_to_float|repeat confined_step]. }
  confined_step; [apply confined_parse_per_digit|].
  confined_step; [apply confined_write_file; apply inside_output_path|confined_step].
Qed.

Lemma confined_save_results (E : env) (self : HyperOpt.optimizer) :
  confined (inside (HyperOpt.results_dir self)) (HyperOpt.save_results E self).
Proof.
  unfold HyperOpt.save_results.
  confined_step; apply confined_write_file; eexists; reflexivity.
Qed.

Lemma yields_update_best (a : Q) (fp : dict scalar) (self : HyperOpt.optimizer) :
  yields (fun s => HyperOpt.results_dir s = HyperOpt.results_dir self)
         (HyperOpt.update_best a fp self).
Proof.
  unfold HyperOpt.update_best.
  destruct (float_gt a (HyperOpt.best_accuracy self)).
  - apply yields_bind. intros _. apply yields_ret. reflexivity.
  - apply yields_ret. reflexivity.
Qed.

Lemma confined_update_best (P : string -> Prop) (a : Q) (fp : dict scalar)
    (self : HyperOpt.optimizer) :
  confined P (HyperOpt.update_best a fp self).
Proof.
  unfold HyperOpt.update_best.
  destruct (float_gt a (HyperOpt.best_accuracy self)); repeat confined_step.
Qed.

Lemma yields_grid_step (E : env) (names : list string) (n : nat)
    (ic : nat * list scalar) (self : HyperOpt.optimizer) :
  yields (fun s => HyperOpt.results_dir s = HyperOpt.results_dir self)
         (HyperOpt.grid_step E names n ic self).
Proof.
  unfold HyperOpt.grid_step. destruct ic as [i combo].
  apply yields_bind. intros _.
  apply yields_bind. intros config.
  apply yields_bind. intros [accuracy per_digit].
  apply yields_bind. intros t.
  apply yields_bind. intros _.
  eapply yields_bind_with; [apply yields_update_best|].
  intros self2 Hdir. apply yields_bind. intros _. apply yields_ret. exact Hdir.
Qed.

Lemma confined_grid_step (E : env) (names : list string) (n : nat)
    (ic : nat * list scalar) (self : HyperOpt.optimizer) :
  confined (inside (HyperOpt.results_dir self)) (HyperOpt.grid_step E names n ic self).
Proof.
  unfold HyperOpt.grid_step. destruct ic as [i combo].
  apply confined_bind; [confined_step|intros _].
  apply confined_bind; [apply confined_create_config|intros config].
  apply confined_bind; [apply confined_run_experiment|intros [accuracy per_digit]].
  apply confined_bind; [apply confined_time_time|intros t].
  apply confined_bind; [confined_step|intros _].
  intros w path Hp. rewrite bind_unfold.
  pose proof (confined_update_best (inside (HyperOpt.results_dir self)) accuracy
                (HyperOpt.fill_defaults (Dict.of_zip names combo))
                (HyperOpt.Optimizer (HyperOpt.build_dir self) (HyperOpt.results_dir self)
                   (HyperOpt.results self
                    ++ [HyperOpt.Trial (length (HyperOpt.results self))
                          (HyperOpt.fill_defaults (Dict.of_zip names combo))
                          accuracy per_digit t])
                   (HyperOpt.best_accuracy self) (HyperOpt.best_config self))
                w path Hp) as H1.
  pose proof (yields_update_best accuracy
                (HyperOpt.fill_defaults (Dict.of_zip names combo))
                (HyperOpt.Optimizer (HyperOpt.build_dir self) (HyperOpt.results_dir self)
                   (HyperOpt.results self
                    ++ [HyperOpt.Trial (length (HyperOpt.results self))
                          (HyperOpt.fill_defaults (Dict.of_zip names combo))
                          accuracy per_digit t])
                   (HyperOpt.best_accuracy self) (HyperOpt.best_config self))
                w) as H2.
  destruct (HyperOpt.update_best _ _ _ w) as [self2 w1|e w1]; cbn in *; [|exact H1].
  specialize (H2 self2 w1 eq_refl). cbn in H2.
  rewrite bind_unfold.
  pose proof (confined_save_results E self2 w1 path) as H3.
  rewrite H2 in H3. specialize (H3 Hp).
  destruct (HyperOpt.save_results E self2 w1) as [[] w2|e w2]; cbn in *;
    rewrite H3; exact H1.
Qed.

Lemma confined_select_combinations (E : env) (P : string -> Prop)
    (grid : dict (list scalar)) (max_experiments : Z) :
  confined P (HyperOpt.select_combinations E grid max_experiments).
Proof.
  unfold HyperOpt.select_combinations.
  destruct (max_experiments <? Z.of_nat (length (product (map snd grid))))%Z;
    [|confined_step].
  confined_step; [apply confined_random_seed|apply confined_random_sample].
Qed.

Lemma confined_grid_search (E : env) (grid : dict (list scalar)) (max_experiments : Z)
    (self : HyperOpt.optimizer) :
  confined (inside (HyperOpt.results_dir self))
           (HyperOpt.grid_search E grid max_experiments self).
Proof.
  unfold HyperOpt.grid_search.
  confined_step; [confined_step|].
  confined_step; [apply confined_select_combinations|].
  confined_step; [confined_step|].
  apply (confined_for_each _
           (fun s => HyperOpt.results_dir s = HyperOpt.results_dir self));
    [| |reflexivity].
  - intros ic s Hs. rewrite <- Hs. apply confined_grid_step.
  - intros ic s Hs w s' w' H. rewrite <- Hs.
    exact (yields_grid_step E _ _ ic s w s' w' H).
Qed.

Lemma yields_grid_search (E : env) (grid : dict (list scalar)) (max_experiments : Z)
    (self : HyperOpt.optimizer) :
  yields (fun s => HyperOpt.results_dir s = HyperOpt.results_dir self)
         (HyperOpt.grid_search E grid max_experiments self).
Proof.
  unfold HyperOpt.grid_search.
  apply yields_bind. intros _. apply yields_bind. intros combos.
  apply yields_bind. intros _.
  generalize (imap pair combos). intros ics. revert self.
  induction ics as [|ic ics IH]; intros self; cbn [for_each].
  - apply yields_ret. reflexivity.
  - eapply yields_bind_with; [apply yields_grid_step|].
    intros s Hs w s' w' H. rewrite <- Hs. exact (IH s w s' w' H).
Qed.

Lemma confined_final_validation (E : env) (self : HyperOpt.optimizer) (best : dict scalar) :
  confined (inside (HyperOpt.results_dir self)) (HyperOpt.final_validation E self best).
Proof.
  unfold HyperOpt.final_validation.
  confined_step; [confined_step|].
  confined_step; [apply confined_create_config|].
  confined_step; [apply confined_assign; confined_step|].
  confined_step; [apply confined_assign; confined_step|].
  confined_step; [apply confined_run_experiment|].
  confined_step; [confined_step|].
  confined_step; [apply confined_json_dump_to; eexists; reflexivity|confined_step].
Qed.

(** X14.  [hyperparameter_optimization.py] opens files for writing inside
    its results directory and nowhere else: whatever the outcome of the
    child processes, the disk and the generator, and whether the search
    returns or raises, every file outside the directory is afterwards as it
    was before.  This holds for a grid search on any optimizer and for
    [main] as a whole.  Files the child process may write are outside the
    model. *)
Theorem search_writes_only_results_dir (E : env) (grid : dict (list scalar))
    (max_experiments : Z) (self : HyperOpt.optimizer) (w : world) (path : string) :
  (~ inside (HyperOpt.results_dir self) path ->
   fs (final_world (HyperOpt.grid_search E grid max_experiments self w)) !! path
   = fs w !! path)
  /\ (~ inside "results/hyperparam" path ->
      fs (final_world (HyperOpt.main E w)) !! path = fs w !! path).
Proof.
  split.
  - apply confined_grid_search.
  - revert w path.
    change (confined (inside "results/hyperparam") (HyperOpt.main E)).
    unfold HyperOpt.main, HyperOpt.search_phases.
    assert (Hinit : HyperOpt.results_dir HyperOpt.init = "results/hyperparam")
      by reflexivity.
    intros w path Hp. rewrite bind_unfold.
    assert (Hphases :
      confined (inside "results/hyperparam") (HyperOpt.search_phases E)
      /\ yields (fun s => HyperOpt.results_dir s = "results/hyperparam")
                (HyperOpt.search_phases E)).
    { unfold HyperOpt.search_phases. split.
      - confined_step; [confined_step|].
        intros w0 p0 Hp0. rewrite bind_unfold.
        pose proof (confined_grid_search E HyperOpt.phase1_grid 16 HyperOpt.init w0 p0 Hp0)
          as H1.
        pose proof (yields_grid_search E HyperOpt.phase1_grid 16 HyperOpt.init w0) as H2.
        destruct (HyperOpt.grid_search E HyperOpt.phase1_grid 16 HyperOpt.init w0)
          as [s w1|e w1]; cbn in *; [|exact H1].
        specialize (H2 s w1 eq_refl). cbn in H2.
        rewrite <- H1.
        assert (Hrest : confined (inside "results/hyperparam")
                  (print (PPhaseBest (HyperOpt.best_accuracy s) (HyperOpt.best_config s)) ;;;
                   if HyperOpt.truthy (HyperOpt.best_config s)
                   then print (PText "PHASE 2: Fine-tuning (similarity_threshold, max_patterns)") ;;;
                        HyperOpt.grid_search E HyperOpt.phase2_grid 12 s
                   else ret s)).
        { confined_step; [confined_step|].
          destruct (HyperOpt.truthy (HyperOpt.best_config s)); [|confined_step].
          confined_step; [confined_step|].
          assert (Hs : HyperOpt.results_dir s = "results/hyperparam") by exact H2.
          rewrite <- Hs. apply confined_grid_search. }
        exact (Hrest w1 p0 Hp0).
      - apply yields_bind. intros _.
        eapply yields_bind_with; [apply yields_grid_search|].
        intros s Hs. apply yields_bind. intros _.
        destruct (HyperOpt.truthy (HyperOpt.best_config s)).
        + apply yields_bind. intros _.
          intros w0 s' w' H.
          rewrite (yields_grid_search E _ _ s w0 s' w' H). exact Hs.
        + apply yields_ret. exact Hs. }
    destruct Hphases as [Hc Hy].
    pose proof (Hc w path Hp) as H1. pose proof (Hy w) as H2.
    fold (HyperOpt.search_phases E).
    destruct (HyperOpt.search_phases E w) as [s w1|e w1]; cbn in *; [|exact H1].
    specialize (H2 s w1 eq_refl). cbn in H2.
    rewrite <- H1.
    assert (Hrest : confined (inside "results/hyperparam")
              ((if HyperOpt.truthy (HyperOpt.best_config s)
                then HyperOpt.final_validation E s
                       (match HyperOpt.best_config s with Some c => c | None => [] end)
                else ret tt) ;;;
               print (PText "OPTIMIZATION COMPLETE") ;;; ret s)).
    { confined_step; [|repeat confined_step].
      destruct (HyperOpt.truthy (HyperOpt.best_config s)); [|confined_step].
      rewrite <- H2. apply confined_final_validation. }
    exact (Hrest w1 path Hp).
Qed.

(** *** The Optuna studies *)

Lemma confined_suggest_int (P : string -> Prop) (Opt : optuna) (number : nat)
    (name : string) (low high step : Z) :
  confined P (Trial.suggest_int Opt number name low high step).
Proof. unfold Trial.suggest_int. repeat confined_step. Qed.

Lemma confined_suggest_float (P : string -> Prop) (Opt : optuna) (number : nat)
    (name : string) (low high step : Q) :
  confined P (Trial.suggest_float Opt number name low high step).
Proof. unfold Trial.suggest_float. repeat confined_step. Qed.

Lemma confined_saccades_run (E : env) (P : string -> Prop) (path : string) :
  confined P (Saccades.run_experiment E path).
Proof.
  unfold Saccades.run_experiment, Saccades.run_and_parse.
  apply confined_try_except; [|intros e; repeat confined_step].
  apply confined_try_except; [|intros e; repeat confined_step].
  apply confined_bind; [apply confined_subprocess_run|intros result].
  destruct (Text.search_overall_ws _); [|repeat confined_step].
  apply confined_bind; [apply confined_to_float|intros a]. repeat confined_step.
Qed.

Lemma confined_focused_run (E : env) (P : string -> Prop) (path : string) :
  confined P (SaccadesFocused.run_experiment E path).
Proof.
  unfold SaccadesFocused.run_experiment, SaccadesFocused.run_and_parse.
  apply confined_try_except; [|intros e; repeat confined_step].
  apply confined_try_except; [|intros e; repeat confined_step].
  apply confined_bind; [apply confined_subprocess_run|intros result].
  destruct (Text.search_overall_ws _); [|repeat confined_step].
  apply confined_bind; [apply confined_to_float|intros a]. repeat confined_step.
Qed.

Lemma confined_objective (E : env) (Opt : optuna) (number : nat) :
  confined (fun p => p = Saccades.TEMP_CONFIG) (Saccades.objective E Opt number).
Proof.
  unfold Saccades.objective.
  repeat first
    [ apply confined_json_load
    | apply confined_json_dump_to; reflexivity
    | apply confined_saccades_run
    | apply confined_suggest_int
    | apply confined_suggest_float
    | apply confined_assign
    | confined_step ].
Qed.

Lemma confined_objective_focused (E : env) (Opt : optuna) (number : nat) :
  confined (fun p => p = SaccadesFocused.TEMP_CONFIG)
           (SaccadesFocused.objective E Opt number).
Proof.
  unfold SaccadesFocused.objective.
  repeat first
    [ apply confined_json_load
    | apply confined_json_dump_to; reflexivity
    | apply confined_focused_run
    | apply confined_suggest_int
    | apply confined_suggest_float
    | apply confined_assign
    | confined_step ].
Qed.

Lemma confined_optimize (P : string -> Prop) (objective : nat -> M Q) (n : nat) :
  (forall number, confined P (objective number)) ->
  forall study, confined P (optimize objective n study).
Proof.
  intros Hobj. induction n as [|n IH]; intros study; cbn [optimize].
  - confined_step.
  - confined_step; [|apply IH].
    apply confined_try_except.
    + confined_step; [apply Hobj|confined_step].
    + intros e. confined_step.
Qed.

(** X15.  During [study.optimize] the two Optuna scripts write one file,
    their temporary configuration: after any number of trials, however the
    study ends, every other file is as it was; in particular the base
    configuration each trial starts from is never modified on disk.  Files
    the child process may write are outside the model. *)
Theorem study_writes_only_temp_config (E : env) (Opt : optuna) (n : nat)
    (study : list frozen_trial) (w : world) (path : string) :
  (path <> Saccades.TEMP_CONFIG ->
   fs (final_world (optimize (Saccades.objective E Opt) n study w)) !! path
   = fs w !! path)
  /\ (path <> SaccadesFocused.TEMP_CONFIG ->
      fs (final_world (optimize (SaccadesFocused.objective E Opt) n study w)) !! path
      = fs w !! path)
  /\ fs (final_world (optimize (Saccades.objective E Opt) n study w))
       !! Saccades.BASE_CONFIG
     = fs w !! Saccades.BASE_CONFIG
  /\ fs (final_world (optimize (SaccadesFocused.objective E Opt) n study w))
       !! SaccadesFocused.BASE_CONFIG
     = fs w !! SaccadesFocused.BASE_CONFIG.
Proof.
  splits.
  - apply (confined_optimize _ _ n (confined_objective E Opt) study w path).
  - apply (confined_optimize _ _ n (confined_objective_focused E Opt) study w path).
  - apply (confined_optimize _ _ n (confined_objective E Opt) study w). discriminate.
  - apply (confined_optimize _ _ n (confined_objective_focused E Opt) study w). discriminate.
Qed.

(** *** The single-axis sweeps *)

Lemma confined_candidate_config (P : string -> Prop) (S : sweep) (x : scalar) :
  confined P (SweepScript.candidate_config S x).
Proof.
  unfold SweepScript.candidate_config.
  apply confined_bind; [apply confined_deep_copy|intros config].
  apply confined_bind; [|intros _; confined_step].
  apply (confined_for_each P (fun _ => True)); [| |exact I].
  - intros target [] _. apply confined_assign. confined_step.
  - intros target [] _ w a w' _. exact I.
Qed.

Lemma confined_sweep_run (E : env) (S : sweep) (x : scalar) :
  confined (inside (sweep_dir S)) (SweepScript.run_experiment E S x).
Proof.
  unfold SweepScript.run_experiment, SweepScript.attempt, SweepScript.run_and_parse.
  apply confined_bind; [apply confined_candidate_config|intros config].
  apply confined_bind; [apply confined_json_dump_to; eexists; reflexivity|intros _].
  apply confined_try_except; [|intros e; repeat confined_step].
  apply confined_bind; [apply confined_subprocess_run|intros result].
  apply confined_bind.
  - destruct (Text.search_overall _); [apply confined_to_float|confined_step].
  - intros a. apply confined_bind; [|intros _; confined_step].
    apply confined_write_file. eexists. reflexivity.
Qed.

Lemma confined_sweep_main (E : env) (S : sweep) :
  confined (inside (sweep_dir S)) (SweepScript.main E S).
Proof.
  unfold SweepScript.main, SweepScript.sweep_loop.
  apply confined_bind.
  - apply (confined_for_each _ (fun _ => True)); [| |exact I].
    + intros x l _. unfold SweepScript.step.
      apply confined_bind; [confined_step|intros _].
      apply confined_bind; [apply confined_sweep_run|intros a].
      apply confined_bind; [confined_step|intros _].
      destruct (float_gt a (SweepScript.best_accuracy l)); repeat confined_step.
    + intros x l _ w a w' _. exact I.
  - intros l. apply confined_bind; [|intros _; confined_step].
    unfold SweepScript.report.
    apply confined_bind.
    { destruct (SweepScript.best l); [confined_step|].
      destruct (sweep_formats_best S); confined_step. }
    intros b. apply confined_bind; [confined_step|intros _].
    apply confined_bind.
    { apply (confined_for_each _ (fun _ => True)); [| |exact I].
      - intros r [] _. confined_step.
      - intros r [] _ w a w' _. exact I. }
    intros _. apply confined_bind; [apply confined_write_file; eexists; reflexivity|intros _].
    destruct (SweepScript.best l) as [b'|]; [|confined_step].
    destruct (sweep_saves_best S); [|confined_step].
    apply confined_bind; [apply confined_candidate_config|intros best_config].
    apply confined_bind; [apply confined_json_dump_to; eexists; reflexivity|intros _].
    confined_step.
Qed.

(** X16.  The single-axis sweeps open files for writing inside their
    results directory and nowhere else, whether [main] returns or raises.
    Files the child process may write are outside the model. *)
Theorem sweep_writes_only_results_dir (E : env) (S : sweep) (w : world) (path : string) :
  ~ inside (sweep_dir S) path ->
  fs (final_world (SweepScript.main E S w)) !! path = fs w !! path.
Proof. apply confined_sweep_main. Qed.

Lemma sweep_writes_only_results_dir_witness :
  fs (final_world (OptimizeEdgeThreshold.main crashing_env
                     (SweepScript.initial_world OptimizeEdgeThreshold.script
                        {["notes.txt" := FText "keep"]} [])))
    !! "notes.txt"
  = Some (FText "keep").
Proof.
  unfold OptimizeEdgeThreshold.main.
  rewrite (sweep_writes_only_results_dir crashing_env OptimizeEdgeThreshold.script).
  - reflexivity.
  - intros [name H]. discriminate.
Defined.

(** ** The configuration of a candidate *)

Ltac candidate_config_tac Hbase :=
  match goal with
  | |- context [SweepScript.candidate_config ?S ?x (World ?h ?files ?out ?g ?t ?cs)] =>
      unfold SweepScript.candidate_config;
      rewrite bind_unfold,
        (deep_copy_ok (SweepScript.BASE_CONFIG S) (sweep_doc S)
           (World h files out g t cs) Hbase);
      cbn [OptimizeK.script OptimizeEdgeFine.script OptimizeEdgeThreshold.script
           sweep_doc sweep_targets heap fs console rng ticks calls];
      rewrite loads_sweep_base; cbn [fst snd];
      match goal with
      | |- context [World (h ++ map (relocate_obj (length h)) ?objs) _ _ _ _ _] =>
          change (World (h ++ map (relocate_obj (length h)) objs) files out g t cs)
            with (with_block h files out g t cs objs)
      end;
      cbn [for_each]; rewrite !bind_unfold;
      erewrite assign_rel; [|reflexivity|apply relocate_scalar|lazy -[to_val]; reflexivity];
      cbv beta iota; rewrite ?bind_unfold;
      try (erewrite assign_rel;
           [|reflexivity|apply relocate_scalar|lazy -[to_val]; reflexivity]);
      unfold ret;
      eexists _, _; split; [reflexivity|]; split;
      [ apply (dumps_block h _ 13 (VRef 11)); [|cbn; lia];
        match goal with
        | |- Heap.dumps_fuel _ ?o _ = Some ?d =>
            let H := fresh "H" in
            assert (H : exists j, Heap.dumps_fuel 13 o (VRef 11) = Some j /\ j = d);
            [eexists; split; [dump_json|reflexivity]
            |destruct H as (? & H & <-); exact H]
        end
      | apply dumps_app; exact Hbase ]
  end.

Lemma candidate_config_doc (S : sweep) (x : scalar) (w : world) :
  S ∈ scripts ->
  sweep_intact S (heap w) ->
  exists config new,
    SweepScript.candidate_config S x w
    = Ret config (World (heap w ++ new) (fs w) (console w) (rng w) (ticks w) (calls w))
    /\ Heap.dumps (heap w ++ new) config = Some (candidate_doc S x)
    /\ sweep_intact S (heap w ++ new).
Proof.
  intros HS Hbase. destruct w as [h files out g t cs].
  cbn [heap fs console rng ticks calls] in *.
  unfold scripts in HS.
  apply elem_of_cons in HS as [->|HS]; [candidate_config_tac Hbase|].
  apply elem_of_cons in HS as [->|HS]; [candidate_config_tac Hbase|].
  apply list_elem_of_singleton in HS as ->. candidate_config_tac Hbase.
Qed.

Lemma confined_sweep_attempt (E : env) (S : sweep) (x : scalar) :
  confined (fun p => p = SweepScript.output_path E S x) (SweepScript.attempt E S x).
Proof.
  unfold SweepScript.attempt, SweepScript.run_and_parse.
  apply confined_try_except; [|intros e; repeat confined_step].
  apply confined_bind; [apply confined_subprocess_run|intros result].
  apply confined_bind.
  - destruct (Text.search_overall _); [apply confined_to_float|confined_step].
  - intros a. apply confined_bind; [|intros _; confined_step].
    apply confined_write_file. reflexivity.
Qed.

Lemma scripts_intact (S : sweep) (files : gmap string file) (g : list Z) :
  S ∈ scripts -> sweep_intact S (heap (SweepScript.initial_world S files g)).
Proof.
  intros HS. unfold scripts in HS.
  apply elem_of_cons in HS as [->|HS]; [apply k_world_intact|].
  apply elem_of_cons in HS as [->|HS]; [apply edge_world_intact|].
  apply list_elem_of_singleton in HS as ->. vm_compute. reflexivity.
Qed.

Lemma scripts_config (S : sweep) :
  S ∈ scripts ->
  forall x w,
    sweep_intact S (heap w) ->
    exists config new j,
      SweepScript.candidate_config S x w
      = Ret config (World (heap w ++ new) (fs w) (console w) (rng w) (ticks w) (calls w))
      /\ Heap.dumps (heap w ++ new) config = Some j
      /\ sweep_intact S (heap w ++ new).
Proof.
  intros HS x w Hbase.
  destruct (candidate_config_doc S x w HS Hbase) as (config & new & Hrun & Hdoc & Hb).
  exists config, new, (candidate_doc S x). splits; assumption.
Qed.

(** X17.  Each sweep hands the child the base configuration with the
    candidate written at its targets and nothing else changed:
    [classification.k_neighbors] for [optimize_k.py], and both
    [network.edge_threshold] and
    [adapters.retina.parameters.edge_threshold] for the two edge sweeps, so
    the two copies of the threshold always agree.  The module-level
    [BASE_CONFIG] is left as it was. *)
Theorem sweep_config_carries_candidate (E : env) (S : sweep) (x : scalar) (w : world) :
  S ∈ scripts ->
  writable E ->
  sweep_intact S (heap w) ->
  exists a w',
    SweepScript.run_experiment E S x w = Ret a w'
    /\ (0 <= a)%Q
    /\ fs w' !! SweepScript.config_path E S x = Some (FJson (candidate_doc S x))
    /\ Forall (fun target =>
                 Json.get (fst target ++ [snd target]) (candidate_doc S x)
                 = Some (scalar_json x))
              (sweep_targets S)
    /\ sweep_intact S (heap w').
Proof.
  intros HS Hw Hbase. unfold SweepScript.run_experiment.
  rewrite bind_unfold.
  destruct (candidate_config_doc S x w HS Hbase) as (config & new & -> & Hdoc & Hbase1).
  set (w1 := World _ _ _ _ _ _).
  rewrite bind_unfold, (json_dump_to_ok E _ config _ w1 (Hw _ _) Hdoc).
  set (w2 := World _ _ _ _ _ _).
  pose proof (confined_sweep_attempt E S x w2 (SweepScript.config_path E S x)) as Hframe.
  destruct (sweep_attempt_cases E S x w2) as (a & w3 & Hrun & Ha & Hheap & _).
  rewrite Hrun in *. cbn [final_world] in Hframe.
  exists a, w3. splits.
  - reflexivity.
  - exact Ha.
  - rewrite Hframe.
    + subst w2 w1. cbn [fs]. apply lookup_insert_eq.
    + unfold SweepScript.config_path, SweepScript.output_path.
      intros H. apply append_inj in H. discriminate.
  - unfold scripts in HS.
    apply elem_of_cons in HS as [->|HS];
      [repeat constructor|].
    apply elem_of_cons in HS as [->|HS];
      [repeat constructor|].
    apply list_elem_of_singleton in HS as ->. repeat constructor.
  - rewrite Hheap. exact Hbase1.
Qed.

Lemma sweep_config_carries_candidate_witness :
  exists a w',
    OptimizeEdgeThreshold.run_experiment silent_env (SFloat 0.13)
      (SweepScript.initial_world OptimizeEdgeThreshold.script ∅ []) = Ret a w'
    /\ (Json.get ["network"; "edge_threshold"]
          (candidate_doc OptimizeEdgeThreshold.script (SFloat 0.13)),
        Json.get ["adapters"; "retina"; "parameters"; "edge_threshold"]
          (candidate_doc OptimizeEdgeThreshold.script (SFloat 0.13)))
       = (Some (JFloat 0.13), Some (JFloat 0.13)).
Proof.
  destruct (sweep_config_carries_candidate silent_env OptimizeEdgeThreshold.script
              (SFloat 0.13) (SweepScript.initial_world OptimizeEdgeThreshold.script ∅ []))
    as (a & w' & Hrun & _).
  - unfold scripts. repeat constructor.
  - exact silent_env_writable.
  - apply scripts_intact. unfold scripts. repeat constructor.
  - exists a, w'. split; [exact Hrun|reflexivity].
Defined.

(** ** How a sweep ends *)

Lemma for_each_print {A} (f : A -> line) (xs : list A) (w : world) :
  for_each xs (fun x (_ : unit) => print (f x)) tt w = Ret tt (printed w (map f xs)).
Proof.
  revert w. induction xs as [|x xs IH]; intros w; cbn [for_each map].
  - unfold ret, printed. rewrite app_nil_r. destruct w; reflexivity.
  - rewrite bind_unfold. unfold print at 1. rewrite IH.
    unfold printed. cbn [heap fs console rng ticks calls].
    rewrite <- app_assoc. reflexivity.
Qed.

(** X18.  When no candidate scored above 0.0 the loop of a sweep ends with
    no best candidate.  The two edge sweeps then stop with a [TypeError]
    while formatting [None] as a float, before any result line is printed
    and before [summary.txt] is written; [optimize_k.py], which prints its
    best without a format, goes on and writes a summary whose best is
    [None] and in which no line is marked. *)
Theorem sweep_report_without_best (E : env) (S : sweep) (w : world)
    (l : SweepScript.locals) (w1 : world) :
  SweepScript.sweep_loop E S w = Ret l w1 ->
  SweepScript.best l = None ->
  (sweep_formats_best S = true -> SweepScript.main E S w = Exc TypeError w1)
  /\ (sweep_formats_best S = false ->
      can_write E (ticks w1) (sweep_dir S +:+ "/summary.txt") = true ->
      exists w',
        SweepScript.main E S w = Ret l w'
        /\ fs w' = <[sweep_dir S +:+ "/summary.txt" :=
                       FSummary (SBestValue SNone (SweepScript.best_accuracy l)
                                 :: map (fun r => SResult (fst r) (snd r) false)
                                        (SweepScript.results l))]> (fs w1)).
Proof.
  intros Hloop Hbest. unfold SweepScript.main. rewrite bind_unfold, Hloop.
  unfold SweepScript.report. rewrite Hbest. split.
  - intros ->. reflexivity.
  - intros -> Hc. rewrite !bind_unfold. unfold ret at 1. unfold print at 1.
    rewrite !bind_unfold.
    rewrite (for_each_print
               (fun r => PResultLine (fst r) (snd r) (SweepScript.is_best l (fst r)))).
    rewrite bind_unfold, write_file_ok by exact Hc.
    unfold ret. eexists. split; [reflexivity|].
    cbn [fs printed]. do 3 f_equal.
    apply map_ext. intros r. unfold SweepScript.is_best. rewrite Hbest. reflexivity.
Qed.

Lemma sweep_report_without_best_witness :
  (exists w', OptimizeEdgeFine.main timeout_env
                (SweepScript.initial_world OptimizeEdgeFine.script ∅ [])
              = Exc TypeError w'
              /\ fs w' !! "results/edge_fine/summary.txt" = None)
  /\ (exists l w', OptimizeK.main timeout_env
                     (SweepScript.initial_world OptimizeK.script ∅ []) = Ret l w'
                   /\ is_Some (fs w' !! "results/k_optimization/summary.txt")).
Proof.
  split.
  - assert (H : exists l w1,
               SweepScript.sweep_loop timeout_env OptimizeEdgeFine.script
                 (SweepScript.initial_world OptimizeEdgeFine.script ∅ []) = Ret l w1
               /\ SweepScript.best l = None
               /\ fs w1 !! "results/edge_fine/summary.txt" = None).
    { eexists _, _. split; [vm_compute; reflexivity|]. split; vm_compute; reflexivity. }
    destruct H as (l & w1 & Hloop & Hbest & Hfs).
    exists w1. split; [|exact Hfs].
    apply (sweep_report_without_best timeout_env OptimizeEdgeFine.script _ l w1 Hloop Hbest).
    reflexivity.
  - assert (H : exists l w1,
               SweepScript.sweep_loop timeout_env OptimizeK.script
                 (SweepScript.initial_world OptimizeK.script ∅ []) = Ret l w1
               /\ SweepScript.best l = None).
    { eexists _, _. split; [vm_compute; reflexivity|reflexivity]. }
    destruct H as (l & w1 & Hloop & Hbest).
    destruct (sweep_report_without_best timeout_env OptimizeK.script _ l w1 Hloop Hbest)
      as (_ & Hk).
    destruct (Hk eq_refl eq_refl) as (w' & Hmain & Hfs).
    exists l, w'. split; [exact Hmain|].
    rewrite Hfs.
    change "results/k_optimization/summary.txt"
      with (sweep_dir OptimizeK.script +:+ "/summary.txt").
    rewrite lookup_insert_eq. eexists. reflexivity.
Defined.

Lemma sweep_track_first (rs : list (scalar * Q)) :
  forall b,
    (sweep_track b rs = b /\ Forall (fun r => (snd r <= snd b)%Q) rs)
    \/ (exists i x a,
          rs !! i = Some (x, a)
          /\ sweep_track b rs = (Some x, a)
          /\ (snd b < a)%Q
          /\ Forall (fun r => (snd r <= a)%Q) rs
          /\ (forall j r, j < i -> rs !! j = Some r -> (snd r < a)%Q)).
Proof.
  induction rs as [|[x a] rs IH]; intros b.
  - left. split; [reflexivity|constructor].
  - unfold sweep_track. cbn [fold_left fst snd].
    fold (sweep_track (if float_gt a (snd b) then (Some x, a) else b) rs).
    destruct (float_gt a (snd b)) eqn:Hgt.
    + apply float_gt_spec in Hgt. right.
      destruct (IH (Some x, a)) as [[Heq Hall]|(i & x2 & a2 & Hi & Heq & Hlt & Hall & Hbefore)].
      * exists 0, x, a. cbn [snd] in Hall. splits; try assumption; try reflexivity.
        -- constructor; [apply Qle_refl|exact Hall].
        -- intros j r Hj. lia.
      * exists (S i), x2, a2. cbn [snd] in Hlt. splits; try assumption.
        -- eapply Qlt_trans; eauto.
        -- constructor; [apply Qlt_le_weak; exact Hlt|exact Hall].
        -- intros [|j] r Hj Hr; simpl in Hr.
           ++ injection Hr as <-. exact Hlt.
           ++ apply (Hbefore j r); [lia|exact Hr].
    + apply float_gt_false in Hgt.
      destruct (IH b) as [[Heq Hall]|(i & x2 & a2 & Hi & Heq & Hlt & Hall & Hbefore)].
      * left. split; [exact Heq|]. constructor; assumption.
      * right. exists (S i), x2, a2. splits; try assumption.
        -- constructor; [|exact Hall]. cbn [snd].
           apply Qlt_le_weak. eapply Qle_lt_trans; eauto.
        -- intros [|j] r Hj Hr; simpl in Hr.
           ++ injection Hr as <-. cbn [snd]. eapply Qle_lt_trans; eauto.
           ++ apply (Hbefore j r); [lia|exact Hr].
Qed.

(** X19.  The loop of a sweep tries every candidate of its list, in order,
    and ends with the first candidate of greatest accuracy as its best,
    provided that accuracy is above 0.0: every result is at most the best
    accuracy and every earlier result is strictly below it.  With no
    accuracy above 0.0 there is no best. *)
Theorem sweep_best_is_first_maximum (E : env) (S : sweep) (w : world) :
  S ∈ scripts ->
  writable E ->
  sweep_intact S (heap w) ->
  exists l w',
    SweepScript.sweep_loop E S w = Ret l w'
    /\ map fst (SweepScript.results l) = sweep_candidates S
    /\ match SweepScript.best l with
       | None =>
           SweepScript.best_accuracy l = 0%Q
           /\ Forall (fun r => (snd r == 0)%Q) (SweepScript.results l)
       | Some x =>
           exists i,
             SweepScript.results l !! i = Some (x, SweepScript.best_accuracy l)
             /\ (0 < SweepScript.best_accuracy l)%Q
             /\ Forall (fun r => (snd r <= SweepScript.best_accuracy l)%Q)
                       (SweepScript.results l)
             /\ (forall j r, j < i -> SweepScript.results l !! j = Some r ->
                             (snd r < SweepScript.best_accuracy l)%Q)
       end.
Proof.
  intros HS Hw Hbase. unfold SweepScript.sweep_loop.
  destruct (sweep_loop_spec E S Hw (scripts_config S HS) (sweep_candidates S)
              (SweepScript.start) w Hbase)
    as (rs & w' & -> & Hxs & Hall & _).
  eexists _, w'. split; [reflexivity|].
  cbn [SweepScript.results SweepScript.best SweepScript.best_accuracy SweepScript.start app].
  split; [exact Hxs|].
  destruct (sweep_track_first rs (None, 0%Q))
    as [[Heq Hle]|(i & x & a & Hi & Heq & Hlt & Hmax & Hbefore)];
    rewrite Heq; cbn [fst snd] in *.
  - split; [reflexivity|].
    rewrite Forall_forall in Hall, Hle |- *. intros r Hr.
    apply Qle_antisym; [apply Hle|apply Hall]; exact Hr.
  - exists i. splits; assumption.
Qed.

Lemma sweep_best_is_first_maximum_witness :
  exists l w',
    OptimizeK.sweep_loop crashing_env (SweepScript.initial_world OptimizeK.script ∅ [])
    = Ret l w'
    /\ map fst (SweepScript.results l)
       = [SInt 1; SInt 3; SInt 5; SInt 7; SInt 9; SInt 11].
Proof.
  destruct (sweep_best_is_first_maximum crashing_env OptimizeK.script
              (SweepScript.initial_world OptimizeK.script ∅ []))
    as (l & w' & Hrun & Hxs & _).
  - unfold scripts. repeat constructor.
  - exact crashing_env_writable.
  - apply k_world_intact.
  - exists l, w'. split; [exact Hrun|exact Hxs].
Defined.

(** ** What [objective] asks of a trial *)

Lemma bind_ret_inv {A B} (m : M A) (k : A -> M B) (w : world) (b : B) (w' : world) :
  bind m k w = Ret b w' -> exists a w1, m w = Ret a w1 /\ k a w1 = Ret b w'.
Proof.
  rewrite bind_unfold. destruct (m w) as [a w1|e w1]; [|discriminate].
  intros H. exists a, w1. split; [reflexivity|exact H].
Qed.

Lemma getitem_same {V} (d : dict V) (k : string) (w : world) (v : V) (w' : world) :
  getitem d k w = Ret v w' -> w' = w.
Proof. unfold getitem. destruct (Dict.get d k); [|discriminate]. intros [= _ <-]. reflexivity. Qed.

Lemma subscript_same (obj : pyval) (k : string) (w : world) (v : pyval) (w' : world) :
  subscript obj k w = Ret v w' -> w' = w.
Proof.
  unfold subscript. rewrite bind_unfold. unfold get_world at 1.
  destruct obj; try discriminate.
  destruct (heap w !! l) as [[d|]|]; try discriminate.
  apply getitem_same.
Qed.

Lemma walk_same (path : list string) :
  forall obj w v w', walk obj path w = Ret v w' -> w' = w.
Proof.
  induction path as [|k path IH]; intros obj w v w' H; cbn [walk] in H.
  - injection H as _ <-. reflexivity.
  - apply bind_ret_inv in H as (o & w1 & H1 & H).
    apply subscript_same in H1. subst w1. exact (IH o w v w' H).
Qed.

Lemma assign_log (obj : pyval) (path : list string) (key : string) (rhs : M pyval)
    (w w' : world) :
  assign obj path key rhs w = Ret tt w' ->
  exists x w1, rhs w = Ret x w1 /\ calls w' = calls w1 /\ console w' = console w1.
Proof.
  unfold assign. intros H.
  apply bind_ret_inv in H as (x & w1 & Hrhs & H).
  apply bind_ret_inv in H as (target & w2 & Hwalk & H).
  apply walk_same in Hwalk. subst w2.
  exists x, w1. split; [exact Hrhs|].
  unfold store_subscript in H. rewrite bind_unfold in H. unfold get_world at 1 in H.
  destruct target; try discriminate.
  destruct (heap w1 !! l) as [[d|]|]; try discriminate.
  injection H as <-. split; reflexivity.
Qed.

Lemma assign_const_log (obj : pyval) (path : list string) (key : string) (v : pyval)
    (w w' : world) :
  assign obj path key (ret v) w = Ret tt w' ->
  calls w' = calls w /\ console w' = console w.
Proof.
  intros H. apply assign_log in H as (x & w1 & Hrhs & Hc & Ho).
  injection Hrhs as _ <-. split; assumption.
Qed.

Lemma assign_int_log (Opt : optuna) (number : nat) (obj : pyval) (path : list string)
    (key name : string) (low high step : Z) (w w' : world) :
  assign obj path key (Trial.suggest_int Opt number name low high step) w = Ret tt w' ->
  exists v, calls w' = calls w ++ [CSuggest number name v] /\ console w' = console w.
Proof.
  intros H. apply assign_log in H as (x & w1 & Hrhs & Hc & Ho).
  unfold Trial.suggest_int in Hrhs. munfold. unfold record_call in Hrhs.
  injection Hrhs as _ <-. eexists. split; [exact Hc|exact Ho].
Qed.

Lemma assign_float_log (Opt : optuna) (number : nat) (obj : pyval) (path : list string)
    (key name : string) (low high step : Q) (w w' : world) :
  assign obj path key (Trial.suggest_float Opt number name low high step) w = Ret tt w' ->
  exists v, calls w' = calls w ++ [CSuggest number name v] /\ console w' = console w.
Proof.
  intros H. apply assign_log in H as (x & w1 & Hrhs & Hc & Ho).
  unfold Trial.suggest_float in Hrhs. munfold. unfold record_call in Hrhs.
  injection Hrhs as _ <-. eexists. split; [exact Hc|exact Ho].
Qed.

Lemma json_load_log (path : string) (w : world) (v : pyval) (w' : world) :
  json_load path w = Ret v w' -> calls w' = calls w /\ console w' = console w.
Proof.
  unfold json_load. munfold. cbn [heap fs console rng ticks calls].
  destruct (fs w !! path) as [[j| |]|]; try discriminate.
  destruct (Heap.loads j (heap w)) as [v' h']. intros [= _ <-]. split; reflexivity.
Qed.

Lemma json_dump_to_log (E : env) (path : string) (v : pyval) (w w' : world) :
  json_dump_to E path v w = Ret tt w' -> calls w' = calls w /\ console w' = console w.
Proof.
  unfold json_dump_to, open_w. munfold.
  destruct (can_write E (ticks w) path); [|discriminate].
  cbn [heap fs console rng ticks calls].
  destruct (Heap.dumps (heap w) v); [|discriminate].
  intros [= <-]. split; reflexivity.
Qed.

Lemma saccades_run_log (E : env) (path : string) (w : world) (a : Q) (w' : world) :
  Saccades.run_experiment E path w = Ret a w' ->
  calls w' = calls w /\ exists ls, console w' = console w ++ ls.
Proof.
  destruct w as [h files out g t cs].
  unfold Saccades.run_experiment, Saccades.run_and_parse, subprocess_run.
  munfold. cbn [heap fs console rng ticks calls].
  destruct (spawn E t [Saccades.EXECUTABLE; path] files) as [rc o err|e].
  - cbn [fst snd].
    destruct (Text.search_overall_ws (o +:+ err)) as [group|].
    + unfold to_float. destruct (Text.py_float group) as [b|]; cbn;
        intros [= _ <-]; (split; [reflexivity|]); eexists; reflexivity.
    + cbn. intros [= _ <-]. split; [reflexivity|].
      cbn. rewrite <- app_assoc. eexists. reflexivity.
  - destruct (is_timeout e); cbn; intros [= _ <-];
      (split; [reflexivity|]); eexists; reflexivity.
Qed.

Lemma focused_run_log (E : env) (path : string) (w : world) (a : Q) (w' : world) :
  SaccadesFocused.run_experiment E path w = Ret a w' ->
  calls w' = calls w /\ exists ls, console w' = console w ++ ls.
Proof.
  destruct w as [h files out g t cs].
  unfold SaccadesFocused.run_experiment, SaccadesFocused.run_and_parse, subprocess_run.
  munfold. cbn [heap fs console rng ticks calls].
  destruct (spawn E t [SaccadesFocused.EXECUTABLE; path] files) as [rc o err|e].
  - cbn [fst snd].
    destruct (Text.search_overall_ws (o +:+ err)) as [group|].
    + unfold to_float. destruct (Text.py_float group) as [b|]; cbn;
        intros [= _ <-]; (split; [reflexivity|]); eexists; reflexivity.
    + cbn. intros [= _ <-]. split; [reflexivity|]. eexists. reflexivity.
  - destruct (is_timeout e); cbn; intros [= _ <-];
      (split; [reflexivity|]); eexists; reflexivity.
Qed.

Lemma params_of_fresh (number : nat) (log : list call) (vs : list (string * scalar)) :
  fresh_trial number log ->
  NoDup (map fst vs) ->
  Trial.params number (log ++ map (fun nv => CSuggest number (fst nv) (snd nv)) vs) = vs.
Proof.
  intros Hfresh Hnd. unfold Trial.params.
  rewrite omap_app.
  assert (H1 : omap (fun c => match c with
                              | CSuggest n name v =>
                                  if (n =? number)%nat then Some (name, v) else None
                              | _ => None
                              end) log = []).
  { induction Hfresh as [|c log Hc _ IH]; [reflexivity|].
    destruct c as [n name v|n v s|n b]; simpl; try exact IH.
    destruct (n =? number)%nat eqn:He; [|exact IH].
    apply Nat.eqb_eq in He. contradiction. }
  rewrite H1. cbn [app].
  assert (H2 : omap (fun c => match c with
                              | CSuggest n name v =>
                                  if (n =? number)%nat then Some (name, v) else None
                              | _ => None
                              end)
                    (map (fun nv => CSuggest number (fst nv) (snd nv)) vs) = vs).
  { clear. induction vs as [|[name v] vs IH]; [reflexivity|].
    simpl. rewrite Nat.eqb_refl. f_equal. exact IH. }
  rewrite H2. unfold Dict.of_pairs. rewrite of_pairs_fresh; [reflexivity|exact Hnd].
Qed.

Ltac objective_step H Hc Ho :=
  let w1 := fresh "w" in
  let H1 := fresh "Hstep" in
  let Hc1 := fresh "Hc" in
  let Ho1 := fresh "Ho" in
  let v := fresh "v" in
  apply bind_ret_inv in H as ([] & w1 & H1 & H);
  first
    [ apply assign_int_log in H1 as (v & Hc1 & Ho1)
    | apply assign_float_log in H1 as (v & Hc1 & Ho1)
    | apply assign_const_log in H1 as (Hc1 & Ho1)
    | apply json_load_log in H1 as (Hc1 & Ho1)
    | apply json_dump_to_log in H1 as (Hc1 & Ho1) ];
  rewrite Hc in Hc1; rewrite Ho in Ho1; rewrite <- ?app_assoc in Hc1; cbn [app] in Hc1;
  clear Hc Ho; rename Hc1 into Hc; rename Ho1 into Ho.

Ltac calls_to_pairs l :=
  lazymatch l with
  | [] => constr:(@nil (string * scalar))
  | CSuggest _ ?name ?v :: ?l' =>
      let r := calls_to_pairs l' in constr:((name, v) :: r)
  end.

Ltac objective_finish number w H Hc Ho Hfresh run_log :=
  let wa := fresh "w" in
  let wb := fresh "w" in
  let wc := fresh "w" in
  let H1 := fresh "Hstep" in
  let H2 := fresh "Hstep" in
  let H3 := fresh "Hstep" in
  let H4 := fresh "Hstep" in
  let a1 := fresh "a" in
  let ls := fresh "ls" in
  let Hc1 := fresh "Hc" in
  let Ho1 := fresh "Ho" in
  apply bind_ret_inv in H as (? & wa & H1 & H);
  unfold get_world in H1; injection H1 as <- <-;
  apply bind_ret_inv in H as ([] & wb & H2 & H);
  unfold print in H2; injection H2 as <-;
  apply bind_ret_inv in H as (a1 & wc & H3 & H);
  apply run_log in H3 as (Hc1 & ls & Ho1);
  cbn [heap fs console rng ticks calls] in Hc1, Ho1;
  apply bind_ret_inv in H as ([] & ? & H4 & H);
  unfold print in H4; injection H4 as <-;
  unfold ret in H; injection H as _ <-;
  cbn [heap fs console rng ticks calls];
  rewrite Hc1, Ho1, Ho, Hc;
  lazymatch type of Hc with
  | _ = _ ++ ?L =>
      let vs := calls_to_pairs L in
      exists vs;
      let Hparams := fresh "Hparams" in
      assert (Hparams : Trial.params number
                (calls w ++ map (fun nv => CSuggest number (fst nv) (snd nv)) vs) = vs)
        by (apply (params_of_fresh number (calls w) vs Hfresh);
            apply (bool_decide_unpack _); vm_compute; reflexivity);
      cbn [map fst snd] in Hparams |- *;
      split; [reflexivity|]; split; [reflexivity|]; split; [exact Hparams|];
      rewrite Hparams;
      apply list_elem_of_In, in_or_app; left;
      apply in_or_app; left; apply in_or_app; right; left; reflexivity
  end.

(** X20.  A trial of [optimize_saccades.py] whose number is new to the log
    of calls and whose objective returns has asked its trial object for
    eleven values, once each and in a fixed order, and for nothing else; the
    parameters printed for the trial are these eleven values.  A trial of
    [optimize_saccades_focused.py] asks for eight in the same way. *)
Theorem objective_asks_fixed_parameters (E : env) (Opt : optuna) (number : nat)
    (w : world) (a : Q) (w' : world) :
  fresh_trial number (calls w) ->
  (Saccades.objective E Opt number w = Ret a w' ->
   exists vs,
     calls w' = calls w ++ map (fun nv => CSuggest number (fst nv) (snd nv)) vs
     /\ map fst vs = saccades_parameters
     /\ Trial.params number (calls w') = vs
     /\ PTrial (number + 1) Saccades.NUM_TRIALS vs ∈ console w')
  /\ (SaccadesFocused.objective E Opt number w = Ret a w' ->
      exists vs,
        calls w' = calls w ++ map (fun nv => CSuggest number (fst nv) (snd nv)) vs
        /\ map fst vs = focused_parameters
        /\ Trial.params number (calls w') = vs
        /\ PTrial (number + 1) SaccadesFocused.NUM_TRIALS vs ∈ console w').
Proof.
  intros Hfresh. split.
  - intros H. unfold Saccades.objective in H.
    apply bind_ret_inv in H as (config & w1 & H1 & H).
    apply json_load_log in H1 as (Hc & Ho).
    do 13 objective_step H Hc Ho.
    objective_finish number w H Hc Ho Hfresh saccades_run_log.
  - intros H. unfold SaccadesFocused.objective in H.
    apply bind_ret_inv in H as (config & w1 & H1 & H).
    apply json_load_log in H1 as (Hc & Ho).
    do 12 objective_step H Hc Ho.
    objective_finish number w H Hc Ho Hfresh focused_run_log.
Qed.

Lemma objective_asks_fixed_parameters_witness :
  exists a w',
    Saccades.objective letters_env (constant_study false) 0 saccades_world = Ret a w'
    /\ length (calls w') = 11.
Proof.
  assert (Hrun : exists a w',
             Saccades.objective letters_env (constant_study false) 0 saccades_world
             = Ret a w').
  { eexists _, _. vm_compute. reflexivity. }
  destruct Hrun as (a & w' & Hrun).
  destruct (objective_asks_fixed_parameters letters_env (constant_study false) 0
              saccades_world a w') as [Hasks _].
  - constructor.
  - destruct (Hasks Hrun) as (vs & Hcalls & Hnames & _).
    exists a, w'. split; [exact Hrun|].
    rewrite Hcalls. cbn [calls saccades_world app].
    rewrite length_map. apply (f_equal length) in Hnames.
    rewrite length_map in Hnames. exact Hnames.
Defined.
